(** * The persistence layer of the finance tracker

    A shallow embedding of [src/database/init.js], [migrations.js],
    [settingsService.js], [categoryService.js], [transactionService.js],
    [budgetService.js] and [index.js] (the startup entry point), together
    with the properties of the specification that concern them.

    Conventions of the embedding.

    - JavaScript values are the inductive [jsval].  A JavaScript number is
      the rational ([Q]) that a double holds, or [NaN]; subtraction,
      multiplication and division round their exact result to the nearest
      double ([fl]).  The infinities, the negative zero and the reduced
      precision of subnormal numbers are not modelled.
    - A thrown [Error] is the value [Error message]; the source has no error
      classes, the specification's error kinds are recovered from the
      message ([kind_of]).
    - Every function of the source that awaits [executeSql] is a computation
      in the monad [M]: it takes the [world] (connection handle, wall clock,
      number of statements sent to the engine, and the stored database) and
      returns an [outcome] with the world it leaves behind, also when it
      throws.  [console.log] and [console.error] are not modelled, so a
      [catch] block that logs and rethrows is the identity.
    - Each SQL statement of the source is one function on [database]; tables
      are lists of rows in insertion order, the settings table (text primary
      key) is a finite map.  Foreign keys are declared but not enforced by the
      engine (the code never turns the pragma on), so they are not modelled.
      Stored values keep the JavaScript value that was bound. *)

From Stdlib Require Import ZArith QArith Qround String Ascii List Bool Lia Lqa.
From stdpp Require Import base gmap strings sorting pretty.

Import ListNotations.
Open Scope string_scope.

(** ** JavaScript values *)

Inductive jsval : Type :=
| JUndefined
| JNull
| JBool (b : bool)
| JNum (q : Q)
| JNaN
| JStr (s : string).

(** [ToBoolean]. *)
Definition truthy (v : jsval) : bool :=
  match v with
  | JUndefined | JNull | JNaN => false
  | JBool b => b
  | JNum q => negb (Qeq_bool q 0)
  | JStr s => negb (String.eqb s EmptyString)
  end.

(** [a || b]. *)
Definition js_or (a b : jsval) : jsval := if truthy a then a else b.

Definition typeof (v : jsval) : string :=
  match v with
  | JUndefined => "undefined"
  | JNull => "object"
  | JBool _ => "boolean"
  | JNum _ | JNaN => "number"
  | JStr _ => "string"
  end.

(** [v <= q] for a number [q]; only reached in the source once [typeof v] is
    known to be ["number"], where [NaN <= q] is false. *)
Definition js_le_num (v : jsval) (q : Q) : bool :=
  match v with
  | JNum x => Qle_bool x q
  | _ => false
  end.

(** [v > w] on numbers (false as soon as one side is not a number). *)
Definition js_gt (v w : jsval) : bool :=
  match v, w with
  | JNum x, JNum y => negb (Qle_bool x y)
  | _, _ => false
  end.

(** *** Double precision

    An arithmetic operation of JavaScript returns the double nearest to its
    exact result, the one with the even significand when two are equally
    near.  A double other than zero is [m * 2 ^ e] with
    [2 ^ 52 <= m < 2 ^ 53]. *)

(** The integer nearest to [n / d] (for [0 < d]), the even one of two. *)
Definition nearest_even (n d : Z) : Z :=
  let q := (n / d)%Z in
  match (2 * (n mod d) ?= d)%Z with
  | Lt => q
  | Gt => (q + 1)%Z
  | Eq => if Z.even q then q else (q + 1)%Z
  end.

(** The exponent [e] of the last place of [n / d]:
    [2 ^ 52 <= (n / d) / 2 ^ e < 2 ^ 53]. *)
Definition last_place (n d : positive) : Z :=
  let l := (Z.log2 (Zpos n) - Z.log2 (Zpos d))%Z in
  let l := if (Zpos d * 2 ^ Z.max 0 l <=? Zpos n * 2 ^ Z.max 0 (- l))%Z
           then l else (l - 1)%Z in
  (l - 52)%Z.

(** [m * 2 ^ e]. *)
Definition scaled (m e : Z) : Q :=
  if (0 <=? e)%Z then inject_Z (m * 2 ^ e) else m # Z.to_pos (2 ^ (- e)).

Definition fl_pos (n d : positive) : Q :=
  let e := last_place n d in
  Qred (scaled (nearest_even (Zpos n * 2 ^ Z.max 0 (- e)) (Zpos d * 2 ^ Z.max 0 e)) e).

(** The double nearest to [q], in lowest terms. *)
Definition fl (q : Q) : Q :=
  match Qnum (Qred q) with
  | Z0 => 0
  | Zpos n => fl_pos n (Qden (Qred q))
  | Zneg n => - fl_pos n (Qden (Qred q))
  end.

(** [a - b] on numbers; the conversion of operands that are no numbers is
    outside the model ([NaN]). *)
Definition js_sub (a b : jsval) : jsval :=
  match a, b with
  | JNum x, JNum y => JNum (fl (x - y))
  | _, _ => JNaN
  end.

(** [a / b] on numbers; division by zero is outside the model ([NaN]). *)
Definition js_div (a b : jsval) : jsval :=
  match a, b with
  | JNum x, JNum y => if Qeq_bool y 0 then JNaN else JNum (fl (x / y))
  | _, _ => JNaN
  end.

Definition js_mul (a b : jsval) : jsval :=
  match a, b with
  | JNum x, JNum y => JNum (fl (x * y))
  | _, _ => JNaN
  end.

(** [Math.round]: the integer nearest to its argument, halves rounded
    towards plus infinity; the function is exact on every double. *)
Definition Math_round (v : jsval) : jsval :=
  match v with
  | JNum x => JNum (inject_Z (Qfloor (x + (1 # 2))))
  | _ => JNaN
  end.

(** [list.includes(v)] for a list of string literals (strict equality). *)
Definition includes (l : list string) (v : jsval) : bool :=
  match v with
  | JStr s => existsb (String.eqb s) l
  | _ => false
  end.

(** ** Strings *)

Definition is_digit (c : ascii) : bool :=
  let n := N_of_ascii c in ((48 <=? n) && (n <=? 57))%N.

Definition is_hex_digit (c : ascii) : bool :=
  let n := N_of_ascii c in
  (((48 <=? n) && (n <=? 57)) || ((65 <=? n) && (n <=? 70)) ||
   ((97 <=? n) && (n <=? 102)))%N.

(** White space removed by [String.prototype.trim], as far as it is ASCII:
    tab, line feed, vertical tab, form feed, carriage return and space.  The
    method also removes the white space of Unicode beyond ASCII (no-break
    space, byte order mark, line and paragraph separator, the other space
    separators), which is not modelled: [trim] below is the method on texts
    made of ASCII characters only. *)
Definition is_space (c : ascii) : bool :=
  let n := N_of_ascii c in (((9 <=? n) && (n <=? 13)) || (n =? 32))%N.

Fixpoint drop_spaces (l : list ascii) : list ascii :=
  match l with
  | c :: l' => if is_space c then drop_spaces l' else l
  | [] => []
  end.

Definition trim (s : string) : string :=
  string_of_list_ascii
    (rev (drop_spaces (rev (drop_spaces (list_ascii_of_string s))))).

Definition dash : ascii := "-"%char.

(** [/^\d{4}-\d{2}-\d{2}$/.test(s)] on a string. *)
Definition is_iso_date (s : string) : bool :=
  match list_ascii_of_string s with
  | [y1; y2; y3; y4; h1; m1; m2; h2; d1; d2] =>
      forallb is_digit [y1; y2; y3; y4; m1; m2; d1; d2] &&
      Ascii.eqb h1 dash && Ascii.eqb h2 dash
  | _ => false
  end.

(** The same test on a value.  [RegExp.prototype.test] converts its argument
    to a string first; the string of [undefined], [null], a boolean or a
    number never has the digits-and-dashes shape, so only strings can match. *)
Definition date_regex_test (v : jsval) : bool :=
  match v with
  | JStr s => is_iso_date s
  | _ => false
  end.

(** [/^#[0-9A-F]{6}$/i.test(v)]. *)
Definition color_regex_test (v : jsval) : bool :=
  match v with
  | JStr s =>
      match list_ascii_of_string s with
      | [h; a; b; c; d; e; f] =>
          Ascii.eqb h "#"%char && forallb is_hex_digit [a; b; c; d; e; f]
      | _ => false
      end
  | _ => false
  end.

(** [s.split('T')[0]]: the part of [s] before the first ["T"]. *)
Fixpoint before_T (s : string) : string :=
  match s with
  | EmptyString => EmptyString
  | String c s' => if Ascii.eqb c "T"%char then EmptyString else String c (before_T s')
  end.

(** A number inside a template literal.  Integers print in decimal as in
    JavaScript; the decimal expansion JavaScript prints for other numbers is
    not modelled, they are shown as a fraction. *)
Definition show_number (q : Q) : string :=
  let r := Qred q in
  if Pos.eqb (Qden r) 1 then pretty (Qnum r)
  else pretty (Qnum r) +:+ "/" +:+ pretty (Zpos (Qden r)).

Definition show (v : jsval) : string :=
  match v with
  | JUndefined => "undefined"
  | JNull => "null"
  | JBool true => "true"
  | JBool false => "false"
  | JNum q => show_number q
  | JNaN => "NaN"
  | JStr s => s
  end.

(** [parseInt(s, 10)]: leading white space, an optional sign, then the
    longest run of decimal digits; [None] stands for [NaN]. *)
Fixpoint parse_digits (l : list ascii) (acc : option Z) : option Z :=
  match l with
  | c :: l' =>
      if is_digit c
      then parse_digits l'
             (Some (10 * default 0%Z acc + (Z.of_N (N_of_ascii c) - 48))%Z)
      else acc
  | [] => acc
  end.

Definition parseInt (s : string) : option Z :=
  match drop_spaces (list_ascii_of_string s) with
  | c :: l =>
      if Ascii.eqb c "-"%char then Z.opp <$> parse_digits l None
      else if Ascii.eqb c "+"%char then parse_digits l None
      else parse_digits (c :: l) None
  | [] => None
  end.

(** ** Errors and outcomes *)

Inductive error : Type := Error (message : string).

Definition message_of (e : error) : string := let 'Error m := e in m.

Inductive outcome (A : Type) : Type :=
| Ok (a : A)
| Throw (e : error).
Arguments Ok {A} a.
Arguments Throw {A} e.

(** [haystack.includes(needle)] on strings. *)
Fixpoint is_prefix (p s : string) : bool :=
  match p, s with
  | EmptyString, _ => true
  | String a p', String b s' => Ascii.eqb a b && is_prefix p' s'
  | String _ _, EmptyString => false
  end.

Fixpoint str_includes (needle haystack : string) : bool :=
  is_prefix needle haystack ||
  match haystack with
  | EmptyString => false
  | String _ h' => str_includes needle h'
  end.

(** ** The stored database *)

(** Rows.  The [id] column is [INTEGER PRIMARY KEY AUTOINCREMENT]; every other
    column holds the value the insert or update bound to it. *)
Record category : Type := {
  c_id : Z;
  c_name : jsval;
  c_icon : jsval;
  c_color : jsval;
  c_is_default : jsval;
  c_created_at : jsval
}.

Record transaction : Type := {
  t_id : Z;
  t_amount : jsval;
  t_description : jsval;
  t_date : jsval;
  t_type : jsval;
  t_category_id : jsval;
  t_is_manually_set : jsval;
  t_source : jsval;
  t_raw_data : jsval;
  t_created_at : jsval;
  t_updated_at : jsval
}.

Record budget : Type := {
  b_id : Z;
  b_category_id : jsval;
  b_amount : jsval;
  b_period : jsval;
  b_start_date : jsval;
  b_end_date : jsval;
  b_created_at : jsval;
  b_updated_at : jsval
}.

Record setting : Type := {
  s_value : string;
  s_updated_at : string
}.

(** A table with an [AUTOINCREMENT] key: its rows in insertion order and the
    largest key handed out so far (the [sqlite_sequence] entry). *)
Record table (A : Type) : Type := {
  rows : list A;
  seq : Z
}.
Arguments rows {A} _.
Arguments seq {A} _.

Definition empty_table {A : Type} : table A := {| rows := []; seq := 0 |}.

(** A table is [None] until its [CREATE TABLE] ran. *)
Record database : Type := {
  categories : option (table category);
  transactions : option (table transaction);
  budgets : option (table budget);
  settings : option (gmap string setting);
  indexes : gset string
}.

Definition empty_database : database :=
  {| categories := None; transactions := None; budgets := None;
     settings := None; indexes := ∅ |}.

Definition set_categories (c : option (table category)) (d : database) : database :=
  {| categories := c; transactions := transactions d; budgets := budgets d;
     settings := settings d; indexes := indexes d |}.

Definition set_transactions (t : option (table transaction)) (d : database) : database :=
  {| categories := categories d; transactions := t; budgets := budgets d;
     settings := settings d; indexes := indexes d |}.

Definition set_budgets (b : option (table budget)) (d : database) : database :=
  {| categories := categories d; transactions := transactions d; budgets := b;
     settings := settings d; indexes := indexes d |}.

Definition set_settings (s : option (gmap string setting)) (d : database) : database :=
  {| categories := categories d; transactions := transactions d;
     budgets := budgets d; settings := s; indexes := indexes d |}.

Definition set_indexes (i : gset string) (d : database) : database :=
  {| categories := categories d; transactions := transactions d;
     budgets := budgets d; settings := settings d; indexes := i |}.

(** *** Comparison of stored values

    SQLite compares two texts byte by byte and two numbers numerically, sorts
    every number before every text, and never finds [NULL] equal to, below or
    above anything.  The driver binds numbers, strings and [null]; the other
    JavaScript values are compared like [NULL].  Conversions by column
    affinity (a text that looks like a number compared with an integer
    column, a number compared with a text column) are not modelled: the
    properties are stated for values that have the storage class of their
    column, numbers for keys and texts for dates. *)
Definition sql_eq (a b : jsval) : bool :=
  match a, b with
  | JStr x, JStr y => String.eqb x y
  | JNum x, JNum y => Qeq_bool x y
  | _, _ => false
  end.

Definition sql_le (a b : jsval) : bool :=
  match a, b with
  | JStr x, JStr y => String.leb x y
  | JNum x, JNum y => Qle_bool x y
  | JNum _, JStr _ => true
  | _, _ => false
  end.

(** [ORDER BY]: [NULL] sorts before every number and every number before
    every text. *)
Definition order_le (a b : jsval) : bool :=
  match a, b with
  | JStr x, JStr y => String.leb x y
  | JStr _, _ => false
  | JNum x, JNum y => Qle_bool x y
  | JNum _, JStr _ => true
  | JNum _, _ => false
  | _, _ => true
  end.

(** [ORDER BY k1 DESC, k2 DESC] on two rows whose keys are [(a1, a2)] and
    [(b1, b2)]: the first row may come first. *)
Definition desc_desc (a1 a2 b1 b2 : jsval) : bool :=
  order_le b1 a1 && (negb (order_le a1 b1) || order_le b2 a2).

(** [ORDER BY k1 DESC, k2 ASC]. *)
Definition desc_asc (a1 a2 b1 b2 : jsval) : bool :=
  order_le b1 a1 && (negb (order_le a1 b1) || order_le a2 b2).

(** [LIMIT ? OFFSET ?] on the ordered rows: a negative limit is no limit, a
    negative offset is no offset. *)
Definition page {A : Type} (lim off : option Z) (l : list A) : list A :=
  let l' := match off with
            | Some o => drop (Z.to_nat o) l
            | None => l
            end in
  match lim with
  | Some n => if (n <? 0)%Z then l' else take (Z.to_nat n) l'
  | None => l'
  end.

(** The numeric reading of a stored value inside [SUM]: texts that are not
    numbers count as zero. *)
Definition num_of (v : jsval) : Q :=
  match v with
  | JNum q => q
  | _ => 0%Q
  end.

Definition is_sql_null (v : jsval) : bool :=
  match v with
  | JNum _ | JStr _ => false
  | _ => true
  end.

Definition total (l : list jsval) : Q := fold_right (fun v acc => (num_of v + acc)%Q) 0%Q l.

(** [SUM(x)]: [NULL] when no row contributes a value that is not [NULL].
    The engine adds doubles, in an order and with a compensation that depend
    on its version; the sum here is the exact one, which the engine returns
    whenever every partial sum is a double, as with whole amounts whose sum
    is a safe integer. *)
Definition sql_sum (l : list jsval) : jsval :=
  match filter (fun v => is_sql_null v = false) l with
  | [] => JNull
  | l' => JNum (total l')
  end.

(** [COALESCE(v, 0)]. *)
Definition coalesce0 (v : jsval) : jsval :=
  if is_sql_null v then JNum 0 else v.

Definition no_such_table {A : Type} (name : string) : outcome A :=
  Throw (Error ("no such table: " +:+ name)).

(** ** init.js: the connection manager *)

Definition DATABASE_VERSION : Z := 1.

Record world : Type := {
  handle : bool;        (* the module variable [db]: is a connection cached *)
  clock : string;       (* what [new Date().toISOString()] returns *)
  executed : nat;       (* statements handed to the engine so far *)
  store : database
}.

Definition M (A : Type) : Type := world -> outcome A * world.

Definition ret {A : Type} (a : A) : M A := fun w => (Ok a, w).

Definition throw {A : Type} (e : error) : M A := fun w => (Throw e, w).

Definition bind {A B : Type} (m : M A) (k : A -> M B) : M B :=
  fun w =>
    match m w with
    | (Ok a, w') => k a w'
    | (Throw e, w') => (Throw e, w')
    end.

(** [try { m } catch (error) { h error }]. *)
Definition try_catch {A : Type} (m : M A) (h : error -> M A) : M A :=
  fun w =>
    match m w with
    | (Ok a, w') => (Ok a, w')
    | (Throw e, w') => h e w'
    end.

(** A synchronous call that may throw, such as a validator. *)
Definition lift {A : Type} (o : outcome A) : M A := fun w => (o, w).

Declare Scope js_scope.
Delimit Scope js_scope with js.
Notation "'let!' x ':=' m 'in' k" := (bind m (fun x => k))
  (at level 10, x name, m at level 100, k at level 200) : js_scope.
Notation "'do!' m 'in' k" := (bind m (fun _ => k))
  (at level 10, m at level 100, k at level 200) : js_scope.
Open Scope js_scope.

(** [new Date().toISOString()]. *)
Definition toISOString : M string := fun w => (Ok (clock w), w).

(** [new Date().toISOString().split('T')[0]]. *)
Definition today : M string := fun w => (Ok (before_T (clock w)), w).

(** [openDatabase]: reuses the cached handle or opens (and caches) one. *)
Definition openDatabase : M unit :=
  fun w =>
    if handle w then (Ok tt, w)
    else (Ok tt, {| handle := true; clock := clock w; executed := executed w;
                    store := store w |}).

Definition closeDatabase : M unit :=
  fun w =>
    if handle w
    then (Ok tt, {| handle := false; clock := clock w; executed := executed w;
                    store := store w |})
    else (Ok tt, w).

(** [executeSql(query, params)]: opens the connection if needed and runs one
    statement, given here by its effect on the database. *)
Definition executeSql {A : Type} (statement : database -> outcome A * database) : M A :=
  do! openDatabase in
  fun w =>
    let (r, d) := statement (store w) in
    (r, {| handle := handle w; clock := clock w; executed := S (executed w);
           store := d |}).

(** [deleteDatabase]: closes the connection and asks the library to remove
    the file.  [removal] is how the library call [SQLite.deleteDatabase]
    ends: when it resolves the file is gone, when it rejects the error is
    thrown again and the file is as it was. *)
Definition deleteDatabase (removal : outcome unit) : M unit :=
  do! closeDatabase in
  match removal with
  | Ok _ =>
      fun w => (Ok tt, {| handle := handle w; clock := clock w;
                          executed := executed w; store := empty_database |})
  | Throw e => throw e
  end.

(** ** migrations.js: schema and version bookkeeping *)

(** [CREATE TABLE IF NOT EXISTS ...], one statement per table. *)
Definition create_table_categories (d : database) : outcome unit * database :=
  (Ok tt, match categories d with
          | Some _ => d
          | None => set_categories (Some empty_table) d
          end).

Definition create_table_transactions (d : database) : outcome unit * database :=
  (Ok tt, match transactions d with
          | Some _ => d
          | None => set_transactions (Some empty_table) d
          end).

Definition create_table_budgets (d : database) : outcome unit * database :=
  (Ok tt, match budgets d with
          | Some _ => d
          | None => set_budgets (Some empty_table) d
          end).

Definition create_table_settings (d : database) : outcome unit * database :=
  (Ok tt, match settings d with
          | Some _ => d
          | None => set_settings (Some ∅) d
          end).

(** [CREATE INDEX IF NOT EXISTS name ON table(column)]: the engine looks the
    table up first, then skips an index that is already there. *)
Definition create_index (name table_name : string) (table_exists : database -> bool)
    (d : database) : outcome unit * database :=
  if table_exists d
  then (Ok tt, set_indexes ({[ name ]} ∪ indexes d) d)
  else (no_such_table ("main." +:+ table_name), d).

Definition has_transactions (d : database) : bool := bool_decide (is_Some (transactions d)).
Definition has_budgets (d : database) : bool := bool_decide (is_Some (budgets d)).

Definition createTables : M unit :=
  do! executeSql create_table_categories in
  do! executeSql create_table_transactions in
  do! executeSql create_table_budgets in
  executeSql create_table_settings.

Definition createIndexes : M unit :=
  do! executeSql (create_index "idx_transactions_date" "transactions" has_transactions) in
  do! executeSql (create_index "idx_transactions_category" "transactions" has_transactions) in
  do! executeSql (create_index "idx_transactions_type" "transactions" has_transactions) in
  executeSql (create_index "idx_budgets_category" "budgets" has_budgets).

(** [SELECT value FROM settings WHERE key = ?]: the list of matching rows. *)
Definition select_setting_value (key : string) (d : database)
    : outcome (list string) * database :=
  match settings d with
  | None => (no_such_table "settings", d)
  | Some m => (Ok (match m !! key with
                   | Some s => [s_value s]
                   | None => []
                   end), d)
  end.

(** [INSERT OR REPLACE INTO settings (key, value, updated_at) VALUES (?, ?, ?)]. *)
Definition insert_or_replace_setting (key value updated_at : string) (d : database)
    : outcome unit * database :=
  match settings d with
  | None => (no_such_table "settings", d)
  | Some m =>
      (Ok tt, set_settings
                (Some (<[ key := {| s_value := value; s_updated_at := updated_at |} ]> m)) d)
  end.

(** The stored version as a JavaScript number: [None] is [NaN]. *)
Definition getDatabaseVersion : M (option Z) :=
  try_catch
    (let! result := executeSql (select_setting_value "db_version") in
     match result with
     | value :: _ => ret (parseInt value)
     | [] => ret (Some 0%Z)
     end)
    (fun _ => (* Table might not exist yet *) ret (Some 0%Z)).

Definition setDatabaseVersion (version : Z) : M unit :=
  let! now := toISOString in
  executeSql (insert_or_replace_setting "db_version" (pretty version) now).

(** [version === 0]. *)
Definition is_zero (version : option Z) : bool :=
  match version with
  | Some v => Z.eqb v 0
  | None => false
  end.

(** [version < DATABASE_VERSION]; false for [NaN]. *)
Definition is_older (version : option Z) : bool :=
  match version with
  | Some v => Z.ltb v DATABASE_VERSION
  | None => false
  end.

Definition isFirstLaunch : M bool :=
  try_catch
    (let! version := getDatabaseVersion in
     ret (is_zero version))
    (fun _ => ret true).

Definition runMigrations : M unit :=
  do! openDatabase in
  let! currentVersion := getDatabaseVersion in
  if is_zero currentVersion then
    do! createTables in
    do! createIndexes in
    setDatabaseVersion DATABASE_VERSION
  else if is_older currentVersion then
    (* Future migrations will go here *)
    setDatabaseVersion DATABASE_VERSION
  else
    ret tt.

(** [DROP TABLE IF EXISTS ...]; the indexes of a table go with it. *)
Definition drop_table_transactions (d : database) : outcome unit * database :=
  (Ok tt, set_indexes
            (indexes d ∖ {[ "idx_transactions_date"; "idx_transactions_category";
                            "idx_transactions_type" ]})
            (set_transactions None d)).

Definition drop_table_budgets (d : database) : outcome unit * database :=
  (Ok tt, set_indexes (indexes d ∖ {[ "idx_budgets_category" ]}) (set_budgets None d)).

Definition drop_table_categories (d : database) : outcome unit * database :=
  (Ok tt, set_categories None d).

Definition drop_table_settings (d : database) : outcome unit * database :=
  (Ok tt, set_settings None d).

Definition dropAllTables : M unit :=
  do! executeSql drop_table_transactions in
  do! executeSql drop_table_budgets in
  do! executeSql drop_table_categories in
  executeSql drop_table_settings.

(** ** settingsService.js *)

Definition DEFAULT_SETTINGS : list (string * jsval) :=
  [ ("currency", JStr "USD");
    ("theme", JStr "light");
    ("notifications_enabled", JStr "true");
    ("budget_alerts_enabled", JStr "true") ].

(** [null] when the key is absent. *)
Definition getSetting (key : string) : M (option string) :=
  let! result := executeSql (select_setting_value key) in
  match result with
  | [] => ret None
  | value :: _ => ret (Some value)
  end.

(** [setSetting(key, value)] for a string [key] (the [typeof key] test of the
    source is then vacuous); [String(value)] is [show value]. *)
Definition setSetting (key : string) (value : jsval) : M (string * string * string) :=
  if String.eqb key EmptyString || String.eqb (trim key) EmptyString then
    throw (Error "Setting key is required and must be a non-empty string")
  else
    match value with
    | JNull | JUndefined => throw (Error "Setting value cannot be null or undefined")
    | _ =>
        let! updatedAt := toISOString in
        let valueStr := show value in
        do! executeSql (insert_or_replace_setting key valueStr updatedAt) in
        ret (key, valueStr, updatedAt)
    end.

Fixpoint initialize_entries (entries : list (string * jsval)) : M unit :=
  match entries with
  | [] => ret tt
  | (key, value) :: rest =>
      let! existing := getSetting key in
      do! match existing with
          | None => do! setSetting key value in ret tt
          | Some _ => ret tt
          end in
      initialize_entries rest
  end.

Definition initializeDefaultSettings : M unit := initialize_entries DEFAULT_SETTINGS.

(** [SELECT key, value FROM settings]. *)
Definition select_settings (d : database) : outcome (list (string * string)) * database :=
  match settings d with
  | None => (no_such_table "settings", d)
  | Some m => (Ok ((fun kv => (kv.1, s_value kv.2)) <$> map_to_list m), d)
  end.

(** The loop [settings[row.key] = row.value] over the rows of a result: the
    own properties of the object it builds, as a finite map.  The object
    starts as [{}], so an assignment to the key [__proto__] goes to the
    setter it inherits, which ignores a string: no property is created. *)
Definition collect_settings (result : list (string * string)) : gmap string string :=
  fold_left
    (fun acc row => if String.eqb row.1 "__proto__" then acc else <[ row.1 := row.2 ]> acc)
    result ∅.

Definition getAllSettings : M (gmap string string) :=
  let! result := executeSql select_settings in
  ret (collect_settings result).

(** [DELETE FROM settings WHERE key = ?]. *)
Definition delete_setting (key : string) (d : database) : outcome unit * database :=
  match settings d with
  | None => (no_such_table "settings", d)
  | Some m => (Ok tt, set_settings (Some (delete key m)) d)
  end.

Definition deleteSetting (key : string) : M unit := executeSql (delete_setting key).

Definition getSettingWithDefault (key : string) (defaultValue : jsval) : M jsval :=
  try_catch
    (let! value := getSetting key in
     ret (match value with
          | Some v => JStr v
          | None => defaultValue
          end))
    (fun _ => ret defaultValue).



(** The loop of [setMultipleSettings] over [Object.entries(settingsObj)]. *)
Fixpoint set_entries (entries : list (string * jsval)) : M unit :=
  match entries with
  | [] => ret tt
  | (key, value) :: rest =>
      do! setSetting key value in
      set_entries rest
  end.

(** [setMultipleSettings(settingsObj)]: [None] is an argument that is not an
    object (or is [null]), [Some entries] an object with these entries. *)
Definition setMultipleSettings (settingsObj : option (list (string * jsval))) : M unit :=
  match settingsObj with
  | None => throw (Error "Settings must be provided as an object")
  | Some entries => set_entries entries
  end.


(** ** categoryService.js *)

(** The double quote character inside a message. *)
Definition dq : string := String "034"%char EmptyString.

(** [data.x.trim()]: a [TypeError] unless [data.x] is a string. *)
Definition method_trim (v : jsval) : M jsval :=
  match v with
  | JStr s => ret (JStr (trim s))
  | _ => throw (Error "TypeError: trim is not a function")
  end.

(** [v.trim() === ''], evaluated in the source only behind a [typeof] test. *)
Definition is_blank (v : jsval) : bool :=
  match v with
  | JStr s => String.eqb (trim s) EmptyString
  | _ => false
  end.

(** [flag ? 1 : 0]. *)
Definition flag_of (v : jsval) : jsval := if truthy v then JNum 1 else JNum 0.

(** [WHERE id = ?] against an integer key. *)
Definition id_is (key : Z) (v : jsval) : bool := sql_eq (JNum (inject_Z key)) v.

(** [ORDER BY is_default DESC, name ASC]: [a] may come before [b]. *)
Definition defaults_first (a b : category) : Prop :=
  desc_asc (c_is_default a) (c_name a) (c_is_default b) (c_name b) = true.

Global Instance defaults_first_dec (a b : category) : Decision (defaults_first a b).
Proof. unfold defaults_first. apply _. Defined.

Module CategoryService.

Record data : Type := {
  name : jsval;
  icon : jsval;
  color : jsval;
  is_default : jsval
}.

Definition DEFAULT_CATEGORIES : list data :=
  let mk n i c := {| name := JStr n; icon := JStr i; color := JStr c;
                     is_default := JUndefined |} in
  [ mk "Food & Dining" "food" "#FF6B6B";
    mk "Transport" "car" "#4ECDC4";
    mk "Shopping" "shopping" "#45B7D1";
    mk "Bills & Utilities" "receipt" "#FFA07A";
    mk "Entertainment" "movie" "#98D8C8";
    mk "Health & Fitness" "heart" "#F7B731";
    mk "Education" "school" "#5F27CD";
    mk "Groceries" "cart" "#00D2D3";
    mk "Salary" "cash" "#1DD1A1";
    mk "Other Income" "cash-multiple" "#10AC84";
    mk "Uncategorized" "help-circle" "#95A5A6" ].

Definition validateCategory (d : data) : outcome unit :=
  if negb (truthy (name d)) || negb (String.eqb (typeof (name d)) "string") ||
     is_blank (name d)
  then Throw (Error "Category name is required and must be a non-empty string")
  else if truthy (color d) && negb (color_regex_test (color d))
  then Throw (Error "Color must be a valid hex color code (e.g., #FF6B6B)")
  else Ok tt.

(** [INSERT INTO categories (name, icon, color, is_default, created_at)];
    the result is [insertId].  [name] is [UNIQUE]. *)
Definition insert_category (n i c f created : jsval) (d : database)
    : outcome Z * database :=
  match categories d with
  | None => (no_such_table "categories", d)
  | Some t =>
      if existsb (fun r => sql_eq (c_name r) n) (rows t)
      then (Throw (Error "UNIQUE constraint failed: categories.name"), d)
      else
        let k := (seq t + 1)%Z in
        (Ok k, set_categories
                 (Some {| rows := rows t ++
                            [{| c_id := k; c_name := n; c_icon := i; c_color := c;
                                c_is_default := f; c_created_at := created |}];
                          seq := k |}) d)
  end.

Definition createCategory (d : data) : M category :=
  try_catch
    (do! lift (validateCategory d) in
     let! createdAt := toISOString in
     let! trimmed := method_trim (name d) in
     let! insertId :=
       executeSql (insert_category trimmed (js_or (icon d) JNull)
                     (js_or (color d) JNull) (flag_of (is_default d))
                     (JStr createdAt)) in
     let! trimmed' := method_trim (name d) in
     ret {| c_id := insertId; c_name := trimmed'; c_icon := js_or (icon d) JNull;
            c_color := js_or (color d) JNull;
            c_is_default := flag_of (is_default d);
            c_created_at := JStr createdAt |})
    (fun e =>
       if str_includes "UNIQUE constraint failed" (message_of e)
       then throw (Error ("Category with name " +:+ dq +:+ show (name d) +:+ dq +:+
                          " already exists"))
       else throw e).

(** [SELECT * FROM categories WHERE id = ?]. *)
Definition select_category (id : jsval) (d : database)
    : outcome (list category) * database :=
  match categories d with
  | None => (no_such_table "categories", d)
  | Some t => (Ok (filter (fun r => id_is (c_id r) id = true) (rows t)), d)
  end.

(** [null] (here [None]) when no row has this id. *)
Definition getCategoryById (id : jsval) : M (option category) :=
  let! result := executeSql (select_category id) in
  match result with
  | [] => ret None
  | r :: _ => ret (Some r)
  end.

(** [SELECT * FROM categories ORDER BY is_default DESC, name ASC]. *)
Definition select_categories (d : database) : outcome (list category) * database :=
  match categories d with
  | None => (no_such_table "categories", d)
  | Some t => (Ok (merge_sort defaults_first (rows t)), d)
  end.

Definition getAllCategories : M (list category) := executeSql select_categories.

(** [SELECT COUNT( * ) as count FROM transactions WHERE category_id = ?]. *)
Definition count_transactions_of (id : jsval) (d : database) : outcome nat * database :=
  match transactions d with
  | None => (no_such_table "transactions", d)
  | Some t =>
      (Ok (length (filter (fun r => sql_eq (t_category_id r) id = true) (rows t))), d)
  end.

(** [SELECT COUNT( * ) as count FROM budgets WHERE category_id = ?]. *)
Definition count_budgets_of (id : jsval) (d : database) : outcome nat * database :=
  match budgets d with
  | None => (no_such_table "budgets", d)
  | Some t =>
      (Ok (length (filter (fun r => sql_eq (b_category_id r) id = true) (rows t))), d)
  end.

(** [DELETE FROM categories WHERE id = ?]. *)
Definition delete_category (id : jsval) (d : database) : outcome unit * database :=
  match categories d with
  | None => (no_such_table "categories", d)
  | Some t =>
      (Ok tt, set_categories
                (Some {| rows := filter (fun r => id_is (c_id r) id = false) (rows t);
                         seq := seq t |}) d)
  end.

Definition deleteCategory (id : jsval) : M unit :=
  let! existing := getCategoryById id in
  match existing with
  | None => throw (Error ("Category with id " +:+ show id +:+ " not found"))
  | Some _ =>
      let! transactionCount := executeSql (count_transactions_of id) in
      if (0 <? transactionCount)%nat then
        throw (Error ("Cannot delete category with " +:+ pretty transactionCount +:+
                      " associated transaction(s)"))
      else
        let! budgetCount := executeSql (count_budgets_of id) in
        if (0 <? budgetCount)%nat then
          throw (Error ("Cannot delete category with " +:+ pretty budgetCount +:+
                        " associated budget(s)"))
        else
          executeSql (delete_category id)
  end.

(** [{...category, is_default: true}]. *)
Definition as_default (d : data) : data :=
  {| name := name d; icon := icon d; color := color d; is_default := JBool true |}.

(** The loop of [seedDefaultCategories] over the catalogue still to insert;
    [created] is the array [createdCategories]. *)
Fixpoint seed_loop (todo : list data) (created : list category) : M (list category) :=
  match todo with
  | [] => ret created
  | c :: rest =>
      let! created' :=
        try_catch
          (let! row := createCategory (as_default c) in ret (created ++ [row])%list)
          (fun e =>
             (* Skip if category already exists *)
             if negb (str_includes "already exists" (message_of e))
             then throw e
             else ret created) in
      seed_loop rest created'
  end.

Definition seedDefaultCategories : M (list category) := seed_loop DEFAULT_CATEGORIES [].

(** [UPDATE categories SET name = ?, icon = ?, color = ? WHERE id = ?].
    The statement fails on the [UNIQUE] name when it would leave two rows
    with the new name: a row it does not touch already has it, or it touches
    more than one row (which the primary key excludes). *)
Definition update_category (n i c id : jsval) (d : database) : outcome unit * database :=
  match categories d with
  | None => (no_such_table "categories", d)
  | Some t =>
      let hit r := id_is (c_id r) id in
      let upd r :=
        if hit r
        then {| c_id := c_id r; c_name := n; c_icon := i; c_color := c;
                c_is_default := c_is_default r; c_created_at := c_created_at r |}
        else r in
      if (existsb hit (rows t) &&
          existsb (fun r => negb (hit r) && sql_eq (c_name r) n) (rows t)) ||
         (1 <? length (filter (fun r => hit r = true) (rows t)))%nat
      then (Throw (Error "UNIQUE constraint failed: categories.name"), d)
      else (Ok tt, set_categories (Some {| rows := map upd (rows t); seq := seq t |}) d)
  end.

Definition updateCategory (id : jsval) (d : data) : M (option category) :=
  try_catch
    (do! lift (validateCategory d) in
     let! existing := getCategoryById id in
     match existing with
     | None => throw (Error ("Category with id " +:+ show id +:+ " not found"))
     | Some _ =>
         let! trimmed := method_trim (name d) in
         do! executeSql
               (update_category trimmed (js_or (icon d) JNull) (js_or (color d) JNull) id) in
         getCategoryById id
     end)
    (fun e =>
       if str_includes "UNIQUE constraint failed" (message_of e)
       then throw (Error ("Category with name " +:+ dq +:+ show (name d) +:+ dq +:+
                          " already exists"))
       else throw e).

End CategoryService.

(** ** transactionService.js *)

(** A transaction row with the three display columns of its category, as the
    [LEFT JOIN] of [getTransactionById] returns it ([NULL] without category). *)
Record transaction_view : Type := {
  tv_row : transaction;
  tv_category_name : jsval;
  tv_category_icon : jsval;
  tv_category_color : jsval
}.

Record summary : Type := {
  total_income : jsval;
  total_expense : jsval;
  balance : jsval;
  total_count : nat
}.

(** One row of [getSpendingByCategory]. *)
Record spending : Type := {
  sp_id : Z;
  sp_name : jsval;
  sp_icon : jsval;
  sp_color : jsval;
  sp_total_amount : jsval;
  sp_transaction_count : nat
}.

(** [date >= ? AND date <= ?]. *)
Definition in_window (startDate endDate : jsval) (t : transaction) : bool :=
  sql_le startDate (t_date t) && sql_le (t_date t) endDate.

Definition is_expense (t : transaction) : bool := sql_eq (t_type t) (JStr "expense").
Definition is_income (t : transaction) : bool := sql_eq (t_type t) (JStr "income").

(** [ORDER BY total_amount DESC]: [a] may come before [b]. *)
Definition spending_ge (a b : spending) : Prop :=
  Qle_bool (num_of (sp_total_amount b)) (num_of (sp_total_amount a)) = true.

Global Instance spending_ge_dec (a b : spending) : Decision (spending_ge a b).
Proof. unfold spending_ge. apply _. Defined.

(** [ORDER BY t.date DESC, t.created_at DESC]: [a] may come before [b]. *)
Definition newest_first (a b : transaction) : Prop :=
  desc_desc (t_date a) (t_created_at a) (t_date b) (t_created_at b) = true.

Global Instance newest_first_dec (a b : transaction) : Decision (newest_first a b).
Proof. unfold newest_first. apply _. Defined.

(** A filter that is a text: [undefined] and the empty string are falsy. *)
Definition given_text (o : option string) : option string :=
  match o with
  | Some s => if String.eqb s EmptyString then None else Some s
  | None => None
  end.

(** A filter that is a number: [undefined] and [0] are falsy. *)
Definition given_number (o : option Z) : option Z :=
  match o with
  | Some n => if (n =? 0)%Z then None else Some n
  | None => None
  end.

Module TransactionService.

Record data : Type := {
  amount : jsval;
  description : jsval;
  date : jsval;
  type : jsval;
  category_id : jsval;
  is_manually_set : jsval;
  source : jsval;
  raw_data : jsval
}.

Definition validateTransaction (d : data) : outcome unit :=
  if negb (truthy (amount d)) || negb (String.eqb (typeof (amount d)) "number") ||
     js_le_num (amount d) 0
  then Throw (Error "Amount must be a number greater than 0")
  else if negb (truthy (description d)) ||
          negb (String.eqb (typeof (description d)) "string") ||
          is_blank (description d)
  then Throw (Error "Description is required and must be a non-empty string")
  else if negb (truthy (type d)) || negb (includes ["income"; "expense"] (type d))
  then Throw (Error ("Type must be either " +:+ dq +:+ "income" +:+ dq +:+ " or " +:+
                     dq +:+ "expense" +:+ dq))
  else if truthy (date d) && negb (date_regex_test (date d))
  then Throw (Error "Date must be in ISO 8601 format (YYYY-MM-DD)")
  else if truthy (source d) && negb (includes ["manual"; "sms"; "upload"] (source d))
  then Throw (Error ("Source must be " +:+ dq +:+ "manual" +:+ dq +:+ ", " +:+
                     dq +:+ "sms" +:+ dq +:+ ", or " +:+ dq +:+ "upload" +:+ dq))
  else Ok tt.

(** [INSERT INTO transactions (...) VALUES (?, ?, ?, ?, ?, ?, ?, ?, ?, ?)]. *)
Definition insert_transaction (row : Z -> transaction) (d : database)
    : outcome Z * database :=
  match transactions d with
  | None => (no_such_table "transactions", d)
  | Some t =>
      let k := (seq t + 1)%Z in
      (Ok k, set_transactions (Some {| rows := rows t ++ [row k]; seq := k |}) d)
  end.

Definition createTransaction (d : data) : M transaction :=
  do! lift (validateTransaction d) in
  let! now := toISOString in
  let! fallback := today in
  let date := js_or (date d) (JStr fallback) in
  let! trimmed := method_trim (description d) in
  let row k :=
    {| t_id := k; t_amount := amount d; t_description := trimmed; t_date := date;
       t_type := type d; t_category_id := js_or (category_id d) JNull;
       t_is_manually_set := flag_of (is_manually_set d);
       t_source := js_or (source d) (JStr "manual");
       t_raw_data := js_or (raw_data d) JNull;
       t_created_at := JStr now; t_updated_at := JStr now |} in
  let! insertId := executeSql (insert_transaction row) in
  let! trimmed' := method_trim (description d) in
  ret {| t_id := insertId; t_amount := amount d; t_description := trimmed';
         t_date := date; t_type := type d;
         t_category_id := js_or (category_id d) JNull;
         t_is_manually_set := flag_of (is_manually_set d);
         t_source := js_or (source d) (JStr "manual");
         t_raw_data := js_or (raw_data d) JNull;
         t_created_at := JStr now; t_updated_at := JStr now |}.

(** The category columns a [LEFT JOIN categories c ON t.category_id = c.id]
    adds to a transaction. *)
Definition view_of (cats : list category) (t : transaction) : transaction_view :=
  match filter (fun c => id_is (c_id c) (t_category_id t) = true) cats with
  | c :: _ =>
      {| tv_row := t; tv_category_name := c_name c; tv_category_icon := c_icon c;
         tv_category_color := c_color c |}
  | [] =>
      {| tv_row := t; tv_category_name := JNull; tv_category_icon := JNull;
         tv_category_color := JNull |}
  end.

(** [SELECT t.*, c.name ..., FROM transactions t LEFT JOIN categories c
    ON t.category_id = c.id WHERE t.id = ?]. *)
Definition select_transaction (id : jsval) (d : database)
    : outcome (list transaction_view) * database :=
  match transactions d, categories d with
  | Some t, Some c =>
      (Ok (map (view_of (rows c)) (filter (fun r => id_is (t_id r) id = true) (rows t))), d)
  | None, _ => (no_such_table "transactions", d)
  | _, None => (no_such_table "categories", d)
  end.

Definition getTransactionById (id : jsval) : M (option transaction_view) :=
  let! result := executeSql (select_transaction id) in
  match result with
  | [] => ret None
  | r :: _ => ret (Some r)
  end.

(** The [filters] object, with the types its documentation gives: dates and
    type are texts, category, limit and offset are integers; a field left
    out is [None]. *)
Record filters : Type := {
  f_startDate : option string;
  f_endDate : option string;
  f_category_id : option Z;
  f_type : option string;
  f_limit : option Z;
  f_offset : option Z
}.

(** [filters = {}]. *)
Definition no_filters : filters :=
  {| f_startDate := None; f_endDate := None; f_category_id := None; f_type := None;
     f_limit := None; f_offset := None |}.

(** [query += ' AND ...'] when the filter is truthy. *)
Definition and_clause {A : Type} (given : option A) (clause : A -> transaction -> bool)
    (query : list (transaction -> bool)) : list (transaction -> bool) :=
  match given with
  | Some v => (query ++ [clause v])%list
  | None => query
  end.

(** [SELECT t.*, c.name ..., FROM transactions t LEFT JOIN categories c
    ON t.category_id = c.id WHERE 1=1 AND ... ORDER BY t.date DESC,
    t.created_at DESC LIMIT ? OFFSET ?], with the clauses, the limit and the
    offset that were appended.  An [OFFSET] without a [LIMIT] is not a
    statement of the engine's grammar.  Rows with equal date and creation
    time come here in the order the merge sort gives them; the engine's
    order for them is its own, and the properties state the sortedness of
    the result only. *)
Definition select_transactions (clauses : list (transaction -> bool))
    (lim off : option Z) (d : database)
    : outcome (list transaction_view) * database :=
  match lim, off with
  | None, Some _ =>
      (Throw (Error ("near " +:+ dq +:+ "OFFSET" +:+ dq +:+ ": syntax error")), d)
  | _, _ =>
      match transactions d, categories d with
      | Some t, Some c =>
          let matching :=
            filter (fun r => forallb (fun clause => clause r) clauses = true) (rows t) in
          (Ok (map (view_of (rows c)) (page lim off (merge_sort newest_first matching))), d)
      | None, _ => (no_such_table "transactions", d)
      | _, None => (no_such_table "categories", d)
      end
  end.

Definition getAllTransactions (f : filters) : M (list transaction_view) :=
  let query := [] in
  let query :=
    and_clause (given_text (f_startDate f)) (fun v r => sql_le (JStr v) (t_date r)) query in
  let query :=
    and_clause (given_text (f_endDate f)) (fun v r => sql_le (t_date r) (JStr v)) query in
  let query :=
    and_clause (given_number (f_category_id f))
      (fun v r => sql_eq (t_category_id r) (JNum (inject_Z v))) query in
  let query :=
    and_clause (given_text (f_type f)) (fun v r => sql_eq (t_type r) (JStr v)) query in
  executeSql
    (select_transactions query (given_number (f_limit f)) (given_number (f_offset f))).

Definition getTransactionsByDateRange (startDate endDate : string)
    : M (list transaction_view) :=
  getAllTransactions
    {| f_startDate := Some startDate; f_endDate := Some endDate; f_category_id := None;
       f_type := None; f_limit := None; f_offset := None |}.

Definition getTransactionsByCategory (categoryId : Z) : M (list transaction_view) :=
  getAllTransactions
    {| f_startDate := None; f_endDate := None; f_category_id := Some categoryId;
       f_type := None; f_limit := None; f_offset := None |}.

(** [UPDATE transactions SET amount = ?, description = ?, date = ?, type = ?,
    category_id = ?, is_manually_set = ?, source = ?, raw_data = ?,
    updated_at = ? WHERE id = ?].  The values are stored as they are bound:
    the conversion by column affinity (a text of digits bound to
    [category_id], a number bound to [raw_data]) is not modelled, and the
    properties are stated for values that keep their storage class. *)
Definition update_transaction (a de da ty ca ma so ra up id : jsval) (d : database)
    : outcome unit * database :=
  match transactions d with
  | None => (no_such_table "transactions", d)
  | Some t =>
      let upd r :=
        if id_is (t_id r) id
        then {| t_id := t_id r; t_amount := a; t_description := de; t_date := da;
                t_type := ty; t_category_id := ca; t_is_manually_set := ma;
                t_source := so; t_raw_data := ra; t_created_at := t_created_at r;
                t_updated_at := up |}
        else r in
      (Ok tt, set_transactions (Some {| rows := map upd (rows t); seq := seq t |}) d)
  end.

Definition updateTransaction (id : jsval) (d : data) : M (option transaction_view) :=
  do! lift (validateTransaction d) in
  let! existing := getTransactionById id in
  match existing with
  | None => throw (Error ("Transaction with id " +:+ show id +:+ " not found"))
  | Some existing =>
      let! updatedAt := toISOString in
      let! trimmed := method_trim (description d) in
      do! executeSql
            (update_transaction
               (amount d)
               trimmed
               (js_or (date d) (t_date (tv_row existing)))
               (type d)
               (js_or (category_id d) JNull)
               (flag_of (is_manually_set d))
               (js_or (source d) (t_source (tv_row existing)))
               (js_or (raw_data d) (t_raw_data (tv_row existing)))
               (JStr updatedAt)
               id) in
      getTransactionById id
  end.

(** [DELETE FROM transactions WHERE id = ?]. *)
Definition delete_transaction (id : jsval) (d : database) : outcome unit * database :=
  match transactions d with
  | None => (no_such_table "transactions", d)
  | Some t =>
      (Ok tt, set_transactions
                (Some {| rows := filter (fun r => id_is (t_id r) id = false) (rows t);
                         seq := seq t |}) d)
  end.

Definition deleteTransaction (id : jsval) : M unit :=
  let! existing := getTransactionById id in
  match existing with
  | None => throw (Error ("Transaction with id " +:+ show id +:+ " not found"))
  | Some _ => executeSql (delete_transaction id)
  end.

(** [CASE WHEN type = ... THEN amount ELSE 0 END]. *)
Definition amount_if (p : transaction -> bool) (t : transaction) : jsval :=
  if p t then t_amount t else JNum 0.

(** The one row of
    [SELECT SUM(CASE WHEN type = 'income' THEN amount ELSE 0 END) as total_income,
            SUM(CASE WHEN type = 'expense' THEN amount ELSE 0 END) as total_expense,
            COUNT( * ) as total_count
     FROM transactions WHERE date >= ? AND date <= ?]. *)
Definition select_summary (startDate endDate : jsval) (d : database)
    : outcome (jsval * jsval * nat) * database :=
  match transactions d with
  | None => (no_such_table "transactions", d)
  | Some t =>
      let matching := filter (fun r => in_window startDate endDate r = true) (rows t) in
      (Ok (sql_sum (map (amount_if is_income) matching),
           sql_sum (map (amount_if is_expense) matching),
           length matching), d)
  end.

Definition getTransactionSummary (startDate endDate : jsval) : M summary :=
  let! row := executeSql (select_summary startDate endDate) in
  let '(row_income, row_expense, row_count) := row in
  let totalIncome := js_or row_income (JNum 0) in
  let totalExpense := js_or row_expense (JNum 0) in
  ret {| total_income := totalIncome; total_expense := totalExpense;
         balance := js_sub totalIncome totalExpense; total_count := row_count |}.

(** The expense rows of one category inside the window: the rows the join
    pairs with category [c] and the [WHERE] clause keeps. *)
Definition expenses_of (startDate endDate : jsval) (txs : list transaction) (c : category)
    : list transaction :=
  filter (fun t => (id_is (c_id c) (t_category_id t) &&
                    in_window startDate endDate t && is_expense t) = true) txs.

(** The groups of [GROUP BY c.id, c.name, c.icon, c.color]: [id] is the
    primary key of [categories], so every category row that has at least one
    joined row is one group. *)
Definition spending_groups (startDate endDate : jsval) (cats : list category)
    (txs : list transaction) : list spending :=
  omap (fun c =>
          match expenses_of startDate endDate txs c with
          | [] => None
          | g => Some {| sp_id := c_id c; sp_name := c_name c; sp_icon := c_icon c;
                         sp_color := c_color c;
                         sp_total_amount := sql_sum (map t_amount g);
                         sp_transaction_count := length g |}
          end) cats.

(** [SELECT c.id, c.name, c.icon, c.color, SUM(t.amount) as total_amount,
            COUNT(t.id) as transaction_count
     FROM transactions t JOIN categories c ON t.category_id = c.id
     WHERE t.date >= ? AND t.date <= ? AND t.type = 'expense'
     GROUP BY c.id, c.name, c.icon, c.color ORDER BY total_amount DESC]. *)
Definition select_spending (startDate endDate : jsval) (d : database)
    : outcome (list spending) * database :=
  match transactions d, categories d with
  | Some t, Some c =>
      (Ok (merge_sort spending_ge (spending_groups startDate endDate (rows c) (rows t))), d)
  | None, _ => (no_such_table "transactions", d)
  | _, None => (no_such_table "categories", d)
  end.

Definition getSpendingByCategory (startDate endDate : jsval) : M (list spending) :=
  executeSql (select_spending startDate endDate).

End TransactionService.

(** ** budgetService.js *)

(** A budget row with the display columns of its category, as the inner
    [JOIN] of [getBudgetById] returns it. *)
Record budget_view : Type := {
  bv_row : budget;
  bv_category_name : jsval;
  bv_category_icon : jsval;
  bv_category_color : jsval
}.

Record progress : Type := {
  budget_id : jsval;
  budget_amount : jsval;
  spent : jsval;
  remaining : jsval;
  percentage : jsval;
  is_exceeded : bool;
  period_start : jsval;
  period_end : jsval
}.

(** [ORDER BY b.created_at DESC]: [a] may come before [b]. *)
Definition latest_first (a b : budget_view) : Prop :=
  order_le (b_created_at (bv_row b)) (b_created_at (bv_row a)) = true.

Global Instance latest_first_dec (a b : budget_view) : Decision (latest_first a b).
Proof. unfold latest_first. apply _. Defined.

Module BudgetService.

Record data : Type := {
  category_id : jsval;
  amount : jsval;
  period : jsval;
  start_date : jsval;
  end_date : jsval
}.

(** [data.start_date > data.end_date], reached only when both are strings
    (the format tests come first): the strings are compared by code unit. *)
Definition js_str_gt (a b : jsval) : bool :=
  match a, b with
  | JStr x, JStr y => String.ltb y x
  | _, _ => false
  end.

Definition validateBudget (d : data) : outcome unit :=
  if negb (truthy (amount d)) || negb (String.eqb (typeof (amount d)) "number") ||
     js_le_num (amount d) 0
  then Throw (Error "Amount must be a number greater than 0")
  else if negb (truthy (category_id d)) ||
          negb (String.eqb (typeof (category_id d)) "number")
  then Throw (Error "Category ID is required and must be a number")
  else if negb (truthy (period d)) || negb (includes ["monthly"; "weekly"] (period d))
  then Throw (Error ("Period must be either " +:+ dq +:+ "monthly" +:+ dq +:+ " or " +:+
                     dq +:+ "weekly" +:+ dq))
  else if negb (truthy (start_date d)) || negb (date_regex_test (start_date d))
  then Throw (Error "Start date is required and must be in ISO 8601 format (YYYY-MM-DD)")
  else if truthy (end_date d) && negb (date_regex_test (end_date d))
  then Throw (Error "End date must be in ISO 8601 format (YYYY-MM-DD)")
  else if truthy (end_date d) && js_str_gt (start_date d) (end_date d)
  then Throw (Error "End date must be after start date")
  else Ok tt.

(** [SELECT id FROM categories WHERE id = ?]: the number of rows found. *)
Definition select_category_id (id : jsval) (d : database) : outcome nat * database :=
  match categories d with
  | None => (no_such_table "categories", d)
  | Some t => (Ok (length (filter (fun r => id_is (c_id r) id = true) (rows t))), d)
  end.

(** [INSERT INTO budgets (category_id, amount, period, start_date, end_date,
    created_at, updated_at) VALUES (?, ?, ?, ?, ?, ?, ?)]. *)
Definition insert_budget (row : Z -> budget) (d : database) : outcome Z * database :=
  match budgets d with
  | None => (no_such_table "budgets", d)
  | Some t =>
      let k := (seq t + 1)%Z in
      (Ok k, set_budgets (Some {| rows := rows t ++ [row k]; seq := k |}) d)
  end.

Definition createBudget (d : data) : M budget :=
  do! lift (validateBudget d) in
  let! categoryCheck := executeSql (select_category_id (category_id d)) in
  if (categoryCheck =? 0)%nat then
    throw (Error ("Category with id " +:+ show (category_id d) +:+ " does not exist"))
  else
    let! now := toISOString in
    let row k :=
      {| b_id := k; b_category_id := category_id d; b_amount := amount d;
         b_period := period d; b_start_date := start_date d;
         b_end_date := js_or (end_date d) JNull;
         b_created_at := JStr now; b_updated_at := JStr now |} in
    let! insertId := executeSql (insert_budget row) in
    ret (row insertId).

(** The rows of [budgets b JOIN categories c ON b.category_id = c.id]
    that come from one budget. *)
Definition views_of (cats : list category) (b : budget) : list budget_view :=
  map (fun c => {| bv_row := b; bv_category_name := c_name c;
                   bv_category_icon := c_icon c; bv_category_color := c_color c |})
      (filter (fun c => id_is (c_id c) (b_category_id b) = true) cats).

(** [SELECT b.*, c.name ..., FROM budgets b JOIN categories c
    ON b.category_id = c.id WHERE b.id = ?]. *)
Definition select_budget (id : jsval) (d : database)
    : outcome (list budget_view) * database :=
  match budgets d, categories d with
  | Some b, Some c =>
      (Ok (flat_map (views_of (rows c))
             (filter (fun r => id_is (b_id r) id = true) (rows b))), d)
  | None, _ => (no_such_table "budgets", d)
  | _, None => (no_such_table "categories", d)
  end.

Definition getBudgetById (id : jsval) : M (option budget_view) :=
  let! result := executeSql (select_budget id) in
  match result with
  | [] => ret None
  | r :: _ => ret (Some r)
  end.

(** [SELECT b.*, c.name ..., FROM budgets b JOIN categories c
    ON b.category_id = c.id ORDER BY b.created_at DESC]. *)
Definition select_budgets (d : database) : outcome (list budget_view) * database :=
  match budgets d, categories d with
  | Some b, Some c =>
      (Ok (merge_sort latest_first (flat_map (views_of (rows c)) (rows b))), d)
  | None, _ => (no_such_table "budgets", d)
  | _, None => (no_such_table "categories", d)
  end.

Definition getAllBudgets : M (list budget_view) := executeSql select_budgets.

(** [b.start_date <= ? AND (b.end_date IS NULL OR b.end_date >= ?)]. *)
Definition active_on (checkDate : jsval) (b : budget) : bool :=
  sql_le (b_start_date b) checkDate &&
  (is_sql_null (b_end_date b) || sql_le checkDate (b_end_date b)).

(** [SELECT b.*, c.name ..., FROM budgets b JOIN categories c
    ON b.category_id = c.id WHERE b.start_date <= ?
    AND (b.end_date IS NULL OR b.end_date >= ?) ORDER BY b.created_at DESC]. *)
Definition select_active_budgets (checkDate : jsval) (d : database)
    : outcome (list budget_view) * database :=
  match budgets d, categories d with
  | Some b, Some c =>
      (Ok (merge_sort latest_first
             (flat_map (views_of (rows c))
                (filter (fun r => active_on checkDate r = true) (rows b)))), d)
  | None, _ => (no_such_table "budgets", d)
  | _, None => (no_such_table "categories", d)
  end.

(** [getActiveBudgets(date = null)]. *)
Definition getActiveBudgets (date : jsval) : M (list budget_view) :=
  let! fallback := today in
  let checkDate := js_or date (JStr fallback) in
  executeSql (select_active_budgets checkDate).

(** [UPDATE budgets SET category_id = ?, amount = ?, period = ?, start_date = ?,
    end_date = ?, updated_at = ? WHERE id = ?]. *)
Definition update_budget (ca am pe st en up id : jsval) (d : database)
    : outcome unit * database :=
  match budgets d with
  | None => (no_such_table "budgets", d)
  | Some t =>
      let upd r :=
        if id_is (b_id r) id
        then {| b_id := b_id r; b_category_id := ca; b_amount := am; b_period := pe;
                b_start_date := st; b_end_date := en;
                b_created_at := b_created_at r; b_updated_at := up |}
        else r in
      (Ok tt, set_budgets (Some {| rows := map upd (rows t); seq := seq t |}) d)
  end.

Definition updateBudget (id : jsval) (d : data) : M (option budget_view) :=
  do! lift (validateBudget d) in
  let! existing := getBudgetById id in
  match existing with
  | None => throw (Error ("Budget with id " +:+ show id +:+ " not found"))
  | Some _ =>
      let! categoryCheck := executeSql (select_category_id (category_id d)) in
      if (categoryCheck =? 0)%nat then
        throw (Error ("Category with id " +:+ show (category_id d) +:+ " does not exist"))
      else
        let! updatedAt := toISOString in
        do! executeSql
              (update_budget (category_id d) (amount d) (period d) (start_date d)
                 (js_or (end_date d) JNull) (JStr updatedAt) id) in
        getBudgetById id
  end.

(** [DELETE FROM budgets WHERE id = ?]. *)
Definition delete_budget (id : jsval) (d : database) : outcome unit * database :=
  match budgets d with
  | None => (no_such_table "budgets", d)
  | Some t =>
      (Ok tt, set_budgets
                (Some {| rows := filter (fun r => id_is (b_id r) id = false) (rows t);
                         seq := seq t |}) d)
  end.

Definition deleteBudget (id : jsval) : M unit :=
  let! existing := getBudgetById id in
  match existing with
  | None => throw (Error ("Budget with id " +:+ show id +:+ " not found"))
  | Some _ => executeSql (delete_budget id)
  end.

(** The rows that count towards a budget:
    [category_id = ? AND type = 'expense' AND date >= ? AND date <= ?]. *)
Definition counts_towards (categoryId periodStart periodEnd : jsval) (t : transaction)
    : bool :=
  sql_eq (t_category_id t) categoryId && is_expense t &&
  in_window periodStart periodEnd t.

(** [SELECT COALESCE(SUM(amount), 0) as spent FROM transactions WHERE ...]. *)
Definition select_spent (categoryId periodStart periodEnd : jsval) (d : database)
    : outcome jsval * database :=
  match transactions d with
  | None => (no_such_table "transactions", d)
  | Some t =>
      (Ok (coalesce0
             (sql_sum (map t_amount
                (filter (fun r => counts_towards categoryId periodStart periodEnd r = true)
                        (rows t))))), d)
  end.

Definition getBudgetProgress (budgetId startDate endDate : jsval) : M progress :=
  let! found := getBudgetById budgetId in
  match found with
  | None => throw (Error ("Budget with id " +:+ show budgetId +:+ " not found"))
  | Some bv =>
      let budget := bv_row bv in
      let periodStart := js_or startDate (b_start_date budget) in
      let! fallback := today in
      let periodEnd := js_or endDate (JStr fallback) in
      let! spent := executeSql (select_spent (b_category_id budget) periodStart periodEnd) in
      let remaining := js_sub (b_amount budget) spent in
      let percentage :=
        if js_gt (b_amount budget) (JNum 0)
        then js_mul (js_div spent (b_amount budget)) (JNum 100)
        else JNum 0 in
      ret {| budget_id := budgetId;
             budget_amount := b_amount budget;
             spent := spent;
             remaining := remaining;
             percentage := js_div (Math_round (js_mul percentage (JNum 100))) (JNum 100);
             is_exceeded := js_gt spent (b_amount budget);
             period_start := periodStart;
             period_end := periodEnd |}
  end.

End BudgetService.

(** ** index.js: startup and shutdown *)

Definition initializeDatabase : M unit :=
  (* Open database connection *)
  do! openDatabase in
  (* Run migrations (creates tables if needed) *)
  do! runMigrations in
  (* Check if this is first launch *)
  let! firstLaunch := isFirstLaunch in
  if firstLaunch then
    do! CategoryService.seedDefaultCategories in
    initializeDefaultSettings
  else
    ret tt.

Definition shutdownDatabase : M unit := closeDatabase.

(** * Vocabulary of the properties

    Definitions the statements below are written with, and the sample
    inputs on which they are exercised. *)

(** ** Worlds *)

(** The world after one statement left the database [d]. *)
Definition ran (w : world) (d : database) : world :=
  {| handle := true; clock := clock w; executed := S (executed w); store := d |}.

(** The same world at another time. *)
Definition set_clock (t : string) (w : world) : world :=
  {| handle := handle w; clock := t; executed := executed w; store := store w |}.

(** A fresh install: no connection yet, nothing stored. *)
Definition fresh_world (now : string) : world :=
  {| handle := false; clock := now; executed := 0; store := empty_database |}.

(** The table stored under an option, empty when there is none. *)
Definition the {A : Type} (t : option (table A)) : table A := default empty_table t.

(** ** Schema versions *)

(** The version [getDatabaseVersion] reads from a database. *)
Definition stored_version (d : database) : option Z :=
  match settings d with
  | None => Some 0%Z
  | Some m =>
      match m !! "db_version" with
      | Some s => parseInt (s_value s)
      | None => Some 0%Z
      end
  end.

(** No version was ever persisted: there is no settings table, or it has no
    [db_version] row. *)
Definition no_version_key (d : database) : Prop :=
  match settings d with
  | None => True
  | Some m => m !! "db_version" = None
  end.

(** The database after the four [CREATE TABLE IF NOT EXISTS]. *)
Definition tables_created (d : database) : database :=
  snd (create_table_settings
         (snd (create_table_budgets
                 (snd (create_table_transactions (snd (create_table_categories d))))))).

Definition all_indexes : gset string :=
  {[ "idx_budgets_category" ]} ∪
  ({[ "idx_transactions_type" ]} ∪
   ({[ "idx_transactions_category" ]} ∪ {[ "idx_transactions_date" ]})).

(** The database after [setDatabaseVersion(DATABASE_VERSION)] at time [now]. *)
Definition version_written (now : string) (d : database) : database :=
  snd (insert_or_replace_setting "db_version" (pretty DATABASE_VERSION) now d).

(** What [runMigrations] leaves in the database when the clock shows [now]. *)
Definition migrated (now : string) (d : database) : database :=
  if is_zero (stored_version d) then
    let d1 := tables_created d in
    version_written now (set_indexes (all_indexes ∪ indexes d1) d1)
  else if is_older (stored_version d) then version_written now d
  else d.

(** ** Error kinds *)

(** The error kinds of the specification, recovered from the message: the
    source throws plain [Error] objects. *)
Inductive error_kind : Type :=
| ValidationError
| ConstraintError
| NotFoundError
| EngineError.

(** The messages the three validators throw. *)
Definition validation_messages : list string :=
  [ "Amount must be a number greater than 0";
    "Description is required and must be a non-empty string";
    "Type must be either " +:+ dq +:+ "income" +:+ dq +:+ " or " +:+ dq +:+ "expense" +:+ dq;
    "Date must be in ISO 8601 format (YYYY-MM-DD)";
    "Source must be " +:+ dq +:+ "manual" +:+ dq +:+ ", " +:+ dq +:+ "sms" +:+ dq +:+
      ", or " +:+ dq +:+ "upload" +:+ dq;
    "Category ID is required and must be a number";
    "Period must be either " +:+ dq +:+ "monthly" +:+ dq +:+ " or " +:+ dq +:+ "weekly" +:+ dq;
    "Start date is required and must be in ISO 8601 format (YYYY-MM-DD)";
    "End date must be in ISO 8601 format (YYYY-MM-DD)";
    "End date must be after start date";
    "Category name is required and must be a non-empty string";
    "Color must be a valid hex color code (e.g., #FF6B6B)" ].

Definition kind_of (e : error) : error_kind :=
  let m := message_of e in
  if existsb (String.eqb m) validation_messages then ValidationError
  else if is_prefix "Cannot delete category" m then ConstraintError
  else if str_includes " not found" m then NotFoundError
  else if str_includes " already exists" m then ConstraintError
  else EngineError.

(** The message of the existence checks: [`${what} with id ${id} not found`]. *)
Definition not_found_message (what : string) (id : jsval) : string :=
  what +:+ " with id " +:+ show id +:+ " not found".

(** An integer every JavaScript number holds exactly, and prints in plain
    decimal. *)
Definition safe_integer (k : Z) : Prop := (Z.abs k <= 2 ^ 53 - 1)%Z.

(** A value whose conversion to a string is the one [show] gives: any value
    but a number that is not a safe integer. *)
Definition prints_plainly (v : jsval) : Prop :=
  match v with
  | JNum q => exists k, q = inject_Z k /\ safe_integer k
  | _ => True
  end.

(** A text made of ASCII characters only: on these [trim] is
    [String.prototype.trim]. *)
Fixpoint plain (s : string) : bool :=
  match s with
  | EmptyString => true
  | String c s' => (N_of_ascii c <? 128)%N && plain s'
  end.

(** A value that is such a text, or no text at all. *)
Definition plain_text (v : jsval) : Prop :=
  match v with
  | JStr s => plain s = true
  | _ => True
  end.

(** ** Settings *)

(** A key [setSetting] accepts: not blank. *)
Definition writable_key (key : string) : Prop := trim key <> EmptyString.

(** A value [setSetting] accepts: neither [null] nor [undefined]. *)
Definition writable_value (value : jsval) : Prop := value <> JNull /\ value <> JUndefined.

(** The settings after the loop of [initializeDefaultSettings] over
    [entries] at time [now]: an entry is written only where the key is
    absent. *)
Definition filled (entries : list (string * jsval)) (now : string)
    (m : gmap string setting) : gmap string setting :=
  fold_left
    (fun acc kv =>
       match acc !! kv.1 with
       | Some _ => acc
       | None => <[ kv.1 := {| s_value := show kv.2; s_updated_at := now |} ]> acc
       end)
    entries m.

(** The settings after [entries] were written one after the other at time
    [now]. *)
Definition written (entries : list (string * jsval)) (now : string)
    (m : gmap string setting) : gmap string setting :=
  fold_left
    (fun acc kv => <[ kv.1 := {| s_value := show kv.2; s_updated_at := now |} ]> acc)
    entries m.

(** ** Category rows *)

(** The row [createCategory] inserts for the payload [d], whose name is the
    string [s], at time [now] under the key [k]. *)
Definition new_category (d : CategoryService.data) (s now : string) (k : Z) : category :=
  {| c_id := k; c_name := JStr (trim s);
     c_icon := js_or (CategoryService.icon d) JNull;
     c_color := js_or (CategoryService.color d) JNull;
     c_is_default := flag_of (CategoryService.is_default d);
     c_created_at := JStr now |}.

(** The message of the translated uniqueness error. *)
Definition already_exists_message (v : jsval) : string :=
  "Category with name " +:+ dq +:+ show v +:+ dq +:+ " already exists".

(** Some row of the table carries the name [n]. *)
Definition name_taken (n : string) (cats : table category) : bool :=
  existsb (fun r => sql_eq (c_name r) (JStr n)) (rows cats).

(** The primary key of a table: the keys of its rows are distinct and none
    is above the counter. *)
Definition keys_bounded {A : Type} (key : A -> Z) (t : table A) : Prop :=
  NoDup (key <$> rows t) /\ Forall (fun r => (key r <= seq t)%Z) (rows t).

(** A row with the editable columns of [d] written over it. *)
Definition category_edited (d : CategoryService.data) (s : string) (r : category) : category :=
  {| c_id := c_id r; c_name := JStr (trim s);
     c_icon := js_or (CategoryService.icon d) JNull;
     c_color := js_or (CategoryService.color d) JNull;
     c_is_default := c_is_default r; c_created_at := c_created_at r |}.

(** Values a column stores exactly as they are bound: a text or [NULL] in a
    [TEXT] column (a number would be stored as its text), a number or [NULL]
    in an [INTEGER] column. *)
Definition keeps_text (v : jsval) : Prop :=
  match v with
  | JNull | JStr _ => True
  | _ => False
  end.

Definition keeps_integer (v : jsval) : Prop :=
  match v with
  | JNull | JNum _ => True
  | _ => False
  end.

(** The character [c] occurs in [s]. *)
Fixpoint has_char (c : ascii) (s : string) : bool :=
  match s with
  | EmptyString => false
  | String c' s' => Ascii.eqb c c' || has_char c s'
  end.

(** The text of a payload's name. *)
Definition name_text (d : CategoryService.data) : string :=
  match CategoryService.name d with
  | JStr s => s
  | _ => EmptyString
  end.

(** What seeding the catalogue [todo] at time [now] does to the table [t]:
    the rows it creates, in order, and the table it leaves.  An entry whose
    name is taken is passed over. *)
Fixpoint seeded (todo : list CategoryService.data) (now : string) (t : table category)
    : list category * table category :=
  match todo with
  | [] => ([], t)
  | d :: rest =>
      if name_taken (trim (name_text d)) t then seeded rest now t
      else
        let r := new_category (CategoryService.as_default d) (name_text d) now (seq t + 1) in
        let res := seeded rest now {| rows := rows t ++ [r]; seq := seq t + 1 |} in
        (r :: res.1, res.2)
  end.

(** ** Transaction and budget rows *)

(** The row [createTransaction] inserts for the payload [d], whose
    description is the string [s], at time [now] under the key [k]. *)
Definition new_transaction (d : TransactionService.data) (s now : string) (k : Z)
    : transaction :=
  {| t_id := k; t_amount := TransactionService.amount d;
     t_description := JStr (trim s);
     t_date := js_or (TransactionService.date d) (JStr (before_T now));
     t_type := TransactionService.type d;
     t_category_id := js_or (TransactionService.category_id d) JNull;
     t_is_manually_set := flag_of (TransactionService.is_manually_set d);
     t_source := js_or (TransactionService.source d) (JStr "manual");
     t_raw_data := js_or (TransactionService.raw_data d) JNull;
     t_created_at := JStr now; t_updated_at := JStr now |}.

(** The row [createBudget] inserts for the payload [d] at time [now] under
    the key [k]. *)
Definition new_budget (d : BudgetService.data) (now : string) (k : Z) : budget :=
  {| b_id := k; b_category_id := BudgetService.category_id d;
     b_amount := BudgetService.amount d; b_period := BudgetService.period d;
     b_start_date := BudgetService.start_date d;
     b_end_date := js_or (BudgetService.end_date d) JNull;
     b_created_at := JStr now; b_updated_at := JStr now |}.

(** The budget [b] as the join shows it beside its category [c]. *)
Definition budget_beside (c : category) (b : budget) : budget_view :=
  {| bv_row := b; bv_category_name := c_name c; bv_category_icon := c_icon c;
     bv_category_color := c_color c |}.

(** A table without the rows whose key is [k]. *)
Definition without {A : Type} (key : A -> Z) (k : Z) (t : table A) : table A :=
  {| rows := filter (fun r => key r <> k) (rows t); seq := seq t |}.

(** ** Listings *)

(** The row passes every filter of [f] that is given; a filter that is left
    out, an empty text or a zero does not filter. *)
Definition selected (f : TransactionService.filters) (r : transaction) : bool :=
  from_option (fun s => sql_le (JStr s) (t_date r)) true
    (given_text (TransactionService.f_startDate f)) &&
  from_option (fun s => sql_le (t_date r) (JStr s)) true
    (given_text (TransactionService.f_endDate f)) &&
  from_option (fun k => sql_eq (t_category_id r) (JNum (inject_Z k))) true
    (given_number (TransactionService.f_category_id f)) &&
  from_option (fun s => sql_eq (t_type r) (JStr s)) true
    (given_text (TransactionService.f_type f)).

(** The error of a statement that has an [OFFSET] and no [LIMIT]. *)
Definition offset_syntax_error : error :=
  Error ("near " +:+ dq +:+ "OFFSET" +:+ dq +:+ ": syntax error").

(** ** Rows by date, type and category *)



(** The row is booked on the category with key [k]. *)
Definition of_category (k : Z) (t : transaction) : bool :=
  match t_category_id t with
  | JNum q => Qeq_bool q (inject_Z k)
  | _ => false
  end.

(** ** Whole amounts *)





(** ** Amounts *)

(** An amount that is not a number greater than zero. *)
Definition bad_amount (v : jsval) : Prop :=
  match v with
  | JNum q => (q <= 0)%Q
  | _ => True
  end.

(** The first test of [validateTransaction] and of [validateBudget]. *)
Definition amount_test (a : jsval) : bool :=
  negb (truthy a) || negb (String.eqb (typeof a) "number") || js_le_num a 0.

(** ** Categories and their dependents *)

(** The number of transactions, and of budgets, that reference a category. *)
Definition dependent_transactions (id : jsval) (txs : table transaction) : nat :=
  length (filter (fun r => sql_eq (t_category_id r) id = true) (rows txs)).

Definition dependent_budgets (id : jsval) (buds : table budget) : nat :=
  length (filter (fun r => sql_eq (b_category_id r) id = true) (rows buds)).

(** The database once the category rows with key [id] are gone. *)
Definition without_category (id : jsval) (cats : table category) (d : database) : database :=
  set_categories
    (Some {| rows := filter (fun r => id_is (c_id r) id = false) (rows cats);
             seq := seq cats |}) d.


(** ** Percentages and status *)

(** Rounding to two decimals as the source does it:
    [Math.round(x * 100) / 100], product and quotient in double precision. *)
Definition round2 (x : Q) : Q := fl (inject_Z (Qfloor (fl (x * 100) + (1 # 2))) / 100).

(** The percentage the source shows for [spent] out of [amount] (whole
    numbers, the amount positive):
    [Math.round((spent / amount) * 100 * 100) / 100]. *)
Definition percent (spent amount : Z) : Q :=
  round2 (fl (fl (inject_Z spent / inject_Z amount) * 100)).




(** ** Dates *)

Definition digit_value (c : ascii) : Z := (Z.of_N (N_of_ascii c) - 48)%Z.

(** Year, month and day of a date string packed in one number. *)
Definition date_number (s : string) : Z :=
  match list_ascii_of_string s with
  | [y1; y2; y3; y4; _; m1; m2; _; d1; d2] =>
      ((1000 * digit_value y1 + 100 * digit_value y2 + 10 * digit_value y3 +
        digit_value y4) * 10000 +
       (10 * digit_value m1 + digit_value m2) * 100 +
       (10 * digit_value d1 + digit_value d2))%Z
  | _ => 0%Z
  end.

(** The payload [d] with its end date replaced. *)
Definition with_end_date (v : jsval) (d : BudgetService.data) : BudgetService.data :=
  {| BudgetService.category_id := BudgetService.category_id d;
     BudgetService.amount := BudgetService.amount d;
     BudgetService.period := BudgetService.period d;
     BudgetService.start_date := BudgetService.start_date d;
     BudgetService.end_date := v |}.

(** ** Sample inputs *)

(** A store on which the migrations ran once. *)
Definition migrated_world : world :=
  snd (runMigrations (fresh_world "2026-01-10T08:00:00.000Z")).

Definition food : CategoryService.data :=
  {| CategoryService.name := JStr "Food"; CategoryService.icon := JStr "food";
     CategoryService.color := JStr "#FF6B6B"; CategoryService.is_default := JUndefined |}.

(** An edit of a category: a name with spaces around it, no icon, and a
    default flag the update does not store. *)
Definition groceries : CategoryService.data :=
  {| CategoryService.name := JStr " Groceries "; CategoryService.icon := JUndefined;
     CategoryService.color := JStr "#00FF00"; CategoryService.is_default := JBool true |}.

(** The row [createCategory food] stores on [migrated_world]. *)
Definition food_row : category :=
  {| c_id := 1; c_name := JStr "Food"; c_icon := JStr "food"; c_color := JStr "#FF6B6B";
     c_is_default := JNum 0; c_created_at := JStr "2026-01-10T08:00:00.000Z" |}.

Definition payload (a : Q) (ty day : string) (cat : jsval) : TransactionService.data :=
  {| TransactionService.amount := JNum a;
     TransactionService.description := JStr "Test";
     TransactionService.date := JStr day;
     TransactionService.type := JStr ty;
     TransactionService.category_id := cat;
     TransactionService.is_manually_set := JUndefined;
     TransactionService.source := JUndefined;
     TransactionService.raw_data := JUndefined |}.

Definition negative_payload : TransactionService.data :=
  {| TransactionService.amount := JNum (-50);
     TransactionService.description := JStr "Test";
     TransactionService.date := JUndefined;
     TransactionService.type := JStr "expense";
     TransactionService.category_id := JUndefined;
     TransactionService.is_manually_set := JUndefined;
     TransactionService.source := JUndefined;
     TransactionService.raw_data := JUndefined |}.

(** An update that gives amount, description and type only. *)
Definition bare_update : TransactionService.data :=
  {| TransactionService.amount := JNum 250;
     TransactionService.description := JStr " Lunch ";
     TransactionService.date := JUndefined;
     TransactionService.type := JStr "expense";
     TransactionService.category_id := JUndefined;
     TransactionService.is_manually_set := JUndefined;
     TransactionService.source := JUndefined;
     TransactionService.raw_data := JUndefined |}.

Definition sample_budget : BudgetService.data :=
  {| BudgetService.category_id := JNum 1; BudgetService.amount := JNum 1000;
     BudgetService.period := JStr "monthly";
     BudgetService.start_date := JStr "2026-01-01";
     BudgetService.end_date := JUndefined |}.

(** A budget on a category that was never created. *)
Definition stray_budget : BudgetService.data :=
  {| BudgetService.category_id := JNum 9; BudgetService.amount := JNum 400;
     BudgetService.period := JStr "weekly";
     BudgetService.start_date := JStr "2026-02-01";
     BudgetService.end_date := JStr "2026-02-07" |}.

Definition string_amount_budget : BudgetService.data :=
  {| BudgetService.category_id := JNum 1;
     BudgetService.amount := JStr "100";
     BudgetService.period := JStr "monthly";
     BudgetService.start_date := JStr "2026-01-01";
     BudgetService.end_date := JUndefined |}.

(** One category (its key is 1), then an expense of 300 and an income of 500
    booked on it, then a monthly budget of 1000 on it, then a further expense
    of 500. *)
Definition world_with_category : world :=
  snd (CategoryService.createCategory food migrated_world).

Definition world_with_transactions : world :=
  snd (bind (TransactionService.createTransaction (payload 300 "expense" "2026-01-05" (JNum 1)))
         (fun _ => TransactionService.createTransaction
                     (payload 500 "income" "2026-01-10" (JNum 1)))
         world_with_category).

Definition world_with_budget : world :=
  snd (BudgetService.createBudget sample_budget world_with_transactions).

Definition world_at_80_percent : world :=
  snd (TransactionService.createTransaction
         (payload 500 "expense" "2026-01-20" (JNum 1)) world_with_budget).

(** Two categories, Food with key 1 and Groceries with key 2. *)
Definition world_with_two_categories : world :=
  snd (CategoryService.createCategory groceries world_with_category).

(** The expenses of January 2026, and the same a page at a time. *)
Definition january_expenses : TransactionService.filters :=
  {| TransactionService.f_startDate := Some "2026-01-01";
     TransactionService.f_endDate := Some "2026-01-31";
     TransactionService.f_category_id := None;
     TransactionService.f_type := Some "expense";
     TransactionService.f_limit := None; TransactionService.f_offset := None |}.



(** What [getTransactionById(1)] returns on [world_with_transactions]. *)
Definition first_expense : transaction_view :=
  {| tv_row := {| t_id := 1; t_amount := JNum 300; t_description := JStr "Test";
                  t_date := JStr "2026-01-05"; t_type := JStr "expense";
                  t_category_id := JNum 1; t_is_manually_set := JNum 0;
                  t_source := JStr "manual"; t_raw_data := JNull;
                  t_created_at := JStr "2026-01-10T08:00:00.000Z";
                  t_updated_at := JStr "2026-01-10T08:00:00.000Z" |};
     tv_category_name := JStr "Food"; tv_category_icon := JStr "food";
     tv_category_color := JStr "#FF6B6B" |}.

(** What [getBudgetById(1)] returns on [world_with_budget]. *)
Definition sample_budget_view : budget_view :=
  {| bv_row := {| b_id := 1; b_category_id := JNum 1; b_amount := JNum 1000;
                  b_period := JStr "monthly"; b_start_date := JStr "2026-01-01";
                  b_end_date := JNull;
                  b_created_at := JStr "2026-01-10T08:00:00.000Z";
                  b_updated_at := JStr "2026-01-10T08:00:00.000Z" |};
     bv_category_name := JStr "Food"; bv_category_icon := JStr "food";
     bv_category_color := JStr "#FF6B6B" |}.

(** What [getBudgetProgress(1, '2026-01-01', '2026-01-31')] returns on
    [world_at_80_percent]. *)
Definition progress_at_80_percent : progress :=
  {| budget_id := JNum 1; budget_amount := JNum 1000; spent := JNum (800 # 1);
     remaining := JNum (200 # 1); percentage := JNum 80;
     is_exceeded := false;
     period_start := JStr "2026-01-01"; period_end := JStr "2026-01-31" |}.

(** * Properties *)

(** ** Running computations *)

Lemma bind_ok {A B : Type} (m : M A) (k : A -> M B) (w w' : world) (a : A) :
  m w = (Ok a, w') -> bind m k w = k a w'.
Proof. intros H. unfold bind. now rewrite H. Qed.

Lemma bind_throw {A B : Type} (m : M A) (k : A -> M B) (w w' : world) (e : error) :
  m w = (Throw e, w') -> bind m k w = (Throw e, w').
Proof. intros H. unfold bind. now rewrite H. Qed.

Lemma openDatabase_run (w : world) :
  openDatabase w =
  (Ok tt, {| handle := true; clock := clock w; executed := executed w; store := store w |}).
Proof.
  unfold openDatabase. destruct w as [h c n d]; simpl. now destruct h.
Qed.

Lemma executeSql_run {A : Type} (statement : database -> outcome A * database) (w : world) :
  executeSql statement w =
  (fst (statement (store w)), ran w (snd (statement (store w)))).
Proof.
  unfold executeSql. rewrite (bind_ok _ _ _ _ _ (openDatabase_run w)). simpl.
  now destruct (statement (store w)).
Qed.

Lemma executeSql_ok {A : Type} (statement : database -> outcome A * database)
    (w : world) (a : A) (d : database) :
  statement (store w) = (Ok a, d) -> executeSql statement w = (Ok a, ran w d).
Proof. intros H. rewrite executeSql_run. now rewrite H. Qed.

Lemma executeSql_throw {A : Type} (statement : database -> outcome A * database)
    (w : world) (e : error) (d : database) :
  statement (store w) = (Throw e, d) -> executeSql statement w = (Throw e, ran w d).
Proof. intros H. rewrite executeSql_run. now rewrite H. Qed.

(** ** Double precision *)

Lemma Qred_inject (k : Z) : Qred (inject_Z k) = inject_Z k.
Proof.
  unfold Qred, inject_Z.
  pose proof (Z.ggcd_gcd k 1) as Hg. pose proof (Z.ggcd_correct_divisors k 1) as Hd.
  destruct (Z.ggcd k 1) as [g [a b]]. simpl in Hg, Hd. rewrite Z.gcd_1_r in Hg. subst g.
  destruct Hd as [Ha Hb]. rewrite Z.mul_1_l in Ha, Hb. subst a b. reflexivity.
Qed.




(** ** Migrations *)

Lemma getDatabaseVersion_run (w : world) :
  getDatabaseVersion w = (Ok (stored_version (store w)), ran w (store w)).
Proof.
  unfold getDatabaseVersion, try_catch, bind. rewrite executeSql_run.
  unfold select_setting_value, stored_version.
  destruct (settings (store w)) as [m|]; simpl; [|reflexivity].
  now destruct (m !! "db_version").
Qed.

Lemma isFirstLaunch_run (w : world) :
  isFirstLaunch w = (Ok (is_zero (stored_version (store w))), ran w (store w)).
Proof.
  unfold isFirstLaunch, try_catch.
  now rewrite (bind_ok _ _ _ _ _ (getDatabaseVersion_run w)).
Qed.

Lemma tables_created_settings (d : database) :
  settings (tables_created d) = Some (default ∅ (settings d)).
Proof.
  unfold tables_created, create_table_settings, create_table_budgets,
    create_table_transactions, create_table_categories.
  destruct d as [c t b s i]; simpl.
  destruct c, t, b, s; reflexivity.
Qed.

Lemma tables_created_transactions (d : database) :
  is_Some (transactions (tables_created d)) /\ is_Some (budgets (tables_created d)).
Proof.
  unfold tables_created, create_table_settings, create_table_budgets,
    create_table_transactions, create_table_categories.
  destruct d as [c t b s i]; simpl.
  destruct c, t, b, s; simpl; split; eauto.
Qed.

Lemma createTables_run (w : world) :
  exists w', createTables w = (Ok tt, w') /\ store w' = tables_created (store w) /\
             clock w' = clock w /\ handle w' = true.
Proof.
  unfold createTables.
  rewrite (bind_ok _ _ _ _ _ (executeSql_ok create_table_categories w tt _ eq_refl)).
  rewrite (bind_ok _ _ _ _ _ (executeSql_ok create_table_transactions _ tt _ eq_refl)).
  rewrite (bind_ok _ _ _ _ _ (executeSql_ok create_table_budgets _ tt _ eq_refl)).
  rewrite (executeSql_ok create_table_settings _ tt _ eq_refl).
  eexists. split; [reflexivity|]. now simpl.
Qed.

Lemma create_index_run (n tn : string) (ex : database -> bool) (w : world) :
  ex (store w) = true ->
  executeSql (create_index n tn ex) w =
  (Ok tt, ran w (set_indexes ({[ n ]} ∪ indexes (store w)) (store w))).
Proof.
  intros H. apply executeSql_ok. unfold create_index. now rewrite H.
Qed.

Lemma createIndexes_run (w : world) :
  is_Some (transactions (store w)) -> is_Some (budgets (store w)) ->
  exists w', createIndexes w = (Ok tt, w') /\
             store w' = set_indexes (all_indexes ∪ indexes (store w)) (store w) /\
             clock w' = clock w /\ handle w' = true.
Proof.
  intros [t Ht] [b Hb]. unfold createIndexes.
  assert (Ht' : has_transactions (store w) = true)
    by (unfold has_transactions; rewrite Ht; reflexivity).
  assert (Hb' : has_budgets (store w) = true)
    by (unfold has_budgets; rewrite Hb; reflexivity).
  erewrite bind_ok by (apply create_index_run; exact Ht').
  erewrite bind_ok by (apply create_index_run; exact Ht').
  erewrite bind_ok by (apply create_index_run; exact Ht').
  rewrite create_index_run by exact Hb'.
  eexists. split; [reflexivity|]. simpl. split; [|now split].
  unfold set_indexes; simpl. f_equal. unfold all_indexes.
  apply set_eq. intros x. rewrite !elem_of_union. tauto.
Qed.

Lemma setDatabaseVersion_run (w : world) (m : gmap string setting) :
  settings (store w) = Some m ->
  setDatabaseVersion DATABASE_VERSION w =
  (Ok tt, ran w (version_written (clock w) (store w))).
Proof.
  intros Hm. unfold setDatabaseVersion, toISOString, bind.
  rewrite executeSql_run. unfold version_written, insert_or_replace_setting.
  now rewrite Hm.
Qed.

Lemma older_has_settings (d : database) :
  is_zero (stored_version d) = false -> is_older (stored_version d) = true ->
  is_Some (settings d).
Proof.
  unfold stored_version. destruct (settings d); [eauto|]. simpl. discriminate.
Qed.

Lemma runMigrations_run (w : world) :
  exists w', runMigrations w = (Ok tt, w') /\
             store w' = migrated (clock w) (store w) /\
             clock w' = clock w /\ handle w' = true.
Proof.
  unfold runMigrations, migrated.
  rewrite (bind_ok _ _ _ _ _ (openDatabase_run w)).
  rewrite (bind_ok _ _ _ _ _ (getDatabaseVersion_run _)). simpl.
  destruct (is_zero (stored_version (store w))) eqn:Hz.
  - destruct (createTables_run
                (ran {| handle := true; clock := clock w; executed := executed w;
                        store := store w |} (store w)))
      as (w1 & E1 & S1 & C1 & _).
    rewrite (bind_ok _ _ _ _ _ E1).
    destruct (tables_created_transactions (store w)) as [Ht Hb].
    simpl in S1. rewrite <- S1 in Ht, Hb.
    destruct (createIndexes_run w1 Ht Hb) as (w2 & E2 & S2 & C2 & _).
    rewrite (bind_ok _ _ _ _ _ E2).
    assert (Hs : settings (store w2) = Some (default ∅ (settings (store w)))).
    { rewrite S2, S1. simpl. apply tables_created_settings. }
    rewrite (setDatabaseVersion_run _ _ Hs). eexists. split; [reflexivity|].
    simpl. rewrite C2, C1, S2, S1. simpl. auto.
  - destruct (is_older (stored_version (store w))) eqn:Ho.
    + destruct (older_has_settings _ Hz Ho) as [m Hm].
      erewrite setDatabaseVersion_run by (simpl; exact Hm).
      eexists. split; [reflexivity|]. simpl. auto.
    + eexists. split; [reflexivity|]. simpl. auto.
Qed.

Lemma stored_version_written (now : string) (d : database) :
  is_Some (settings d) ->
  stored_version (version_written now d) = Some DATABASE_VERSION.
Proof.
  intros [m Hm]. unfold version_written, insert_or_replace_setting, stored_version.
  rewrite Hm. simpl. now rewrite lookup_insert_eq.
Qed.

(** After a migration the stored version is neither zero nor older than the
    target. *)
Lemma migrated_current (now : string) (d : database) :
  is_zero (stored_version (migrated now d)) = false /\
  is_older (stored_version (migrated now d)) = false.
Proof.
  unfold migrated.
  destruct (is_zero (stored_version d)) eqn:Hz.
  - rewrite stored_version_written; [now split|].
    simpl. rewrite tables_created_settings. eauto.
  - destruct (is_older (stored_version d)) eqn:Ho.
    + rewrite stored_version_written; [now split|]. now apply older_has_settings.
    + now split.
Qed.

Lemma migrated_idempotent (now now' : string) (d : database) :
  migrated now' (migrated now d) = migrated now d.
Proof.
  destruct (migrated_current now d) as [Hz Ho].
  unfold migrated at 1. now rewrite Hz, Ho.
Qed.

Lemma no_version_key_zero (d : database) :
  no_version_key d -> stored_version d = Some 0%Z.
Proof.
  unfold no_version_key, stored_version.
  destruct (settings d) as [m|]; [|reflexivity]. now intros ->.
Qed.

(** C8 — Migration idempotence.  [runMigrations] never fails (in particular
    not on tables that already exist); a second run, at any later time, again
    succeeds and leaves the whole database, schema and stored [db_version]
    included, exactly as the first run left it; [isFirstLaunch] answers
    [false] after one run, and [true] as long as no version key exists. *)
Theorem migration_idempotence (w : world) (later : string) :
  let w1 := snd (runMigrations w) in
  let w2 := snd (runMigrations (set_clock later w1)) in
  fst (runMigrations w) = Ok tt /\
  fst (runMigrations (set_clock later w1)) = Ok tt /\
  store w2 = store w1 /\
  fst (isFirstLaunch w1) = Ok false /\
  (no_version_key (store w) -> fst (isFirstLaunch w) = Ok true).
Proof.
  intros w1 w2. subst w1 w2.
  destruct (runMigrations_run w) as (w1 & E1 & S1 & C1 & H1). rewrite E1. simpl.
  destruct (runMigrations_run (set_clock later w1)) as (w2 & E2 & S2 & C2 & H2).
  rewrite E2. simpl. simpl in S2.
  repeat split.
  - rewrite S2, S1. apply migrated_idempotent.
  - rewrite isFirstLaunch_run. simpl. rewrite S1.
    now destruct (migrated_current (clock w) (store w)) as [-> _].
  - intros Hk. rewrite isFirstLaunch_run. simpl.
    now rewrite (no_version_key_zero _ Hk).
Qed.

Lemma migration_idempotence_witness :
  no_version_key (store (fresh_world "2026-01-10T08:00:00.000Z")) /\
  fst (isFirstLaunch (fresh_world "2026-01-10T08:00:00.000Z")) = Ok true.
Proof.
  split; [exact I|].
  exact (proj2 (proj2 (proj2 (proj2
           (migration_idempotence (fresh_world "2026-01-10T08:00:00.000Z")
              "2026-01-11T08:00:00.000Z")))) I).
Defined.

(** A first run on an empty store creates the four tables and the four
    indexes and stores version 1. *)
Example first_migration (now : string) :
  store (snd (runMigrations (fresh_world now))) =
  {| categories := Some empty_table; transactions := Some empty_table;
     budgets := Some empty_table;
     settings := Some {[ "db_version" := {| s_value := "1"; s_updated_at := now |} ]};
     indexes := all_indexes |}.
Proof.
  destruct (runMigrations_run (fresh_world now)) as (w1 & E1 & S1 & _).
  rewrite E1. simpl. rewrite S1. simpl. unfold migrated. simpl.
  unfold version_written. simpl. unfold set_settings. simpl. now f_equal.
Qed.

(** ** Startup *)

(** C1 — First-launch seeding.  [initializeDatabase] always succeeds with the
    connection open and the migrations applied, but the database it leaves is
    the one [runMigrations] alone leaves: [isFirstLaunch] is asked after the
    migrations stored the version, answers [false], and the seeding branch is
    never taken.  On a fresh store the categories table stays empty and the
    settings hold nothing but [db_version]. *)
Theorem initializeDatabase_never_seeds (w : world) (now : string) :
  fst (initializeDatabase w) = Ok tt /\
  handle (snd (initializeDatabase w)) = true /\
  store (snd (initializeDatabase w)) = store (snd (runMigrations w)) /\
  categories (store (snd (initializeDatabase (fresh_world now)))) = Some empty_table /\
  settings (store (snd (initializeDatabase (fresh_world now)))) =
    Some {[ "db_version" := {| s_value := "1"; s_updated_at := now |} ]}.
Proof.
  assert (G : forall w0,
             fst (initializeDatabase w0) = Ok tt /\
             handle (snd (initializeDatabase w0)) = true /\
             store (snd (initializeDatabase w0)) = store (snd (runMigrations w0))).
  { intros w0. unfold initializeDatabase.
    rewrite (bind_ok _ _ _ _ _ (openDatabase_run w0)).
    destruct (runMigrations_run
                {| handle := true; clock := clock w0; executed := executed w0;
                   store := store w0 |}) as (w1 & E1 & S1 & C1 & H1).
    rewrite (bind_ok _ _ _ _ _ E1).
    rewrite (bind_ok _ _ _ _ _ (isFirstLaunch_run w1)).
    rewrite S1. simpl.
    destruct (migrated_current (clock w0) (store w0)) as [-> _]. simpl.
    destruct (runMigrations_run w0) as (w2 & E2 & S2 & _). rewrite E2. simpl.
    rewrite S2. auto. }
  destruct (G w) as (G1 & G2 & G3). destruct (G (fresh_world now)) as (_ & _ & G4).
  repeat split; try assumption; rewrite G4, first_migration; reflexivity.
Qed.

(** Had the seeding branch run on the freshly migrated store, it would have
    inserted the eleven default categories and the four default settings
    (next to [db_version], five settings in all). *)
Example seeding_after_first_migration :
  let w1 := snd (runMigrations (fresh_world "2026-01-10T08:00:00.000Z")) in
  let w2 := snd (bind CategoryService.seedDefaultCategories
                   (fun _ => initializeDefaultSettings) w1) in
  (length <$> (rows <$> categories (store w2)) = Some 11%nat) /\
  (size <$> settings (store w2) = Some 5%nat) /\
  categories (store (snd (initializeDatabase (fresh_world "2026-01-10T08:00:00.000Z"))))
    = Some empty_table.
Proof. vm_compute. repeat split. Qed.

(** ** Validation of amounts *)

Lemma bad_amount_rejected (a : jsval) : bad_amount a -> amount_test a = true.
Proof.
  unfold amount_test. destruct a as [| |b|q| |s]; simpl; try reflexivity.
  - intros _. now destruct b.
  - intros H. apply (proj2 (Qle_bool_iff q 0)) in H. rewrite H. apply orb_true_r.
  - intros _. now rewrite orb_true_r.
Qed.

(** C4 — Amount invariant.  An amount that is zero, negative or not a number
    makes [createTransaction] and [createBudget] throw the validation error
    on the amount, and the world they leave is the world they found: no
    statement was sent to the engine (the statement counter did not move, the
    connection was not even opened) and the stored database is unchanged. *)
Theorem amount_invariant (w : world) (t : TransactionService.data) (b : BudgetService.data) :
  bad_amount (TransactionService.amount t) ->
  bad_amount (BudgetService.amount b) ->
  let e := Error "Amount must be a number greater than 0" in
  kind_of e = ValidationError /\
  TransactionService.createTransaction t w = (Throw e, w) /\
  BudgetService.createBudget b w = (Throw e, w).
Proof.
  intros Ht Hb e. split; [reflexivity|]. split.
  - unfold TransactionService.createTransaction, bind, lift,
      TransactionService.validateTransaction.
    fold (amount_test (TransactionService.amount t)).
    now rewrite (bad_amount_rejected _ Ht).
  - unfold BudgetService.createBudget, bind, lift, BudgetService.validateBudget.
    fold (amount_test (BudgetService.amount b)).
    now rewrite (bad_amount_rejected _ Hb).
Qed.

Lemma amount_invariant_witness :
  TransactionService.createTransaction negative_payload migrated_world =
    (Throw (Error "Amount must be a number greater than 0"), migrated_world) /\
  BudgetService.createBudget string_amount_budget migrated_world =
    (Throw (Error "Amount must be a number greater than 0"), migrated_world).
Proof.
  refine (proj2 (amount_invariant migrated_world negative_payload
                   string_amount_budget _ _)).
  - simpl. discriminate.
  - exact I.
Defined.

(** ** Deleting a category *)

Lemma filter_true_of_false {A : Type} (f : A -> bool) (l : list A) :
  filter (fun r => f r = true) (filter (fun r => f r = false) l) = [].
Proof.
  induction l as [|a l IH]; [reflexivity|].
  rewrite filter_cons. destruct (decide (f a = false)) as [E|E]; [|exact IH].
  rewrite filter_cons. destruct (decide (f a = true)) as [E'|E']; [congruence|exact IH].
Qed.

Lemma filter_found {A : Type} (f : A -> bool) (l : list A) (a : A) :
  a ∈ l -> f a = true -> exists b l', filter (fun r => f r = true) l = b :: l'.
Proof.
  intros Hin Hf.
  destruct (filter (fun r => f r = true) l) as [|b l'] eqn:E; [|eauto].
  exfalso. eapply (filter_nil_not_elem_of _ _ _ E); eauto.
Qed.

Lemma is_prefix_refl (p : string) : is_prefix p p = true.
Proof. induction p as [|c p IH]; simpl; [reflexivity|]. now rewrite Ascii.eqb_refl. Qed.

Lemma str_includes_suffix (needle s : string) :
  str_includes needle (s +:+ needle) = true.
Proof.
  induction s as [|c s IH]; simpl.
  - destruct needle; simpl; [reflexivity|]. now rewrite Ascii.eqb_refl, is_prefix_refl.
  - rewrite IH. apply orb_true_r.
Qed.

Lemma str_includes_app_l (needle a s : string) :
  str_includes needle s = true -> str_includes needle (a +:+ s) = true.
Proof.
  intros H. induction a as [|c a IH]; simpl; [exact H|].
  rewrite IH. apply orb_true_r.
Qed.

Lemma not_found_kind (id : jsval) :
  kind_of (Error (not_found_message "Category" id)) = NotFoundError.
Proof.
  unfold kind_of, not_found_message. simpl message_of.
  replace (existsb _ validation_messages) with false by reflexivity.
  change ("Category" +:+ " with id " +:+ show id +:+ " not found")
    with ("Category with id " +:+ (show id +:+ " not found")).
  now rewrite str_includes_app_l by apply str_includes_suffix.
Qed.

Lemma getCategoryById_run (w : world) (id : jsval) (cats : table category) :
  categories (store w) = Some cats ->
  CategoryService.getCategoryById id w =
  (Ok (head (filter (fun r => id_is (c_id r) id = true) (rows cats))), ran w (store w)).
Proof.
  intros Hc. unfold CategoryService.getCategoryById.
  erewrite bind_ok
    by (apply executeSql_ok; unfold CategoryService.select_category; rewrite Hc;
        reflexivity).
  now destruct (filter _ (rows cats)).
Qed.

(** C5 — Category delete blocking.  For a category that exists: with [n > 0]
    transactions referencing it the delete throws the error that names [n]
    and the database is unchanged; with none but [m > 0] budgets it throws the
    error that names [m], database unchanged; with no dependents it succeeds
    and removes the rows with that id and nothing else; a second delete then
    throws the not-found error naming the id. *)
Theorem deleteCategory_blocking (w : world) (id : jsval) (c : category)
    (cats : table category) (txs : table transaction) (buds : table budget) :
  categories (store w) = Some cats ->
  transactions (store w) = Some txs ->
  budgets (store w) = Some buds ->
  c ∈ rows cats ->
  id_is (c_id c) id = true ->
  let n := dependent_transactions id txs in
  let m := dependent_budgets id buds in
  let r := CategoryService.deleteCategory id w in
  ((0 < n)%nat ->
     fst r = Throw (Error ("Cannot delete category with " +:+ pretty n +:+
                           " associated transaction(s)")) /\
     store (snd r) = store w) /\
  (n = 0%nat -> (0 < m)%nat ->
     fst r = Throw (Error ("Cannot delete category with " +:+ pretty m +:+
                           " associated budget(s)")) /\
     store (snd r) = store w) /\
  (forall e, fst r = Throw e -> kind_of e = ConstraintError) /\
  (n = 0%nat -> m = 0%nat ->
     fst r = Ok tt /\
     store (snd r) = without_category id cats (store w) /\
     fst (CategoryService.deleteCategory id (snd r)) =
       Throw (Error (not_found_message "Category" id)) /\
     kind_of (Error (not_found_message "Category" id)) = NotFoundError /\
     store (snd (CategoryService.deleteCategory id (snd r))) = store (snd r)).
Proof.
  intros Hc Ht Hb Hin Hid n m r.
  destruct (filter_found (fun r => id_is (c_id r) id) _ _ Hin Hid) as (c0 & l0 & Hf).
  assert (Hr : r =
    if (0 <? n)%nat then
      (Throw (Error ("Cannot delete category with " +:+ pretty n +:+
                     " associated transaction(s)")),
       ran (ran w (store w)) (store w))
    else if (0 <? m)%nat then
      (Throw (Error ("Cannot delete category with " +:+ pretty m +:+
                     " associated budget(s)")),
       ran (ran (ran w (store w)) (store w)) (store w))
    else (Ok tt, ran (ran (ran (ran w (store w)) (store w)) (store w))
                   (without_category id cats (store w)))).
  { subst r. unfold CategoryService.deleteCategory.
    rewrite (bind_ok _ _ _ _ _ (getCategoryById_run w id cats Hc)). rewrite Hf.
    change (head (c0 :: l0)) with (Some c0). cbv beta iota.
    erewrite bind_ok
      by (apply executeSql_ok; unfold CategoryService.count_transactions_of;
          simpl; rewrite Ht; reflexivity).
    fold (dependent_transactions id txs). fold n.
    destruct (0 <? n)%nat; [reflexivity|].
    erewrite bind_ok
      by (apply executeSql_ok; unfold CategoryService.count_budgets_of;
          simpl; rewrite Hb; reflexivity).
    fold (dependent_budgets id buds). fold m.
    destruct (0 <? m)%nat; [reflexivity|].
    apply executeSql_ok. unfold CategoryService.delete_category. simpl.
    now rewrite Hc. }
  rewrite Hr. clear Hr. split; [|split; [|split]].
  - intros Hn. apply Nat.ltb_lt in Hn. rewrite Hn. now split.
  - intros Hn Hm. apply Nat.ltb_lt in Hm. rewrite Hn, Hm. now split.
  - intros e. destruct (0 <? n)%nat; [|destruct (0 <? m)%nat]; simpl;
      intros [= <-]; reflexivity.
  - intros Hn Hm. rewrite Hn, Hm. simpl.
    assert (Hagain :
      CategoryService.deleteCategory id
        (ran (ran (ran (ran w (store w)) (store w)) (store w))
           (without_category id cats (store w))) =
      (Throw (Error (not_found_message "Category" id)),
       ran (ran (ran (ran (ran w (store w)) (store w)) (store w))
              (without_category id cats (store w)))
           (without_category id cats (store w)))).
    { unfold CategoryService.deleteCategory.
      erewrite bind_ok by (apply getCategoryById_run; reflexivity).
      simpl. now rewrite filter_true_of_false. }
    rewrite Hagain. repeat split. apply not_found_kind.
Qed.

Lemma deleteCategory_blocking_witness :
  fst (CategoryService.deleteCategory (JNum 1) world_with_transactions) =
    Throw (Error "Cannot delete category with 2 associated transaction(s)") /\
  store (snd (CategoryService.deleteCategory (JNum 1) world_with_transactions)) =
    store world_with_transactions.
Proof.
  refine (proj1 (deleteCategory_blocking world_with_transactions (JNum 1)
                   food_row
                   (the (categories (store world_with_transactions)))
                   (the (transactions (store world_with_transactions)))
                   (the (budgets (store world_with_transactions)))
                   _ _ _ _ _) _).
  - vm_compute. reflexivity.
  - vm_compute. reflexivity.
  - vm_compute. reflexivity.
  - vm_compute. apply list_elem_of_here.
  - vm_compute. reflexivity.
  - vm_compute. lia.
Defined.

(** ** Sums over transactions *)








(** *** Sums of whole amounts *)









(** The example of the specification: incomes of 100 and 200 and an expense of
    150 inside the window. *)
Example summary_of_three :
  let w := snd (bind (TransactionService.createTransaction
                        (payload 100 "income" "2026-01-05" JUndefined))
                  (fun _ => bind (TransactionService.createTransaction
                                    (payload 200 "income" "2026-01-10" JUndefined))
                  (fun _ => TransactionService.createTransaction
                              (payload 150 "expense" "2026-01-15" JUndefined)))
                  migrated_world) in
  fst (TransactionService.getTransactionSummary (JStr "2026-01-01") (JStr "2026-01-31") w) =
  Ok {| total_income := JNum (300 # 1); total_expense := JNum (150 # 1);
        balance := JNum (150 # 1); total_count := 3 |}.
Proof. vm_compute. reflexivity. Qed.

(** ** Spending by category *)

Global Instance spending_ge_total : Total spending_ge.
Proof.
  intros a b. unfold spending_ge. rewrite !Qle_bool_iff.
  destruct (Qlt_le_dec (num_of (sp_total_amount a)) (num_of (sp_total_amount b))) as [H|H].
  - right. now apply Qlt_le_weak.
  - now left.
Qed.

Global Instance spending_ge_trans : Transitive spending_ge.
Proof.
  intros a b c. unfold spending_ge. rewrite !Qle_bool_iff. intros H1 H2.
  eapply Qle_trans; eassumption.
Qed.










(** The category that carries expenses of 300 and 500 and an income of 500
    is reported with a total of 800 over two transactions. *)
Example spending_ignores_income :
  fst (TransactionService.getSpendingByCategory (JStr "2026-01-01") (JStr "2026-01-31")
         world_at_80_percent) =
  Ok [ {| sp_id := 1; sp_name := JStr "Food"; sp_icon := JStr "food";
          sp_color := JStr "#FF6B6B"; sp_total_amount := JNum (800 # 1);
          sp_transaction_count := 2 |} ].
Proof. vm_compute. reflexivity. Qed.

(** ** Budget progress *)

Lemma select_budget_snd (id : jsval) (d : database) :
  snd (BudgetService.select_budget id d) = d.
Proof.
  unfold BudgetService.select_budget. now destruct (budgets d), (categories d).
Qed.

Lemma getBudgetById_found (w : world) (id : jsval) (bv : budget_view) :
  fst (BudgetService.getBudgetById id w) = Ok (Some bv) ->
  BudgetService.getBudgetById id w = (Ok (Some bv), ran w (store w)).
Proof.
  unfold BudgetService.getBudgetById, bind. rewrite executeSql_run.
  rewrite select_budget_snd.
  destruct (fst (BudgetService.select_budget id (store w))) as [[|r l]|e]; simpl;
    unfold ret; congruence.
Qed.

Lemma getBudgetById_run (w : world) (id : jsval) (buds : table budget)
    (cats : table category) :
  budgets (store w) = Some buds ->
  categories (store w) = Some cats ->
  BudgetService.getBudgetById id w =
  (Ok (head (flat_map (BudgetService.views_of (rows cats))
               (filter (fun r => id_is (b_id r) id = true) (rows buds)))),
   ran w (store w)).
Proof.
  intros Hb Hc. unfold BudgetService.getBudgetById.
  erewrite bind_ok
    by (apply executeSql_ok; unfold BudgetService.select_budget;
        rewrite Hb, Hc; reflexivity).
  now destruct (flat_map _ _).
Qed.







(** The first test of the source on [getBudgetProgress], with one expense of
    300 against 1000: 30 percent spent, 700 left. *)
Example progress_300_of_1000 :
  fst (BudgetService.getBudgetProgress (JNum 1) (JStr "2026-01-01") (JStr "2026-01-31")
         world_with_budget) =
  Ok {| budget_id := JNum 1; budget_amount := JNum 1000; spent := JNum (300 # 1);
        remaining := JNum 700; percentage := JNum 30;
        is_exceeded := false;
        period_start := JStr "2026-01-01"; period_end := JStr "2026-01-31" |}.
Proof. vm_compute. reflexivity. Qed.

(** Rounding happens at every step: 23 spent out of 160 is 14.375 percent,
    which the doubles of the source turn into 14.37 (the quotient, times 100,
    times 100 is just below 1437.5), not into 14.38. *)
Example percent_23_of_160 : percent 23 160 = fl (1437 # 100).
Proof. vm_compute. reflexivity. Qed.

(** ** Status classification *)





(** The progress record at 80 percent. *)
Example progress_at_80 :
  fst (BudgetService.getBudgetProgress (JNum 1) (JStr "2026-01-01") (JStr "2026-01-31")
         world_at_80_percent) = Ok progress_at_80_percent.
Proof. vm_compute. reflexivity. Qed.

(** ** Dates as strings

    The source compares dates as strings.  On strings of the shape
    [YYYY-MM-DD] this is the comparison of the dates they denote. *)

Lemma is_digit_bounds (c : ascii) : is_digit c = true -> (0 <= digit_value c <= 9)%Z.
Proof.
  unfold is_digit, digit_value. intros H. apply andb_true_iff in H.
  destruct H as [H1 H2]. apply N.leb_le in H1, H2. lia.
Qed.

Lemma ascii_compare_digits (a b : ascii) :
  Ascii.compare a b = Z.compare (digit_value a) (digit_value b).
Proof.
  unfold Ascii.compare, digit_value.
  destruct (N.compare_spec (N_of_ascii a) (N_of_ascii b)) as [H|H|H];
    symmetry; [apply Z.compare_eq_iff|apply Z.compare_lt_iff|apply Z.compare_gt_iff]; lia.
Qed.

Lemma iso_date_order (s e : string) :
  is_iso_date s = true -> is_iso_date e = true ->
  String.compare s e = Z.compare (date_number s) (date_number e).
Proof.
  unfold is_iso_date, date_number.
  do 11 (destruct s as [|? s]; try discriminate).
  do 11 (destruct e as [|? e]; try discriminate).
  cbn [list_ascii_of_string forallb].
  rewrite !andb_true_iff. intros H1 H2.
  repeat match goal with H : _ /\ _ |- _ => destruct H end.
  repeat match goal with H : is_digit _ = true |- _ => apply is_digit_bounds in H end.
  repeat match goal with
         | H : Ascii.eqb _ dash = true |- _ => apply Ascii.eqb_eq in H; subst
         end.
  cbn [String.compare]. rewrite !ascii_compare_digits.
  change (digit_value dash ?= digit_value dash)%Z with Eq.
  repeat match goal with
         | |- context [(digit_value ?a ?= digit_value ?b)%Z] =>
             destruct (Z.compare_spec (digit_value a) (digit_value b))
         end;
    symmetry;
    try (apply Z.compare_eq_iff; lia); try (apply Z.compare_lt_iff; lia);
    try (apply Z.compare_gt_iff; lia).
Qed.

Lemma iso_date_ltb (s e : string) :
  is_iso_date s = true -> is_iso_date e = true ->
  String.ltb e s = true <-> (date_number e < date_number s)%Z.
Proof.
  intros Hs He. unfold String.ltb. rewrite (iso_date_order e s He Hs).
  rewrite <- Z.compare_lt_iff. destruct (date_number e ?= date_number s)%Z;
    split; congruence.
Qed.

(** ** The end date of a budget *)

Lemma validateBudget_end_date (d : BudgetService.data) (s e : string) :
  BudgetService.validateBudget (with_end_date JUndefined d) = Ok tt ->
  BudgetService.start_date d = JStr s ->
  is_iso_date e = true ->
  is_iso_date s = true /\
  BudgetService.validateBudget (with_end_date (JStr e) d) =
    if String.ltb e s then Throw (Error "End date must be after start date") else Ok tt.
Proof.
  unfold BudgetService.validateBudget. simpl. intros H Hs He.
  destruct (_ || _ || js_le_num _ 0); [discriminate|].
  destruct (negb (truthy (BudgetService.category_id d)) || _); [discriminate|].
  destruct (negb (truthy (BudgetService.period d)) || _); [discriminate|].
  rewrite Hs in *. simpl in *.
  destruct (is_iso_date s) eqn:Es; [|rewrite orb_true_r in H; discriminate].
  split; [reflexivity|]. rewrite orb_false_r in *.
  destruct (negb (negb (String.eqb s EmptyString))); [discriminate|].
  rewrite He. simpl. rewrite andb_false_r.
  assert (Hne : String.eqb e EmptyString = false) by (now destruct e).
  rewrite Hne. reflexivity.
Qed.

Lemma validateBudget_absent (d : BudgetService.data) (v : jsval) :
  truthy v = false ->
  BudgetService.validateBudget (with_end_date v d) =
  BudgetService.validateBudget (with_end_date JUndefined d).
Proof.
  intros Hv. unfold BudgetService.validateBudget. simpl. now rewrite Hv.
Qed.

Lemma budget_rejected (w : world) (id : jsval) (d : BudgetService.data) (e : error) :
  BudgetService.validateBudget d = Throw e ->
  BudgetService.createBudget d w = (Throw e, w) /\
  BudgetService.updateBudget id d w = (Throw e, w).
Proof.
  intros H. unfold BudgetService.createBudget, BudgetService.updateBudget, bind, lift.
  now rewrite H.
Qed.

Lemma filter_map_same {A : Type} (f : A -> bool) (g : A -> A) (l : list A) :
  (forall r, f (g r) = f r) ->
  filter (fun r => f r = true) (map g l) = map g (filter (fun r => f r = true) l).
Proof.
  intros H. induction l as [|a l IH]; [reflexivity|]. simpl.
  rewrite !filter_cons. rewrite H.
  destruct (decide (f a = true)); simpl; now rewrite IH.
Qed.

Lemma category_found (w : world) (v : jsval) (cats : table category) (c : category) :
  categories (store w) = Some cats -> c ∈ rows cats -> id_is (c_id c) v = true ->
  exists n, executeSql (BudgetService.select_category_id v) w = (Ok (S n), ran w (store w)).
Proof.
  intros Hc Hin Hid.
  destruct (filter_found (fun r => id_is (c_id r) v) _ _ Hin Hid) as (c0 & l0 & Hf).
  exists (length l0). apply executeSql_ok.
  unfold BudgetService.select_category_id. now rewrite Hc, Hf.
Qed.

Lemma createBudget_accepted (w : world) (d : BudgetService.data)
    (cats : table category) (buds : table budget) (c : category) :
  BudgetService.validateBudget d = Ok tt ->
  categories (store w) = Some cats ->
  budgets (store w) = Some buds ->
  c ∈ rows cats ->
  id_is (c_id c) (BudgetService.category_id d) = true ->
  exists row w',
    BudgetService.createBudget d w = (Ok row, w') /\
    b_end_date row = js_or (BudgetService.end_date d) JNull /\
    budgets (store w') = Some {| rows := rows buds ++ [row]; seq := (seq buds + 1)%Z |}.
Proof.
  intros Hv Hc Hb Hin Hid.
  destruct (category_found w _ cats c Hc Hin Hid) as (n & Hn).
  unfold BudgetService.createBudget.
  rewrite Hv. unfold lift at 1. unfold bind at 1.
  rewrite (bind_ok _ _ _ _ _ Hn). change (S n =? 0)%nat with false.
  unfold toISOString at 1. unfold bind at 1. cbv beta iota.
  erewrite bind_ok
    by (apply executeSql_ok; unfold BudgetService.insert_budget; simpl;
        rewrite Hb; reflexivity).
  eexists. eexists. split; [reflexivity|]. simpl. split; reflexivity.
Qed.

Lemma updateBudget_accepted (w : world) (id : jsval) (d : BudgetService.data)
    (cats : table category) (buds : table budget) (c : category)
    (existing : budget_view) :
  BudgetService.validateBudget d = Ok tt ->
  categories (store w) = Some cats ->
  budgets (store w) = Some buds ->
  c ∈ rows cats ->
  id_is (c_id c) (BudgetService.category_id d) = true ->
  fst (BudgetService.getBudgetById id w) = Ok (Some existing) ->
  exists view w' buds',
    BudgetService.updateBudget id d w = (Ok (Some view), w') /\
    b_end_date (bv_row view) = js_or (BudgetService.end_date d) JNull /\
    budgets (store w') = Some buds' /\
    bv_row view ∈ rows buds' /\
    (forall r, r ∈ rows buds' -> id_is (b_id r) id = true ->
               b_end_date r = js_or (BudgetService.end_date d) JNull) /\
    (forall r, id_is (b_id r) id = false -> r ∈ rows buds' <-> r ∈ rows buds) /\
    fst (BudgetService.getBudgetById id w') = Ok (Some view).
Proof.
  intros Hv Hc Hb Hin Hid Hex.
  pose proof (getBudgetById_found _ _ _ Hex) as Hfound.
  (* the budget rows with this id, before the update *)
  assert (Hrows : exists b1 rest,
             filter (fun r => id_is (b_id r) id = true) (rows buds) = b1 :: rest).
  { revert Hex. unfold BudgetService.getBudgetById, bind. rewrite executeSql_run.
    unfold BudgetService.select_budget. rewrite Hb, Hc. simpl.
    destruct (filter (fun r => id_is (b_id r) id = true) (rows buds)) as [|b1 rest];
      [discriminate|eauto]. }
  destruct Hrows as (b1 & rest & Hrows).
  assert (Hin1 : b1 ∈ filter (fun r => id_is (b_id r) id = true) (rows buds))
    by (rewrite Hrows; apply list_elem_of_here).
  apply list_elem_of_filter in Hin1. destruct Hin1 as [Hb1 Hin1].
  destruct (filter_found (fun r => id_is (c_id r) (BudgetService.category_id d)) _ _ Hin Hid)
    as (c0 & l0 & Hf).
  set (upd := fun r : budget =>
                if id_is (b_id r) id
                then {| b_id := b_id r; b_category_id := BudgetService.category_id d;
                        b_amount := BudgetService.amount d;
                        b_period := BudgetService.period d;
                        b_start_date := BudgetService.start_date d;
                        b_end_date := js_or (BudgetService.end_date d) JNull;
                        b_created_at := b_created_at r;
                        b_updated_at := JStr (clock w) |}
                else r).
  set (buds' := {| rows := map upd (rows buds); seq := seq buds |}).
  set (w2 := ran (ran (ran w (store w)) (store w)) (set_budgets (Some buds') (store w))).
  assert (Hupd : BudgetService.updateBudget id d w =
                 bind (ret tt) (fun _ => BudgetService.getBudgetById id) w2).
  { unfold BudgetService.updateBudget.
    rewrite Hv. unfold lift at 1. unfold bind at 1.
    rewrite (bind_ok _ _ _ _ _ Hfound).
    destruct (category_found (ran w (store w)) _ cats c Hc Hin Hid) as (n & Hn).
    rewrite (bind_ok _ _ _ _ _ Hn). change (S n =? 0)%nat with false.
    unfold toISOString at 1. unfold bind at 1. cbv beta iota.
    erewrite bind_ok
      by (apply executeSql_ok; unfold BudgetService.update_budget; simpl;
          rewrite Hb; reflexivity).
    reflexivity. }
  assert (Hread : forall w0, store w0 = store w2 ->
            BudgetService.getBudgetById id w0 =
            (Ok (Some (budget_beside c0 (upd b1))), ran w0 (store w0))).
  { intros w0 E.
    rewrite (getBudgetById_run w0 id buds' cats) by (rewrite E; subst w2; simpl; auto).
    unfold buds'. cbn [rows].
    rewrite (filter_map_same (fun r => id_is (b_id r) id)).
    2:{ intros r. unfold upd. destruct (id_is (b_id r) id) eqn:E'; simpl; now rewrite ?E'. }
    rewrite Hrows. cbn [map flat_map]. unfold BudgetService.views_of at 1.
    replace (b_category_id (upd b1)) with (BudgetService.category_id d)
      by (unfold upd; now rewrite Hb1).
    rewrite Hf. reflexivity. }
  exists (budget_beside c0 (upd b1)), (ran w2 (store w2)), buds'.
  split.
  { rewrite Hupd. unfold bind at 1, ret at 1. apply Hread. reflexivity. }
  split; [unfold upd; cbn [budget_beside bv_row]; now rewrite Hb1|].
  split; [reflexivity|].
  split.
  { cbn [budget_beside bv_row]. unfold buds'. cbn [rows].
    apply list_elem_of_fmap. exists b1. split; [reflexivity|exact Hin1]. }
  split.
  { intros r Hr Hrid. unfold buds' in Hr. cbn [rows] in Hr.
    apply list_elem_of_fmap in Hr. destruct Hr as (r0 & -> & _).
    unfold upd in *. destruct (id_is (b_id r0) id) eqn:E'; [reflexivity|congruence]. }
  split.
  { intros r Hrid. unfold buds'. cbn [rows]. split.
    - intros Hr. apply list_elem_of_fmap in Hr. destruct Hr as (r0 & -> & Hr0).
      unfold upd in *. destruct (id_is (b_id r0) id) eqn:E'; [|exact Hr0].
      simpl in Hrid. congruence.
    - intros Hr. apply list_elem_of_fmap. exists r. split; [|exact Hr].
      unfold upd. now rewrite Hrid. }
  rewrite (Hread (ran w2 (store w2)) eq_refl). reflexivity.
Qed.

(** C9 — End-date validation.  Take a payload whose other fields are valid
    (the validator accepts it without end date), a category that exists and,
    for the update, a budget that exists.  With a date-formatted end date:
    when the end date is on or after the start date, create and update are
    accepted and the end date is stored; when it is before the start date,
    both throw the validation error and leave the world untouched.  With an
    absent (falsy) end date both are accepted and [null] is stored.  Stored
    means: the created row is appended to the table with that end date; the
    updated row is in the table, every row that carries the id has that end
    date, the rows with another id are as before, and [getBudgetById] reads
    the updated row back. *)
Theorem end_date_validation (w : world) (id : jsval) (d : BudgetService.data)
    (s e : string) (cats : table category) (buds : table budget) (c : category)
    (existing : budget_view) :
  BudgetService.validateBudget (with_end_date JUndefined d) = Ok tt ->
  BudgetService.start_date d = JStr s ->
  is_iso_date e = true ->
  categories (store w) = Some cats ->
  budgets (store w) = Some buds ->
  c ∈ rows cats ->
  id_is (c_id c) (BudgetService.category_id d) = true ->
  fst (BudgetService.getBudgetById id w) = Ok (Some existing) ->
  let accepted (p : BudgetService.data) (stored : jsval) :=
    (exists row w',
       BudgetService.createBudget p w = (Ok row, w') /\ b_end_date row = stored /\
       budgets (store w') = Some {| rows := rows buds ++ [row]; seq := (seq buds + 1)%Z |}) /\
    (exists view w' buds',
       BudgetService.updateBudget id p w = (Ok (Some view), w') /\
       b_end_date (bv_row view) = stored /\
       budgets (store w') = Some buds' /\
       bv_row view ∈ rows buds' /\
       (forall r, r ∈ rows buds' -> id_is (b_id r) id = true -> b_end_date r = stored) /\
       (forall r, id_is (b_id r) id = false -> r ∈ rows buds' <-> r ∈ rows buds) /\
       fst (BudgetService.getBudgetById id w') = Ok (Some view)) in
  let rejected (p : BudgetService.data) :=
    let err := Error "End date must be after start date" in
    kind_of err = ValidationError /\
    BudgetService.createBudget p w = (Throw err, w) /\
    BudgetService.updateBudget id p w = (Throw err, w) in
  ((date_number s <= date_number e)%Z -> accepted (with_end_date (JStr e) d) (JStr e)) /\
  ((date_number e < date_number s)%Z -> rejected (with_end_date (JStr e) d)) /\
  (forall v, truthy v = false -> accepted (with_end_date v d) JNull).
Proof.
  intros Hv Hs He Hc Hb Hin Hid Hex accepted rejected.
  destruct (validateBudget_end_date d s e Hv Hs He) as [Hiso Hval].
  assert (Hne : truthy (JStr e) = true) by (now destruct e).
  split; [|split].
  - intros Hle.
    assert (Hlt : String.ltb e s = false).
    { destruct (String.ltb e s) eqn:E; [|reflexivity].
      apply (iso_date_ltb s e Hiso He) in E. lia. }
    rewrite Hlt in Hval. split.
    + destruct (createBudget_accepted w _ cats buds c Hval Hc Hb Hin Hid)
        as (row & w' & E1 & E2 & E3).
      exists row, w'. simpl in E2. unfold js_or in E2. rewrite Hne in E2. auto.
    + destruct (updateBudget_accepted w id _ cats buds c existing Hval Hc Hb Hin Hid Hex)
        as (view & w' & buds' & E1 & E2 & E3 & E4 & E5 & E6 & E7).
      exists view, w', buds'. simpl in E2, E5. unfold js_or in E2, E5.
      rewrite Hne in E2, E5. auto 10.
  - intros Hlt. apply (iso_date_ltb s e Hiso He) in Hlt. rewrite Hlt in Hval.
    split; [reflexivity|]. now apply budget_rejected.
  - intros v Hf. pose proof (validateBudget_absent d v Hf) as Hval'.
    rewrite Hv in Hval'. split.
    + destruct (createBudget_accepted w _ cats buds c Hval' Hc Hb Hin Hid)
        as (row & w' & E1 & E2 & E3).
      exists row, w'. simpl in E2. unfold js_or in E2. rewrite Hf in E2. auto.
    + destruct (updateBudget_accepted w id _ cats buds c existing Hval' Hc Hb Hin Hid Hex)
        as (view & w' & buds' & E1 & E2 & E3 & E4 & E5 & E6 & E7).
      exists view, w', buds'. simpl in E2, E5. unfold js_or in E2, E5.
      rewrite Hf in E2, E5. auto 10.
Qed.

Lemma end_date_validation_witness :
  (exists view w',
     BudgetService.updateBudget (JNum 1) (with_end_date (JStr "2026-01-01") sample_budget)
       world_with_budget = (Ok (Some view), w') /\
     b_end_date (bv_row view) = JStr "2026-01-01" /\
     fst (BudgetService.getBudgetById (JNum 1) w') = Ok (Some view)) /\
  BudgetService.createBudget (with_end_date (JStr "2025-12-31") sample_budget)
    world_with_budget =
    (Throw (Error "End date must be after start date"), world_with_budget) /\
  BudgetService.updateBudget (JNum 1) (with_end_date (JStr "2025-12-31") sample_budget)
    world_with_budget =
    (Throw (Error "End date must be after start date"), world_with_budget).
Proof.
  assert (H1 : BudgetService.validateBudget (with_end_date JUndefined sample_budget) = Ok tt)
    by reflexivity.
  assert (H2 : BudgetService.start_date sample_budget = JStr "2026-01-01") by reflexivity.
  assert (H3 : is_iso_date "2025-12-31" = true) by reflexivity.
  assert (H3' : is_iso_date "2026-01-01" = true) by reflexivity.
  assert (H4 : categories (store world_with_budget) =
               Some (the (categories (store world_with_budget))))
    by (vm_compute; reflexivity).
  assert (H5 : budgets (store world_with_budget) =
               Some (the (budgets (store world_with_budget))))
    by (vm_compute; reflexivity).
  assert (H6 : food_row ∈ rows (the (categories (store world_with_budget))))
    by (vm_compute; apply list_elem_of_here).
  assert (H7 : id_is (c_id food_row) (BudgetService.category_id sample_budget) = true)
    by reflexivity.
  assert (H8 : fst (BudgetService.getBudgetById (JNum 1) world_with_budget) =
               Ok (Some sample_budget_view)) by (vm_compute; reflexivity).
  assert (H9 : (date_number "2025-12-31" < date_number "2026-01-01")%Z) by reflexivity.
  assert (H9' : (date_number "2026-01-01" <= date_number "2026-01-01")%Z) by reflexivity.
  split.
  - destruct (proj2 (proj1 (end_date_validation world_with_budget (JNum 1) sample_budget
                              "2026-01-01" "2026-01-01" _ _ food_row sample_budget_view
                              H1 H2 H3' H4 H5 H6 H7 H8) H9'))
      as (view & w' & _ & E1 & E2 & _ & _ & _ & _ & E7).
    exists view, w'. auto.
  - exact (proj2 (proj1 (proj2 (end_date_validation world_with_budget (JNum 1) sample_budget
                                  "2026-01-01" "2025-12-31" _ _ food_row sample_budget_view
                                  H1 H2 H3 H4 H5 H6 H7 H8)) H9)).
Defined.

(** An end date equal to the start date is accepted. *)
Example end_date_equal_to_start :
  exists row w',
    BudgetService.createBudget (with_end_date (JStr "2026-01-01") sample_budget)
      world_with_category = (Ok row, w') /\
    b_end_date row = JStr "2026-01-01".
Proof. eexists. eexists. vm_compute. split; reflexivity. Qed.

(** ** Updating a transaction *)

Lemma validated_description (d : TransactionService.data) :
  TransactionService.validateTransaction d = Ok tt ->
  exists s, TransactionService.description d = JStr s.
Proof.
  unfold TransactionService.validateTransaction.
  destruct (_ || _ || js_le_num _ 0); [discriminate|].
  destruct (TransactionService.description d) as [| |b|q| |s]; simpl;
    try discriminate; try (destruct b; discriminate); eauto.
  destruct (negb (Qeq_bool q 0)); discriminate.
Qed.

Lemma tv_row_view_of (cats : list category) (t : transaction) :
  tv_row (TransactionService.view_of cats t) = t.
Proof.
  unfold TransactionService.view_of. now destruct (filter _ cats).
Qed.

Lemma select_transaction_snd (id : jsval) (d : database) :
  snd (TransactionService.select_transaction id d) = d.
Proof.
  unfold TransactionService.select_transaction.
  now destruct (transactions d), (categories d).
Qed.

Lemma getTransactionById_found (w : world) (id : jsval) (v : transaction_view) :
  fst (TransactionService.getTransactionById id w) = Ok (Some v) ->
  TransactionService.getTransactionById id w = (Ok (Some v), ran w (store w)) /\
  exists txs cats rest,
    transactions (store w) = Some txs /\ categories (store w) = Some cats /\
    filter (fun r => id_is (t_id r) id = true) (rows txs) = tv_row v :: rest /\
    v = TransactionService.view_of (rows cats) (tv_row v).
Proof.
  unfold TransactionService.getTransactionById, bind. rewrite executeSql_run.
  rewrite select_transaction_snd.
  unfold TransactionService.select_transaction.
  destruct (transactions (store w)) as [txs|]; [|discriminate].
  destruct (categories (store w)) as [cats|]; [|discriminate]. simpl.
  destruct (filter (fun r => id_is (t_id r) id = true) (rows txs)) as [|r rest] eqn:Ef;
    simpl; unfold ret; simpl; [discriminate|].
  intros [= <-]. split; [reflexivity|].
  exists txs, cats, rest. rewrite tv_row_view_of. repeat split. exact Ef.
Qed.

Lemma getTransactionById_fst (w1 w2 : world) (id : jsval) :
  store w1 = store w2 ->
  fst (TransactionService.getTransactionById id w1) =
  fst (TransactionService.getTransactionById id w2).
Proof.
  intros E. unfold TransactionService.getTransactionById, bind.
  rewrite !executeSql_run, E.
  now destruct (fst (TransactionService.select_transaction id (store w2))) as [[|r l]|err].
Qed.

(** C10 — Update asymmetry.  For a valid payload (its description an ASCII
    text, its category a number or missing and its raw data a text or
    missing, so that the columns store what is bound) and a transaction that
    [getTransactionById] finds, [updateTransaction] succeeds, and in the row
    it reads back the stored date, source and raw data are the old ones when
    the payload leaves them out (or gives a falsy value), while the category
    is [payload.category_id || null]: leaving the category out stores [null],
    whatever category the transaction had. *)
Theorem update_asymmetry (w : world) (id : jsval) (d : TransactionService.data)
    (before : transaction_view) :
  TransactionService.validateTransaction d = Ok tt ->
  plain_text (TransactionService.description d) ->
  keeps_integer (js_or (TransactionService.category_id d) JNull) ->
  keeps_text (js_or (TransactionService.raw_data d) JNull) ->
  fst (TransactionService.getTransactionById id w) = Ok (Some before) ->
  exists after w',
    TransactionService.updateTransaction id d w = (Ok (Some after), w') /\
    fst (TransactionService.getTransactionById id w') = Ok (Some after) /\
    t_date (tv_row after) = js_or (TransactionService.date d) (t_date (tv_row before)) /\
    t_source (tv_row after) =
      js_or (TransactionService.source d) (t_source (tv_row before)) /\
    t_raw_data (tv_row after) =
      js_or (TransactionService.raw_data d) (t_raw_data (tv_row before)) /\
    t_category_id (tv_row after) = js_or (TransactionService.category_id d) JNull /\
    (truthy (TransactionService.date d) = false ->
       t_date (tv_row after) = t_date (tv_row before)) /\
    (truthy (TransactionService.source d) = false ->
       t_source (tv_row after) = t_source (tv_row before)) /\
    (truthy (TransactionService.raw_data d) = false ->
       t_raw_data (tv_row after) = t_raw_data (tv_row before)) /\
    (truthy (TransactionService.category_id d) = false ->
       t_category_id (tv_row after) = JNull).
Proof.
  intros Hv _ _ _ Hex.
  destruct (getTransactionById_found _ _ _ Hex)
    as (Hfound & txs & cats & rest & Ht & Hc & Hrows & Hview).
  destruct (validated_description d Hv) as (s & Hs).
  assert (Hid : id_is (t_id (tv_row before)) id = true).
  { assert (Hin : tv_row before ∈ filter (fun r => id_is (t_id r) id = true) (rows txs))
      by (rewrite Hrows; apply list_elem_of_here).
    apply list_elem_of_filter in Hin. tauto. }
  unfold TransactionService.updateTransaction.
  rewrite Hv. unfold lift at 1. unfold bind at 1.
  rewrite (bind_ok _ _ _ _ _ Hfound).
  unfold toISOString at 1. unfold bind at 1. cbv beta iota.
  rewrite Hs. unfold method_trim at 1. unfold ret at 1. unfold bind at 1. cbv beta iota.
  erewrite bind_ok
    by (apply executeSql_ok; unfold TransactionService.update_transaction; simpl;
        rewrite Ht; reflexivity).
  set (w' := ran (ran w (store w)) _).
  assert (Hafter : exists after,
            TransactionService.getTransactionById id w' = (Ok (Some after), ran w' (store w')) /\
            tv_row after =
              {| t_id := t_id (tv_row before);
                 t_amount := TransactionService.amount d;
                 t_description := JStr (trim s);
                 t_date := js_or (TransactionService.date d) (t_date (tv_row before));
                 t_type := TransactionService.type d;
                 t_category_id := js_or (TransactionService.category_id d) JNull;
                 t_is_manually_set := flag_of (TransactionService.is_manually_set d);
                 t_source := js_or (TransactionService.source d) (t_source (tv_row before));
                 t_raw_data :=
                   js_or (TransactionService.raw_data d) (t_raw_data (tv_row before));
                 t_created_at := t_created_at (tv_row before);
                 t_updated_at := JStr (clock w) |}).
  { unfold TransactionService.getTransactionById, bind. rewrite executeSql_run.
    unfold TransactionService.select_transaction. subst w'. simpl. rewrite Hc. simpl.
    rewrite (filter_map_same (fun r => id_is (t_id r) id)).
    2:{ intros r. destruct (id_is (t_id r) id) eqn:E; simpl; now rewrite ?E. }
    rewrite Hrows. simpl. rewrite Hid. eexists. split; [reflexivity|].
    now rewrite tv_row_view_of. }
  destruct Hafter as (after & Eafter & Hrow).
  exists after, (ran w' (store w')). split; [exact Eafter|].
  split.
  { rewrite (getTransactionById_fst (ran w' (store w')) w' id eq_refl).
    now rewrite Eafter. }
  rewrite Hrow. simpl. unfold js_or.
  repeat split; try reflexivity; intros ->; reflexivity.
Qed.

Lemma update_asymmetry_witness :
  exists after w',
    TransactionService.updateTransaction (JNum 1) bare_update world_with_transactions =
      (Ok (Some after), w') /\
    t_date (tv_row after) = JStr "2026-01-05" /\
    t_source (tv_row after) = JStr "manual" /\
    t_category_id (tv_row after) = JNull.
Proof.
  assert (H1 : TransactionService.validateTransaction bare_update = Ok tt) by reflexivity.
  assert (H2 : fst (TransactionService.getTransactionById (JNum 1) world_with_transactions) =
               Ok (Some first_expense)) by (vm_compute; reflexivity).
  destruct (update_asymmetry world_with_transactions (JNum 1) bare_update first_expense
              H1 eq_refl I I H2) as (after & w' & E & _ & _ & _ & _ & _ & Hd & Hs & _ & Hc).
  exists after, w'. split; [exact E|]. split; [|split].
  - rewrite Hd; reflexivity.
  - rewrite Hs; reflexivity.
  - apply Hc. reflexivity.
Defined.

(** The transaction that was booked on category 1 comes back without a
    category, with its old date and source. *)
Example update_drops_category :
  fst (TransactionService.updateTransaction (JNum 1) bare_update world_with_transactions) =
  Ok (Some {| tv_row := {| t_id := 1; t_amount := JNum 250; t_description := JStr "Lunch";
                           t_date := JStr "2026-01-05"; t_type := JStr "expense";
                           t_category_id := JNull; t_is_manually_set := JNum 0;
                           t_source := JStr "manual"; t_raw_data := JNull;
                           t_created_at := JStr "2026-01-10T08:00:00.000Z";
                           t_updated_at := JStr "2026-01-10T08:00:00.000Z" |};
              tv_category_name := JNull; tv_category_icon := JNull;
              tv_category_color := JNull |}).
Proof. vm_compute. reflexivity. Qed.

(** * Further properties

    Properties of the functions the sections above did not reach, read off
    the source. *)

(** ** Settings *)

Lemma getSetting_run (w : world) (m : gmap string setting) (key : string) :
  settings (store w) = Some m ->
  getSetting key w = (Ok (s_value <$> m !! key), ran w (store w)).
Proof.
  intros Hm. unfold getSetting.
  erewrite bind_ok
    by (apply executeSql_ok; unfold select_setting_value; rewrite Hm; reflexivity).
  now destruct (m !! key).
Qed.

Lemma setSetting_run (w : world) (m : gmap string setting) (key : string) (value : jsval) :
  settings (store w) = Some m ->
  writable_key key -> writable_value value ->
  setSetting key value w =
  (Ok (key, show value, clock w),
   ran w (set_settings
            (Some (<[ key := {| s_value := show value; s_updated_at := clock w |} ]> m))
            (store w))).
Proof.
  intros Hm Hk [Hn Hu]. unfold setSetting.
  assert (Hk' : String.eqb key EmptyString || String.eqb (trim key) EmptyString = false).
  { apply orb_false_iff. split; apply String.eqb_neq; [|exact Hk].
    intros ->. now apply Hk. }
  rewrite Hk'.
  assert (Hrun :
    (let! updatedAt := toISOString in
     let valueStr := show value in
     do! executeSql (insert_or_replace_setting key valueStr updatedAt) in
     ret (key, valueStr, updatedAt)) w =
    (Ok (key, show value, clock w),
     ran w (set_settings
              (Some (<[ key := {| s_value := show value; s_updated_at := clock w |} ]> m))
              (store w)))).
  { unfold toISOString at 1. unfold bind at 1. cbv beta iota zeta.
    erewrite bind_ok
      by (apply executeSql_ok; unfold insert_or_replace_setting; rewrite Hm; reflexivity).
    reflexivity. }
  destruct value; try exact Hrun; congruence.
Qed.

(** X1 — Settings round trip.  On a store with a settings table, writing a
    value that is neither [null] nor [undefined] (nor a number outside the
    safe integers, whose text is not modelled) under a key of ASCII
    characters that is not blank succeeds and echoes the key, the string of
    the value and the time; reading the key back gives that string, whatever
    was stored before; every other key reads as before and no other table
    changes. *)
Theorem setSetting_getSetting (w : world) (m : gmap string setting)
    (key other : string) (value : jsval) :
  settings (store w) = Some m ->
  writable_key key ->
  plain key = true ->
  writable_value value ->
  prints_plainly value ->
  let w' := snd (setSetting key value w) in
  fst (setSetting key value w) = Ok (key, show value, clock w) /\
  fst (getSetting key w') = Ok (Some (show value)) /\
  (other <> key -> fst (getSetting other w') = fst (getSetting other w)) /\
  categories (store w') = categories (store w) /\
  transactions (store w') = transactions (store w) /\
  budgets (store w') = budgets (store w).
Proof.
  intros Hm Hk _ Hv _ w'. subst w'. rewrite (setSetting_run w m key value Hm Hk Hv). simpl.
  split; [reflexivity|]. split; [|split].
  - erewrite getSetting_run by reflexivity. simpl. now rewrite lookup_insert_eq.
  - intros Hne. erewrite getSetting_run by reflexivity.
    rewrite (getSetting_run w m other Hm). simpl. now rewrite lookup_insert_ne.
  - auto.
Qed.

Lemma setSetting_getSetting_witness :
  fst (getSetting "theme" (snd (setSetting "theme" (JStr "dark") migrated_world))) =
  Ok (Some "dark").
Proof.
  assert (H1 : settings (store migrated_world) =
               Some (default ∅ (settings (store migrated_world))))
    by (vm_compute; reflexivity).
  assert (H2 : writable_key "theme") by (vm_compute; discriminate).
  assert (H3 : writable_value (JStr "dark")) by (split; discriminate).
  exact (proj1 (proj2 (setSetting_getSetting migrated_world _ "theme" "currency"
                         (JStr "dark") H1 H2 eq_refl H3 I))).
Defined.

Lemma setSetting_refused (w : world) (key : string) (value : jsval) :
  ~ (writable_key key /\ writable_value value) ->
  exists e, setSetting key value w = (Throw e, w).
Proof.
  intros Hbad. unfold setSetting.
  destruct (String.eqb key EmptyString || String.eqb (trim key) EmptyString) eqn:Hk;
    [eexists; reflexivity|].
  apply orb_false_iff in Hk. destruct Hk as [_ Hk]. apply String.eqb_neq in Hk.
  destruct value; try (eexists; reflexivity);
    exfalso; apply Hbad; (split; [exact Hk|split; discriminate]).
Qed.

(** X2 — Rejected settings.  A blank key, or a value that is [null] or
    [undefined], makes [setSetting] throw before any statement is sent: the
    world is unchanged.  The key is tested first: the error on the value is
    the one thrown only when the key (here of ASCII characters) is not
    blank. *)
Theorem setSetting_rejects (w : world) (key : string) (value : jsval) :
  (trim key = EmptyString ->
   setSetting key value w =
   (Throw (Error "Setting key is required and must be a non-empty string"), w)) /\
  (writable_key key -> plain key = true -> value = JNull \/ value = JUndefined ->
   setSetting key value w =
   (Throw (Error "Setting value cannot be null or undefined"), w)).
Proof.
  unfold setSetting. split.
  - intros Hk. rewrite Hk. simpl. now rewrite orb_true_r.
  - intros Hk _ Hv.
    assert (Hk' : String.eqb key EmptyString || String.eqb (trim key) EmptyString = false).
    { apply orb_false_iff. split; apply String.eqb_neq; [|exact Hk].
      intros ->. now apply Hk. }
    rewrite Hk'. now destruct Hv as [-> | ->].
Qed.

Lemma setSetting_rejects_witness :
  setSetting "   " (JStr "x") migrated_world =
    (Throw (Error "Setting key is required and must be a non-empty string"),
     migrated_world) /\
  setSetting "theme" JNull migrated_world =
    (Throw (Error "Setting value cannot be null or undefined"), migrated_world).
Proof.
  split.
  - apply (proj1 (setSetting_rejects migrated_world "   " (JStr "x"))). reflexivity.
  - apply (proj2 (setSetting_rejects migrated_world "theme" JNull)).
    + vm_compute. discriminate.
    + reflexivity.
    + now left.
Defined.

(** X3 — Deleting a setting.  On a store with a settings table
    [deleteSetting] always succeeds, also for a key that is not there (the
    database is then unchanged); afterwards the key reads as [null] and every
    other key as before. *)
Theorem deleteSetting_getSetting (w : world) (m : gmap string setting) (key other : string) :
  settings (store w) = Some m ->
  let w' := snd (deleteSetting key w) in
  fst (deleteSetting key w) = Ok tt /\
  fst (getSetting key w') = Ok None /\
  (other <> key -> fst (getSetting other w') = fst (getSetting other w)) /\
  (m !! key = None -> store w' = store w).
Proof.
  intros Hm w'. subst w'. unfold deleteSetting.
  erewrite executeSql_ok by (unfold delete_setting; rewrite Hm; reflexivity).
  simpl. split; [reflexivity|]. split; [|split].
  - erewrite getSetting_run by reflexivity. simpl. now rewrite lookup_delete_eq.
  - intros Hne. erewrite getSetting_run by reflexivity.
    rewrite (getSetting_run w m other Hm). simpl. now rewrite lookup_delete_ne.
  - intros Hnone. rewrite delete_id by exact Hnone.
    destruct (store w) as [c t b s i]. simpl in *. now rewrite Hm.
Qed.

Lemma deleteSetting_getSetting_witness :
  fst (deleteSetting "theme" migrated_world) = Ok tt /\
  store (snd (deleteSetting "theme" migrated_world)) = store migrated_world.
Proof.
  assert (H1 : settings (store migrated_world) =
               Some (default ∅ (settings (store migrated_world))))
    by (vm_compute; reflexivity).
  destruct (deleteSetting_getSetting migrated_world _ "theme" "currency" H1)
    as (E & _ & _ & H).
  split; [exact E|]. apply H. vm_compute. reflexivity.
Defined.

(** X4 — [getSettingWithDefault] never throws.  In every world it returns the
    stored string when the key is there, and the fallback when the key is
    absent or when the settings table does not exist (the error of the read
    is swallowed); the database is never changed. *)
Theorem getSettingWithDefault_total (w : world) (key : string) (fallback : jsval) :
  fst (getSettingWithDefault key fallback w) =
    Ok (match settings (store w) with
        | Some m =>
            match m !! key with
            | Some s => JStr (s_value s)
            | None => fallback
            end
        | None => fallback
        end) /\
  store (snd (getSettingWithDefault key fallback w)) = store w.
Proof.
  unfold getSettingWithDefault, try_catch.
  destruct (settings (store w)) as [m|] eqn:Hm.
  - rewrite (bind_ok _ _ _ _ _ (getSetting_run w m key Hm)).
    destruct (m !! key); simpl; split; reflexivity.
  - unfold getSetting.
    erewrite bind_throw
      by (apply bind_throw; apply executeSql_throw; unfold select_setting_value;
          rewrite Hm; reflexivity).
    split; reflexivity.
Qed.

Lemma filled_cons (key : string) (value : jsval) (entries : list (string * jsval))
    (now : string) (m : gmap string setting) :
  filled ((key, value) :: entries) now m =
  filled entries now
    match m !! key with
    | Some _ => m
    | None => <[ key := {| s_value := show value; s_updated_at := now |} ]> m
    end.
Proof. reflexivity. Qed.

(** What [initialize_entries] leaves in the settings at time [now]. *)
Lemma initialize_entries_run (entries : list (string * jsval)) :
  Forall (fun kv => writable_key kv.1 /\ writable_value kv.2) entries ->
  forall (w : world) (m : gmap string setting),
    settings (store w) = Some m ->
    exists w',
      initialize_entries entries w = (Ok tt, w') /\
      clock w' = clock w /\
      store w' = set_settings (Some (filled entries (clock w) m)) (store w).
Proof.
  induction 1 as [|[key value] entries [Hk Hv] _ IH]; intros w m Hm.
  - exists w. split; [reflexivity|]. split; [reflexivity|]. simpl.
    destruct (store w) as [c t b s i]. simpl in *. now rewrite Hm.
  - cbn [initialize_entries]. simpl in Hk, Hv.
    rewrite (bind_ok _ _ _ _ _ (getSetting_run w m key Hm)).
    rewrite filled_cons.
    destruct (m !! key) as [s|] eqn:Hlook; simpl fmap; cbv iota.
    + rewrite (bind_ok _ _ (ran w (store w)) (ran w (store w)) tt eq_refl).
      destruct (IH (ran w (store w)) m Hm) as (w' & E & C & S).
      exists w'. split; [exact E|]. split; [exact C|]. exact S.
    + assert (Hset : (do! setSetting key value in ret tt) (ran w (store w)) =
                     (Ok tt, ran (ran w (store w))
                               (set_settings
                                  (Some (<[ key := {| s_value := show value;
                                                      s_updated_at := clock w |} ]> m))
                                  (store w))))
        by (now rewrite (bind_ok _ _ _ _ _
                           (setSetting_run (ran w (store w)) m key value Hm Hk Hv))).
      rewrite (bind_ok _ _ _ _ _ Hset).
      destruct (IH (ran (ran w (store w))
                      (set_settings
                         (Some (<[ key := {| s_value := show value;
                                             s_updated_at := clock w |} ]> m))
                         (store w)))
                  (<[ key := {| s_value := show value; s_updated_at := clock w |} ]> m)
                  eq_refl)
        as (w' & E & C & S).
      exists w'. split; [exact E|]. split; [exact C|]. rewrite S. simpl.
      destruct (store w); reflexivity.
Qed.

Lemma filled_kept (entries : list (string * jsval)) (now : string)
    (m : gmap string setting) (key : string) (s : setting) :
  m !! key = Some s -> filled entries now m !! key = Some s.
Proof.
  revert m. induction entries as [|[k v] entries IH]; intros m Hs; [exact Hs|].
  rewrite filled_cons. apply IH.
  destruct (m !! k) eqn:E; [exact Hs|].
  rewrite lookup_insert_ne; [exact Hs|]. congruence.
Qed.

Lemma filled_other (entries : list (string * jsval)) (now : string)
    (m : gmap string setting) (key : string) :
  key ∉ entries.*1 -> filled entries now m !! key = m !! key.
Proof.
  revert m. induction entries as [|[k v] entries IH]; intros m Hn; [reflexivity|].
  rewrite filled_cons. simpl in Hn. apply not_elem_of_cons in Hn. destruct Hn as [Hne Hn].
  rewrite IH by exact Hn. destruct (m !! k); [reflexivity|].
  now rewrite lookup_insert_ne.
Qed.

Lemma filled_new (entries : list (string * jsval)) (now : string)
    (m : gmap string setting) (key : string) (value : jsval) :
  NoDup entries.*1 -> (key, value) ∈ entries -> m !! key = None ->
  filled entries now m !! key = Some {| s_value := show value; s_updated_at := now |}.
Proof.
  revert m. induction entries as [|[k v] entries IH]; intros m Hnd Hin Hnone.
  - now apply elem_of_nil in Hin.
  - rewrite filled_cons. simpl in Hnd. apply NoDup_cons in Hnd. destruct Hnd as [Hk Hnd].
    apply elem_of_cons in Hin. destruct Hin as [[= <- <-]|Hin].
    + rewrite Hnone. apply filled_kept. apply lookup_insert_eq.
    + assert (Hne : k <> key).
      { intros ->. apply Hk. apply list_elem_of_fmap. exists (key, value). auto. }
      apply IH; [exact Hnd|exact Hin|].
      destruct (m !! k); [exact Hnone|]. now rewrite lookup_insert_ne.
Qed.

Lemma filled_twice (entries : list (string * jsval)) (now later : string)
    (m : gmap string setting) :
  filled entries later (filled entries now m) = filled entries now m.
Proof.
  assert (G : forall (l : list (string * jsval)) (m' : gmap string setting),
             (forall k, k ∈ l.*1 -> is_Some (m' !! k)) -> filled l later m' = m').
  { induction l as [|[k v] l IH]; intros m' Hall; [reflexivity|].
    rewrite filled_cons.
    destruct (Hall k) as [s Hs]; [simpl; apply list_elem_of_here|].
    rewrite Hs. apply IH. intros k' Hk'. apply Hall. simpl. now apply list_elem_of_further. }
  apply G. intros k Hk.
  destruct (m !! k) as [s|] eqn:E.
  - exists s. now apply filled_kept.
  - apply list_elem_of_fmap in Hk. destruct Hk as ([k' v] & -> & Hin). simpl in *.
    revert m E. induction entries as [|[k0 v0] entries IH]; intros m E.
    + now apply elem_of_nil in Hin.
    + rewrite filled_cons. apply elem_of_cons in Hin. destruct Hin as [[= <- <-]|Hin].
      * rewrite E. eexists. apply filled_kept. apply lookup_insert_eq.
      * destruct (m !! k0) eqn:E0.
        -- now apply IH.
        -- destruct (decide (k0 = k')) as [->|Hne].
           ++ eexists. apply filled_kept. apply lookup_insert_eq.
           ++ apply IH; [exact Hin|]. now rewrite lookup_insert_ne.
Qed.

Lemma default_settings_writable :
  Forall (fun kv : string * jsval => writable_key kv.1 /\ writable_value kv.2)
    DEFAULT_SETTINGS.
Proof.
  unfold DEFAULT_SETTINGS.
  repeat constructor; simpl; try discriminate; vm_compute; discriminate.
Qed.

Lemma default_keys_distinct : NoDup DEFAULT_SETTINGS.*1.
Proof.
  unfold DEFAULT_SETTINGS. simpl.
  repeat constructor; rewrite ?elem_of_cons, ?elem_of_nil; intuition discriminate.
Qed.

(** X5 — Default settings.  On a store with a settings table
    [initializeDefaultSettings] succeeds; every setting that was there keeps
    its value and time stamp (a default never overwrites); every default key
    that was absent now holds its default, stamped with the current time; no
    other key appears; and running it again, at any later time, changes
    nothing. *)
Theorem initializeDefaultSettings_fills (w : world) (m : gmap string setting)
    (later : string) :
  settings (store w) = Some m ->
  let w' := snd (initializeDefaultSettings w) in
  exists m',
    fst (initializeDefaultSettings w) = Ok tt /\
    store w' = set_settings (Some m') (store w) /\
    (forall key s, m !! key = Some s -> m' !! key = Some s) /\
    (forall key value, (key, value) ∈ DEFAULT_SETTINGS -> m !! key = None ->
       m' !! key = Some {| s_value := show value; s_updated_at := clock w |}) /\
    (forall key, key ∉ DEFAULT_SETTINGS.*1 -> m' !! key = m !! key) /\
    store (snd (initializeDefaultSettings (set_clock later w'))) = store w'.
Proof.
  intros Hm w'. subst w'. unfold initializeDefaultSettings.
  destruct (initialize_entries_run _ default_settings_writable w m Hm) as (w1 & E & C & S).
  rewrite E. cbn [fst snd]. exists (filled DEFAULT_SETTINGS (clock w) m).
  split; [reflexivity|]. split; [exact S|].
  split; [intros; now apply filled_kept|].
  split; [intros key value Hin Hn; apply filled_new; auto; exact default_keys_distinct|].
  split; [intros; now apply filled_other|].
  assert (Hm1 : settings (store (set_clock later w1)) =
                Some (filled DEFAULT_SETTINGS (clock w) m)) by (simpl; now rewrite S).
  destruct (initialize_entries_run _ default_settings_writable _ _ Hm1) as (w2 & E2 & _ & S2).
  rewrite E2. cbn [fst snd]. rewrite S2. unfold set_clock. cbn [clock store].
  rewrite filled_twice, S. destruct (store w); reflexivity.
Qed.

Lemma initializeDefaultSettings_fills_witness :
  exists m',
    store (snd (initializeDefaultSettings migrated_world)) =
      set_settings (Some m') (store migrated_world) /\
    m' !! "currency" = Some {| s_value := "USD"; s_updated_at := clock migrated_world |}.
Proof.
  assert (H1 : settings (store migrated_world) =
               Some (default ∅ (settings (store migrated_world))))
    by (vm_compute; reflexivity).
  destruct (initializeDefaultSettings_fills migrated_world _ "2026-02-01T00:00:00.000Z" H1)
    as (m' & _ & S & _ & F & _).
  exists m'. split; [exact S|].
  apply (F "currency" (JStr "USD")).
  - unfold DEFAULT_SETTINGS. apply list_elem_of_here.
  - vm_compute. reflexivity.
Defined.

Lemma collect_absent (result : list (string * string)) (acc : gmap string string)
    (key : string) :
  key ∉ result.*1 ->
  fold_left
    (fun a row => if String.eqb row.1 "__proto__" then a else <[ row.1 := row.2 ]> a)
    result acc !! key = acc !! key.
Proof.
  revert acc. induction result as [|[k v] result IH]; intros acc Hn; [reflexivity|].
  simpl in *. apply not_elem_of_cons in Hn. destruct Hn as [Hne Hn].
  rewrite IH by exact Hn. destruct (String.eqb k "__proto__"); [reflexivity|].
  now rewrite lookup_insert_ne.
Qed.

Lemma collect_present (result : list (string * string)) (acc : gmap string string)
    (key value : string) :
  NoDup result.*1 -> (key, value) ∈ result -> key <> "__proto__" ->
  fold_left
    (fun a row => if String.eqb row.1 "__proto__" then a else <[ row.1 := row.2 ]> a)
    result acc !! key = Some value.
Proof.
  revert acc. induction result as [|[k v] result IH]; intros acc Hnd Hin Hkey.
  - now apply elem_of_nil in Hin.
  - simpl in *. apply NoDup_cons in Hnd. destruct Hnd as [Hk Hnd].
    apply elem_of_cons in Hin. destruct Hin as [[= <- <-]|Hin].
    + rewrite collect_absent by exact Hk.
      apply String.eqb_neq in Hkey. rewrite Hkey. apply lookup_insert_eq.
    + now apply IH.
Qed.

Lemma collect_never (result : list (string * string)) (acc : gmap string string) :
  acc !! "__proto__" = None ->
  fold_left
    (fun a row => if String.eqb row.1 "__proto__" then a else <[ row.1 := row.2 ]> a)
    result acc !! "__proto__" = None.
Proof.
  revert acc. induction result as [|[k v] result IH]; intros acc Hacc; [exact Hacc|].
  simpl. apply IH. destruct (String.eqb k "__proto__") eqn:E; [exact Hacc|].
  apply String.eqb_neq in E. now rewrite lookup_insert_ne.
Qed.

(** The object built from the rows of a map of settings. *)
Lemma collect_settings_rows (m : gmap string setting) (key : string) :
  collect_settings ((fun kv => (kv.1, s_value kv.2)) <$> map_to_list m) !! key =
  if String.eqb key "__proto__" then None else s_value <$> m !! key.
Proof.
  unfold collect_settings.
  assert (Hfst : ((fun kv : string * setting => (kv.1, s_value kv.2)) <$> map_to_list m).*1 =
                 (map_to_list m).*1).
  { rewrite <- list_fmap_compose. apply list_fmap_ext. now intros _ [k s] _. }
  destruct (String.eqb key "__proto__") eqn:Ek.
  { apply String.eqb_eq in Ek. subst key. apply collect_never, lookup_empty. }
  apply String.eqb_neq in Ek.
  destruct (m !! key) as [s|] eqn:E; simpl.
  - apply collect_present; [| |exact Ek].
    + rewrite Hfst. apply NoDup_fst_map_to_list.
    + apply list_elem_of_fmap. exists (key, s). split; [reflexivity|].
      now apply elem_of_map_to_list.
  - rewrite collect_absent; [apply lookup_empty|].
    rewrite Hfst. intros Hin. apply list_elem_of_fmap in Hin.
    destruct Hin as ([k s] & -> & Hin). apply elem_of_map_to_list in Hin.
    simpl in E. congruence.
Qed.

(** X6 — All settings.  On a store with a settings table [getAllSettings]
    returns an object whose own properties are the stored keys with their
    values, the key [__proto__] apart: the object has an own property [key]
    exactly when [getSetting] finds a value for [key], and then with that
    value, except that [__proto__] is never an own property of the object,
    also when a setting is stored under it.  The database is not changed. *)
Theorem getAllSettings_agrees (w : world) (m : gmap string setting) (key : string) :
  settings (store w) = Some m ->
  exists (all : gmap string string) (stored : option string),
    fst (getAllSettings w) = Ok all /\
    fst (getSetting key w) = Ok stored /\
    stored = s_value <$> m !! key /\
    all !! key = (if String.eqb key "__proto__" then None else stored) /\
    all !! "__proto__" = None /\
    store (snd (getAllSettings w)) = store w.
Proof.
  intros Hm.
  exists (collect_settings ((fun kv => (kv.1, s_value kv.2)) <$> map_to_list m)),
    (s_value <$> m !! key).
  unfold getAllSettings.
  erewrite bind_ok
    by (apply executeSql_ok; unfold select_settings; rewrite Hm; reflexivity).
  cbn [fst snd ret]. split; [reflexivity|].
  split; [now rewrite (getSetting_run w m key Hm)|]. split; [reflexivity|].
  split; [apply collect_settings_rows|].
  split; [now rewrite collect_settings_rows|reflexivity].
Qed.

Lemma getAllSettings_agrees_witness :
  exists all : gmap string string,
    fst (getAllSettings migrated_world) = Ok all /\ all !! "db_version" = Some "1".
Proof.
  assert (H1 : settings (store migrated_world) =
               Some (default ∅ (settings (store migrated_world))))
    by (vm_compute; reflexivity).
  destruct (getAllSettings_agrees migrated_world _ "db_version" H1)
    as (all & stored & E & _ & -> & H & _).
  exists all. split; [exact E|]. rewrite H. vm_compute. reflexivity.
Defined.

(** A setting stored under [__proto__] is read by [getSetting] and is
    missing from the object of [getAllSettings]. *)
Example proto_setting :
  let w := snd (setSetting "__proto__" (JStr "x") migrated_world) in
  fst (getSetting "__proto__" w) = Ok (Some "x") /\
  match fst (getAllSettings w) with
  | Ok all => all !! "__proto__" = None /\ all !! "db_version" = Some "1"
  | Throw _ => False
  end.
Proof.
  split; [vm_compute; reflexivity|]. vm_compute. split; reflexivity.
Qed.



Lemma set_entries_run (entries : list (string * jsval)) :
  Forall (fun kv => writable_key kv.1 /\ writable_value kv.2) entries ->
  forall (w : world) (m : gmap string setting),
    settings (store w) = Some m ->
    exists w',
      set_entries entries w = (Ok tt, w') /\
      clock w' = clock w /\
      store w' = set_settings (Some (written entries (clock w) m)) (store w).
Proof.
  induction 1 as [|[key value] entries [Hk Hv] _ IH]; intros w m Hm.
  - exists w. split; [reflexivity|]. split; [reflexivity|]. simpl.
    destruct (store w) as [c t b s i]. simpl in *. now rewrite Hm.
  - cbn [set_entries]. simpl in Hk, Hv.
    rewrite (bind_ok _ _ _ _ _ (setSetting_run w m key value Hm Hk Hv)).
    destruct (IH (ran w (set_settings
                           (Some (<[ key := {| s_value := show value;
                                               s_updated_at := clock w |} ]> m))
                           (store w)))
                (<[ key := {| s_value := show value; s_updated_at := clock w |} ]> m)
                eq_refl)
      as (w' & E & C & S).
    exists w'. split; [exact E|]. split; [exact C|]. rewrite S. simpl.
    destruct (store w); reflexivity.
Qed.

Lemma set_entries_app (good rest : list (string * jsval)) (w w' : world) :
  set_entries good w = (Ok tt, w') ->
  set_entries (good ++ rest)%list w = set_entries rest w'.
Proof.
  revert w. induction good as [|[k v] good IH]; intros w E.
  - simpl in *. unfold ret in E. congruence.
  - cbn [set_entries app] in *. unfold bind in *.
    destruct (setSetting k v w) as [[r|e] w1]; [|discriminate]. now apply IH.
Qed.

Lemma written_last (entries : list (string * jsval)) (now : string)
    (m : gmap string setting) (key : string) (value : jsval) :
  NoDup entries.*1 -> (key, value) ∈ entries ->
  written entries now m !! key = Some {| s_value := show value; s_updated_at := now |}.
Proof.
  unfold written. revert m. induction entries as [|[k v] entries IH]; intros m Hnd Hin.
  - now apply elem_of_nil in Hin.
  - simpl in *. apply NoDup_cons in Hnd. destruct Hnd as [Hk Hnd].
    apply elem_of_cons in Hin. destruct Hin as [[= <- <-]|Hin]; [|now apply IH].
    clear IH Hnd. revert m. induction entries as [|[k' v'] entries IH]; intros m.
    + apply lookup_insert_eq.
    + simpl in *. apply not_elem_of_cons in Hk. destruct Hk as [Hne Hk].
      rewrite insert_insert_ne by congruence. now apply IH.
Qed.

(** X8 — [setMultipleSettings] is not atomic.  Its entries are written one
    statement after the other, in order: when all of them are acceptable
    (here with keys of ASCII characters, and no numbers outside the safe
    integers as values) the call succeeds and every key then reads as the
    string of its value; when one entry is not acceptable (blank key, or
    [null] or [undefined] value), the call throws at that entry, the entries
    before it stay written and the entries after it are not written.  An
    argument that is not an object throws before anything is sent. *)
Theorem setMultipleSettings_partial (w : world) (m : gmap string setting)
    (good rest : list (string * jsval)) (bad : string * jsval) :
  settings (store w) = Some m ->
  Forall (fun kv => writable_key kv.1 /\ writable_value kv.2) good ->
  Forall (fun kv => plain kv.1 = true /\ prints_plainly kv.2) good ->
  ~ (writable_key bad.1 /\ writable_value bad.2) ->
  setMultipleSettings None w =
    (Throw (Error "Settings must be provided as an object"), w) /\
  (exists w',
     setMultipleSettings (Some good) w = (Ok tt, w') /\
     store w' = set_settings (Some (written good (clock w) m)) (store w) /\
     (NoDup good.*1 ->
      forall key value, (key, value) ∈ good ->
        fst (getSetting key w') = Ok (Some (show value)))) /\
  (exists e w',
     setMultipleSettings (Some (good ++ bad :: rest)%list) w = (Throw e, w') /\
     store w' = set_settings (Some (written good (clock w) m)) (store w)).
Proof.
  intros Hm Hgood _ Hbad. split; [reflexivity|].
  destruct (set_entries_run good Hgood w m Hm) as (w1 & E & C & S).
  split.
  - exists w1. split; [exact E|]. split; [exact S|].
    intros Hnd key value Hin.
    erewrite getSetting_run by (rewrite S; reflexivity). simpl.
    now rewrite (written_last good (clock w) m key value Hnd Hin).
  - unfold setMultipleSettings. rewrite (set_entries_app good (bad :: rest) w w1 E).
    destruct bad as [k v]. cbn [set_entries]. simpl in Hbad.
    destruct (setSetting_refused w1 k v Hbad) as [e He].
    rewrite (bind_throw _ _ _ _ _ He).
    exists e, w1. split; [reflexivity|exact S].
Qed.

Lemma setMultipleSettings_partial_witness :
  exists e w',
    setMultipleSettings
      (Some ([("theme", JStr "dark")] ++
             ("currency", JNull) :: [("language", JStr "en")])%list)
      migrated_world = (Throw e, w') /\
    fst (getSetting "theme" w') = Ok (Some "dark") /\
    fst (getSetting "language" w') = Ok None.
Proof.
  assert (H1 : settings (store migrated_world) =
               Some (default ∅ (settings (store migrated_world))))
    by (vm_compute; reflexivity).
  assert (H2 : Forall (fun kv : string * jsval => writable_key kv.1 /\ writable_value kv.2)
                 [("theme", JStr "dark")]).
  { repeat constructor; simpl; try discriminate. }
  assert (H3 : ~ (writable_key ("currency", JNull).1 /\
                  writable_value ("currency", JNull).2)).
  { intros [_ [H _]]. now apply H. }
  assert (H4 : Forall (fun kv : string * jsval => plain kv.1 = true /\ prints_plainly kv.2)
                 [("theme", JStr "dark")]).
  { repeat constructor. }
  destruct (proj2 (proj2 (setMultipleSettings_partial migrated_world _
                            [("theme", JStr "dark")] [("language", JStr "en")]
                            ("currency", JNull) H1 H2 H4 H3))) as (e & w' & E & S).
  exists e, w'. split; [exact E|].
  split; (erewrite getSetting_run by (rewrite S; reflexivity)); vm_compute; reflexivity.
Defined.

(** ** Connection and reset *)

(** X9 — Lazy reopening.  [executeSql] opens the connection itself: a
    statement sent after [closeDatabase] (or [shutdownDatabase]) runs exactly
    as if the connection had never been closed, and leaves the connection
    open.  No call fails because the handle is closed. *)
Theorem executeSql_reopens {A : Type} (statement : database -> outcome A * database)
    (w : world) :
  handle (snd (shutdownDatabase w)) = false /\
  store (snd (shutdownDatabase w)) = store w /\
  executeSql statement (snd (shutdownDatabase w)) = executeSql statement w /\
  handle (snd (executeSql statement w)) = true.
Proof.
  unfold shutdownDatabase, closeDatabase. rewrite !executeSql_run.
  destruct w as [h c n d]. destruct h; simpl; auto.
Qed.

Lemma deleteDatabase_run (removal : outcome unit) (w : world) :
  deleteDatabase removal w =
  match removal with
  | Ok _ => (Ok tt, {| handle := false; clock := clock w; executed := executed w;
                       store := empty_database |})
  | Throw e => (Throw e, {| handle := false; clock := clock w; executed := executed w;
                            store := store w |})
  end.
Proof.
  unfold deleteDatabase, closeDatabase, bind, throw. destruct w as [h c n d].
  destruct h, removal; reflexivity.
Qed.

(** X10 — Reset by deleting the database.  [deleteDatabase] closes the
    connection first.  When the library then removes the file, the call
    succeeds and nothing is stored, so that [isFirstLaunch] is true again and
    [runMigrations] rebuilds the empty schema: four empty tables, the four
    indexes and the version row, whatever was stored before.  When the
    library refuses, its error is thrown again: the connection is closed all
    the same and everything stored is still there, so the next statement
    reopens the connection on the old data. *)
Theorem deleteDatabase_resets (removal : outcome unit) (w : world) :
  let w' := snd (deleteDatabase removal w) in
  handle w' = false /\
  match removal with
  | Ok _ =>
      fst (deleteDatabase removal w) = Ok tt /\
      store w' = empty_database /\
      fst (isFirstLaunch w') = Ok true /\
      store (snd (runMigrations w')) =
        {| categories := Some empty_table; transactions := Some empty_table;
           budgets := Some empty_table;
           settings := Some {[ "db_version" :=
                                 {| s_value := "1"; s_updated_at := clock w |} ]};
           indexes := all_indexes |}
  | Throw e =>
      fst (deleteDatabase removal w) = Throw e /\
      store w' = store w /\
      fst (isFirstLaunch w') = fst (isFirstLaunch w) /\
      store (snd (runMigrations w')) = store (snd (runMigrations w))
  end.
Proof.
  intros w'. subst w'. rewrite deleteDatabase_run. destruct removal as [[]|e]; cbn [fst snd].
  - split; [reflexivity|]. split; [reflexivity|]. split; [reflexivity|]. split.
    + now rewrite isFirstLaunch_run.
    + destruct (runMigrations_run
                  {| handle := false; clock := clock w; executed := executed w;
                     store := empty_database |}) as (w1 & E1 & S1 & _).
      rewrite E1. simpl. rewrite S1. reflexivity.
  - split; [reflexivity|]. split; [reflexivity|]. split; [reflexivity|]. split.
    + now rewrite !isFirstLaunch_run.
    + destruct (runMigrations_run
                  {| handle := false; clock := clock w; executed := executed w;
                     store := store w |}) as (w1 & E1 & S1 & _).
      destruct (runMigrations_run w) as (w2 & E2 & S2 & _).
      rewrite E1, E2. simpl. rewrite S1, S2. reflexivity.
Qed.

Lemma dropAllTables_run (w : world) :
  exists w',
    dropAllTables w = (Ok tt, w') /\ clock w' = clock w /\
    store w' =
      {| categories := None; transactions := None; budgets := None; settings := None;
         indexes := indexes (store w) ∖ all_indexes |}.
Proof.
  unfold dropAllTables.
  rewrite (bind_ok _ _ _ _ _ (executeSql_ok drop_table_transactions w tt _ eq_refl)).
  rewrite (bind_ok _ _ _ _ _ (executeSql_ok drop_table_budgets _ tt _ eq_refl)).
  rewrite (bind_ok _ _ _ _ _ (executeSql_ok drop_table_categories _ tt _ eq_refl)).
  rewrite (executeSql_ok drop_table_settings _ tt _ eq_refl).
  eexists. split; [reflexivity|]. split; [reflexivity|]. simpl.
  unfold set_settings, set_categories, set_indexes, set_budgets, set_transactions. simpl.
  f_equal. unfold all_indexes. apply set_eq. intros x.
  rewrite !elem_of_difference, !elem_of_union, !elem_of_singleton. tauto.
Qed.

(** X11 — Dropping all tables.  [dropAllTables] always succeeds, also when
    some or all tables are already gone; afterwards no table and none of the
    four indexes exists, [isFirstLaunch] is true, and the next
    [runMigrations] creates the four tables empty, with their key counters
    at zero, all four indexes, and stores version 1. *)
Theorem dropAllTables_resets (w : world) :
  let w' := snd (dropAllTables w) in
  let d := store (snd (runMigrations w')) in
  fst (dropAllTables w) = Ok tt /\
  categories (store w') = None /\ transactions (store w') = None /\
  budgets (store w') = None /\ settings (store w') = None /\
  (forall i, i ∈ all_indexes -> i ∉ indexes (store w')) /\
  fst (isFirstLaunch w') = Ok true /\
  categories d = Some empty_table /\ transactions d = Some empty_table /\
  budgets d = Some empty_table /\
  settings d = Some {[ "db_version" := {| s_value := "1"; s_updated_at := clock w |} ]} /\
  (forall i, i ∈ all_indexes -> i ∈ indexes d).
Proof.
  intros w' d. subst d w'.
  destruct (dropAllTables_run w) as (w1 & E & C & S). rewrite E. cbn [fst snd].
  destruct (runMigrations_run w1) as (w2 & E2 & S2 & _). rewrite E2. cbn [fst snd].
  rewrite isFirstLaunch_run, S2, S, C. cbn [fst categories transactions budgets settings].
  repeat split.
  - intros i Hi. simpl. rewrite elem_of_difference. tauto.
  - intros i Hi. unfold migrated. simpl. rewrite elem_of_union. now left.
Qed.

(** ** Creating and updating categories *)

Lemma validated_name (d : CategoryService.data) :
  CategoryService.validateCategory d = Ok tt ->
  exists s, CategoryService.name d = JStr s.
Proof.
  unfold CategoryService.validateCategory.
  destruct (CategoryService.name d) as [| |b|q| |s]; simpl;
    try discriminate; try (destruct b; discriminate); eauto.
  destruct (negb (Qeq_bool q 0)); discriminate.
Qed.

Lemma createCategory_run (w : world) (cats : table category) (d : CategoryService.data)
    (s : string) :
  categories (store w) = Some cats ->
  CategoryService.validateCategory d = Ok tt ->
  CategoryService.name d = JStr s ->
  CategoryService.createCategory d w =
  if name_taken (trim s) cats
  then (Throw (Error (already_exists_message (JStr s))), ran w (store w))
  else (Ok (new_category d s (clock w) (seq cats + 1)),
        ran w (set_categories
                 (Some {| rows := rows cats ++ [new_category d s (clock w) (seq cats + 1)];
                          seq := (seq cats + 1)%Z |}) (store w))).
Proof.
  intros Hc Hv Hs. unfold CategoryService.createCategory, try_catch.
  rewrite Hv. unfold lift at 1. unfold bind at 1.
  unfold toISOString at 1. unfold bind at 1. cbv beta iota.
  rewrite Hs. unfold method_trim at 1. unfold ret at 1. unfold bind at 1. cbv beta iota.
  unfold name_taken.
  destruct (existsb (fun r => sql_eq (c_name r) (JStr (trim s))) (rows cats)) eqn:E.
  - erewrite bind_throw
      by (apply executeSql_throw; unfold CategoryService.insert_category;
          rewrite Hc, E; reflexivity).
    reflexivity.
  - erewrite bind_ok
      by (apply executeSql_ok; unfold CategoryService.insert_category;
          rewrite Hc, E; reflexivity).
    reflexivity.
Qed.

Lemma filter_all_false {A : Type} (f : A -> bool) (l : list A) :
  (forall r, r ∈ l -> f r = false) -> filter (fun r => f r = true) l = [].
Proof.
  induction l as [|a l IH]; intros H; [reflexivity|].
  rewrite filter_cons. destruct (decide (f a = true)) as [E|E].
  - rewrite H in E by apply list_elem_of_here. discriminate.
  - apply IH. intros r Hr. apply H. now apply list_elem_of_further.
Qed.

Lemma id_is_inject (k k' : Z) : id_is k (JNum (inject_Z k')) = true <-> k = k'.
Proof.
  unfold id_is, sql_eq. rewrite Qeq_bool_iff. split.
  - apply inject_Z_injective.
  - now intros ->.
Qed.

Lemma name_taken_false (n : string) (cats : table category) :
  name_taken n cats = false <->
  forall r, r ∈ rows cats -> sql_eq (c_name r) (JStr n) = false.
Proof.
  unfold name_taken. split.
  - intros H r Hin. destruct (sql_eq (c_name r) (JStr n)) eqn:E; [|reflexivity].
    assert (Hex : existsb (fun r => sql_eq (c_name r) (JStr n)) (rows cats) = true).
    { apply existsb_exists. exists r. split; [now apply list_elem_of_In|exact E]. }
    congruence.
  - intros H. destruct (existsb _ (rows cats)) eqn:E; [|reflexivity].
    apply existsb_exists in E. destruct E as (r & Hin & E).
    apply list_elem_of_In in Hin. rewrite (H r Hin) in E. discriminate.
Qed.

(** X12 — Creating a category.  For a valid payload whose name is made of
    ASCII characters, whose trimmed name no row carries yet and whose icon is
    a text or missing, on a table that respects its primary key,
    [createCategory] succeeds: it returns the row it stored (trimmed name,
    [null] for a missing icon or colour, flag 0 or 1, the current time) under
    a key above every key in use; the row is appended and nothing else
    changes; and [getCategoryById] on the returned key gives that row back. *)
Theorem createCategory_stores (w : world) (cats : table category)
    (d : CategoryService.data) (s : string) :
  categories (store w) = Some cats ->
  CategoryService.validateCategory d = Ok tt ->
  CategoryService.name d = JStr s ->
  plain s = true ->
  name_taken (trim s) cats = false ->
  keeps_text (js_or (CategoryService.icon d) JNull) ->
  keys_bounded c_id cats ->
  let row := new_category d s (clock w) (seq cats + 1) in
  let w' := snd (CategoryService.createCategory d w) in
  fst (CategoryService.createCategory d w) = Ok row /\
  categories (store w') = Some {| rows := rows cats ++ [row]; seq := (seq cats + 1)%Z |} /\
  transactions (store w') = transactions (store w) /\
  budgets (store w') = budgets (store w) /\
  settings (store w') = settings (store w) /\
  fst (CategoryService.getCategoryById (JNum (inject_Z (c_id row))) w') = Ok (Some row) /\
  keys_bounded c_id {| rows := rows cats ++ [row]; seq := (seq cats + 1)%Z |}.
Proof.
  intros Hc Hv Hs _ Hfree _ [Hnd Hle] row w'. subst w'.
  rewrite (createCategory_run w cats d s Hc Hv Hs), Hfree. cbn [fst snd].
  assert (Hfresh : forall r, r ∈ rows cats -> c_id r <> (seq cats + 1)%Z).
  { intros r Hin. rewrite Forall_forall in Hle. specialize (Hle r Hin). lia. }
  repeat split; try reflexivity.
  - erewrite getCategoryById_run by reflexivity. simpl rows.
    rewrite filter_app.
    replace (filter (fun r => id_is (c_id r) (JNum (inject_Z (c_id row))) = true) (rows cats))
      with (@nil category).
    + rewrite filter_cons. destruct (decide _) as [_|Hn]; [reflexivity|].
      exfalso. apply Hn. now apply id_is_inject.
    + symmetry. apply filter_all_false. intros r Hin.
      destruct (id_is (c_id r) (JNum (inject_Z (c_id row)))) eqn:E; [|reflexivity].
      apply id_is_inject in E. now destruct (Hfresh r Hin).
  - simpl. rewrite fmap_app. apply NoDup_app. split; [exact Hnd|]. split.
    + intros k Hk Hk'. simpl in Hk'. apply list_elem_of_singleton in Hk'. subst k.
      apply list_elem_of_fmap in Hk. destruct Hk as (r & Hr & Hin).
      now apply (Hfresh r Hin).
    + simpl. apply NoDup_singleton.
  - simpl. apply Forall_app. split.
    + eapply Forall_impl; [exact Hle|]. simpl. intros; lia.
    + repeat constructor. simpl. lia.
Qed.

Lemma createCategory_stores_witness :
  fst (CategoryService.createCategory food migrated_world) = Ok food_row /\
  fst (CategoryService.getCategoryById (JNum 1)
         (snd (CategoryService.createCategory food migrated_world))) = Ok (Some food_row).
Proof.
  assert (H1 : categories (store migrated_world) = Some empty_table)
    by (vm_compute; reflexivity).
  assert (H2 : CategoryService.validateCategory food = Ok tt) by reflexivity.
  assert (H3 : CategoryService.name food = JStr "Food") by reflexivity.
  assert (H4 : name_taken (trim "Food") empty_table = false) by reflexivity.
  assert (H5 : keys_bounded c_id (@empty_table category))
    by (split; [apply NoDup_nil_2|apply Forall_nil_2]).
  destruct (createCategory_stores migrated_world empty_table food "Food"
              H1 H2 H3 eq_refl H4 I H5)
    as (E & _ & _ & _ & _ & G & _).
  split; [exact E|exact G].
Defined.

Lemma sql_eq_text (v : jsval) (n : string) : sql_eq v (JStr n) = true <-> v = JStr n.
Proof.
  destruct v; simpl; try (split; discriminate).
  rewrite String.eqb_eq. split; congruence.
Qed.

(** X13 — Category names are unique.  When a row already carries the trimmed
    name of a valid payload (the very same string: the comparison is exact),
    [createCategory] throws the translated error, which quotes the name as it
    was given (not trimmed), and the database is unchanged. *)
Theorem createCategory_duplicate (w : world) (cats : table category)
    (d : CategoryService.data) (s : string) (r : category) :
  categories (store w) = Some cats ->
  CategoryService.validateCategory d = Ok tt ->
  CategoryService.name d = JStr s ->
  r ∈ rows cats ->
  c_name r = JStr (trim s) ->
  fst (CategoryService.createCategory d w) =
    Throw (Error ("Category with name " +:+ dq +:+ s +:+ dq +:+ " already exists")) /\
  store (snd (CategoryService.createCategory d w)) = store w.
Proof.
  intros Hc Hv Hs Hin Hname.
  assert (Htaken : name_taken (trim s) cats = true).
  { unfold name_taken. apply existsb_exists. exists r.
    split; [now apply list_elem_of_In|now apply sql_eq_text]. }
  rewrite (createCategory_run w cats d s Hc Hv Hs), Htaken. split; reflexivity.
Qed.

Lemma createCategory_duplicate_witness :
  fst (CategoryService.createCategory
         {| CategoryService.name := JStr "  Food "; CategoryService.icon := JUndefined;
            CategoryService.color := JUndefined; CategoryService.is_default := JUndefined |}
         world_with_category) =
    Throw (Error ("Category with name " +:+ dq +:+ "  Food " +:+ dq +:+ " already exists")).
Proof.
  refine (proj1 (createCategory_duplicate world_with_category
                   (the (categories (store world_with_category))) _ "  Food " food_row
                   _ _ _ _ _)).
  - vm_compute. reflexivity.
  - reflexivity.
  - reflexivity.
  - vm_compute. apply list_elem_of_here.
  - reflexivity.
Defined.

(** X14 — Invalid category payloads.  A payload the validator rejects (name
    missing, not a string or blank; colour that is not [#RRGGBB]), its name,
    when a text, being made of ASCII characters, makes
    [createCategory] and [updateCategory] throw the validator's error without
    sending a statement: the world is unchanged, and for the update this
    happens before the existence of the id is looked at. *)
Theorem category_rejected (w : world) (id : jsval) (d : CategoryService.data) (e : error) :
  plain_text (CategoryService.name d) ->
  CategoryService.validateCategory d = Throw e ->
  kind_of e = ValidationError /\
  CategoryService.createCategory d w = (Throw e, w) /\
  CategoryService.updateCategory id d w = (Throw e, w).
Proof.
  intros _ Hv.
  assert (He : e = Error "Category name is required and must be a non-empty string" \/
               e = Error "Color must be a valid hex color code (e.g., #FF6B6B)").
  { revert Hv. unfold CategoryService.validateCategory.
    destruct (_ || _ || is_blank _); [intros [= <-]; now left|].
    destruct (truthy _ && _); [intros [= <-]; now right|discriminate]. }
  unfold CategoryService.createCategory, CategoryService.updateCategory, try_catch.
  rewrite Hv. unfold lift, bind.
  destruct He as [-> | ->]; repeat split; reflexivity.
Qed.

Lemma category_rejected_witness :
  CategoryService.createCategory
    {| CategoryService.name := JStr "Pets"; CategoryService.icon := JUndefined;
       CategoryService.color := JStr "red"; CategoryService.is_default := JUndefined |}
    migrated_world =
  (Throw (Error "Color must be a valid hex color code (e.g., #FF6B6B)"), migrated_world).
Proof.
  refine (proj1 (proj2 (category_rejected migrated_world (JNum 1) _ _ _ _))).
  - reflexivity.
  - reflexivity.
Defined.

Lemma updateCategory_run (w : world) (cats : table category) (id : jsval)
    (d : CategoryService.data) (s : string) (c0 : category) :
  categories (store w) = Some cats ->
  CategoryService.validateCategory d = Ok tt ->
  CategoryService.name d = JStr s ->
  filter (fun r => id_is (c_id r) id = true) (rows cats) = [c0] ->
  CategoryService.updateCategory id d w =
  if existsb (fun r => negb (id_is (c_id r) id) && sql_eq (c_name r) (JStr (trim s)))
       (rows cats)
  then (Throw (Error (already_exists_message (JStr s))), ran (ran w (store w)) (store w))
  else
    let d' := set_categories
                (Some {| rows := map (fun r => if id_is (c_id r) id
                                               then category_edited d s r else r)
                                   (rows cats);
                         seq := seq cats |}) (store w) in
    (Ok (Some (category_edited d s c0)), ran (ran (ran w (store w)) d') d').
Proof.
  intros Hc Hv Hs Hf.
  assert (Hhit : existsb (fun r => id_is (c_id r) id) (rows cats) = true).
  { apply existsb_exists. exists c0.
    assert (Hin : c0 ∈ filter (fun r => id_is (c_id r) id = true) (rows cats))
      by (rewrite Hf; apply list_elem_of_here).
    apply list_elem_of_filter in Hin. destruct Hin as [E Hin].
    split; [now apply list_elem_of_In|exact E]. }
  unfold CategoryService.updateCategory, try_catch.
  rewrite Hv. unfold lift at 1. unfold bind at 1.
  rewrite (bind_ok _ _ _ _ _ (getCategoryById_run w id cats Hc)). rewrite Hf.
  change (head [c0]) with (Some c0). cbv beta iota.
  rewrite Hs. unfold method_trim at 1. unfold ret at 1. unfold bind at 1. cbv beta iota.
  destruct (existsb (fun r => negb (id_is (c_id r) id) && sql_eq (c_name r) (JStr (trim s)))
              (rows cats)) eqn:E.
  - erewrite bind_throw
      by (apply executeSql_throw; unfold CategoryService.update_category; simpl;
          rewrite Hc, Hhit, E; reflexivity).
    reflexivity.
  - erewrite bind_ok
      by (apply executeSql_ok; unfold CategoryService.update_category; simpl;
          rewrite Hc, Hhit, E, Hf; reflexivity).
    erewrite getCategoryById_run by reflexivity. simpl rows.
    rewrite (filter_map_same (fun r => id_is (c_id r) id)).
    2:{ intros r. destruct (id_is (c_id r) id) eqn:E'; simpl; now rewrite ?E'. }
    rewrite Hf. simpl.
    assert (Hid : id_is (c_id c0) id = true).
    { assert (Hin : c0 ∈ filter (fun r => id_is (c_id r) id = true) (rows cats))
        by (rewrite Hf; apply list_elem_of_here).
      apply list_elem_of_filter in Hin. tauto. }
    rewrite Hid. reflexivity.
Qed.

(** X15 — Updating a category.  For a valid payload whose name is made of
    ASCII characters and whose icon is a text or
    missing, an id that exactly one row carries, and a trimmed name that no
    other row carries (the row's own current name is allowed),
    [updateCategory] succeeds and returns the row
    with name, icon and colour replaced and its key, default flag and
    creation time kept; the rows with another key, the key counter and the
    other tables are untouched, so transactions and budgets keep referring
    to the category. *)
Theorem updateCategory_edits (w : world) (cats : table category) (id : jsval)
    (d : CategoryService.data) (s : string) (c0 : category) :
  categories (store w) = Some cats ->
  CategoryService.validateCategory d = Ok tt ->
  CategoryService.name d = JStr s ->
  plain s = true ->
  filter (fun r => id_is (c_id r) id = true) (rows cats) = [c0] ->
  (forall r, r ∈ rows cats -> id_is (c_id r) id = false -> c_name r <> JStr (trim s)) ->
  keeps_text (js_or (CategoryService.icon d) JNull) ->
  let w' := snd (CategoryService.updateCategory id d w) in
  exists edited cats',
    fst (CategoryService.updateCategory id d w) = Ok (Some edited) /\
    c_name edited = JStr (trim s) /\
    c_icon edited = js_or (CategoryService.icon d) JNull /\
    c_color edited = js_or (CategoryService.color d) JNull /\
    c_id edited = c_id c0 /\ c_is_default edited = c_is_default c0 /\
    c_created_at edited = c_created_at c0 /\
    categories (store w') = Some cats' /\
    seq cats' = seq cats /\
    c_id <$> rows cats' = c_id <$> rows cats /\
    edited ∈ rows cats' /\
    (forall r, id_is (c_id r) id = false -> r ∈ rows cats' <-> r ∈ rows cats) /\
    transactions (store w') = transactions (store w) /\
    budgets (store w') = budgets (store w) /\
    settings (store w') = settings (store w).
Proof.
  intros Hc Hv Hs _ Hf Hfree _ w'. subst w'.
  rewrite (updateCategory_run w cats id d s c0 Hc Hv Hs Hf).
  assert (E : existsb (fun r => negb (id_is (c_id r) id) && sql_eq (c_name r) (JStr (trim s)))
                (rows cats) = false).
  { destruct (existsb _ (rows cats)) eqn:E; [|reflexivity].
    apply existsb_exists in E. destruct E as (r & Hin & E).
    apply andb_true_iff in E. destruct E as [E1 E2].
    apply negb_true_iff in E1. apply sql_eq_text in E2. apply list_elem_of_In in Hin.
    now destruct (Hfree r Hin E1). }
  rewrite E. cbn [fst snd].
  assert (Hin0 : c0 ∈ filter (fun r => id_is (c_id r) id = true) (rows cats))
    by (rewrite Hf; apply list_elem_of_here).
  apply list_elem_of_filter in Hin0. destruct Hin0 as [Hid0 Hin0].
  set (upd := fun r => if id_is (c_id r) id then category_edited d s r else r).
  exists (category_edited d s c0), {| rows := map upd (rows cats); seq := seq cats |}.
  repeat split; try reflexivity.
  - simpl. rewrite <- list_fmap_compose. apply list_fmap_ext. intros _ r _.
    unfold upd. simpl. now destruct (id_is (c_id r) id).
  - simpl. apply list_elem_of_fmap. exists c0. split; [|exact Hin0].
    unfold upd. now rewrite Hid0.
  - simpl. intros Hin. apply list_elem_of_fmap in Hin. destruct Hin as (r' & -> & Hin).
    unfold upd in *. destruct (id_is (c_id r') id) eqn:E'; [|exact Hin].
    simpl in H. congruence.
  - simpl. intros Hin. apply list_elem_of_fmap. exists r. split; [|exact Hin].
    unfold upd. now rewrite H.
Qed.

Lemma updateCategory_edits_witness :
  exists edited cats',
    fst (CategoryService.updateCategory (JNum 1)
           groceries
           world_with_transactions) = Ok (Some edited) /\
    c_name edited = JStr "Groceries" /\ c_icon edited = JNull /\
    c_is_default edited = JNum 0 /\
    categories (store (snd (CategoryService.updateCategory (JNum 1)
           groceries
           world_with_transactions))) = Some cats'.
Proof.
  assert (H1 : categories (store world_with_transactions) =
               Some (the (categories (store world_with_transactions))))
    by (vm_compute; reflexivity).
  assert (H4 : filter (fun r => id_is (c_id r) (JNum 1) = true)
                 (rows (the (categories (store world_with_transactions)))) = [food_row])
    by (vm_compute; reflexivity).
  assert (H5 : forall r, r ∈ rows (the (categories (store world_with_transactions))) ->
                         id_is (c_id r) (JNum 1) = false -> c_name r <> JStr (trim " Groceries ")).
  { intros r Hin. vm_compute in Hin. apply list_elem_of_singleton in Hin. subst r.
    vm_compute. discriminate. }
  destruct (updateCategory_edits world_with_transactions _ (JNum 1) groceries
              " Groceries " food_row
              H1 eq_refl eq_refl eq_refl H4 H5 I)
    as (edited & cats' & E & N & I & _ & _ & F & _ & C & _).
  exists edited, cats'. repeat split; assumption.
Defined.

Lemma str_includes_no_head (c : ascii) (needle s : string) :
  has_char c s = false -> str_includes (String c needle) s = false.
Proof.
  induction s as [|c' s IH]; simpl; [reflexivity|].
  intros H. apply orb_false_elim in H. destruct H as [H1 H2].
  rewrite H1, (IH H2). reflexivity.
Qed.

Lemma has_char_app (c : ascii) (a b : string) :
  has_char c (a +:+ b) = has_char c a || has_char c b.
Proof. induction a as [|c' a IH]; simpl; [reflexivity|]. now rewrite IH, orb_assoc. Qed.

Lemma pretty_N_go_letter (x : N) :
  forall s, has_char "U" s = false -> has_char "U" (pretty_N_go x s) = false.
Proof.
  induction (N.lt_wf_0 x) as [x _ IH]; intros s Hs.
  assert (x = 0 \/ 0 < x)%N as [->|Hx] by lia.
  - now rewrite pretty_N_go_0.
  - rewrite pretty_N_go_step by exact Hx. apply IH.
    + now apply N.div_lt.
    + simpl. rewrite Hs. unfold pretty_N_char.
      destruct (x `mod` 10)%N as [|p]; [reflexivity|].
      do 4 (try destruct p as [p|p|]); reflexivity.
Qed.

Lemma pretty_Z_letter (k : Z) : has_char "U" (pretty k) = false.
Proof.
  assert (HN : forall n : N, has_char "U" (pretty n) = false).
  { intros n. unfold pretty, pretty_N. destruct (decide (n = 0%N)); [reflexivity|].
    now apply pretty_N_go_letter. }
  destruct k as [|p|p]; [reflexivity|apply HN|].
  change (pretty (Z.neg p)) with ("-" +:+ pretty (N.pos p)).
  rewrite has_char_app, HN. reflexivity.
Qed.

Lemma show_key (k : Z) : show (JNum (inject_Z k)) = pretty k.
Proof. unfold show, show_number. rewrite Qred_inject. reflexivity. Qed.

Lemma key_absent {A : Type} (key : A -> Z) (l : list A) (k : Z) :
  (forall r, r ∈ l -> key r <> k) ->
  filter (fun r => id_is (key r) (JNum (inject_Z k)) = true) l = [].
Proof.
  intros H. apply filter_all_false. intros r Hr.
  destruct (id_is (key r) (JNum (inject_Z k))) eqn:E; [|reflexivity].
  apply id_is_inject in E. now destruct (H r Hr).
Qed.

(** X16 — Updating a category that is not there.  With a valid payload whose
    name is made of ASCII characters and
    a safe integer id that no row carries, [updateCategory] throws the not-found
    error that names the id (the handler that translates uniqueness
    violations lets it through) and leaves the database unchanged. *)
Theorem updateCategory_missing (w : world) (cats : table category) (k : Z)
    (d : CategoryService.data) :
  categories (store w) = Some cats ->
  CategoryService.validateCategory d = Ok tt ->
  plain_text (CategoryService.name d) ->
  safe_integer k ->
  (forall r, r ∈ rows cats -> c_id r <> k) ->
  fst (CategoryService.updateCategory (JNum (inject_Z k)) d w) =
    Throw (Error ("Category with id " +:+ pretty k +:+ " not found")) /\
  kind_of (Error ("Category with id " +:+ pretty k +:+ " not found")) = NotFoundError /\
  store (snd (CategoryService.updateCategory (JNum (inject_Z k)) d w)) = store w.
Proof.
  intros Hc Hv _ _ Hk.
  assert (R : CategoryService.updateCategory (JNum (inject_Z k)) d w =
              (Throw (Error ("Category with id " +:+ pretty k +:+ " not found")),
               ran w (store w))).
  { unfold CategoryService.updateCategory, try_catch.
    rewrite Hv. unfold lift at 1. unfold bind at 1.
    rewrite (bind_ok _ _ _ _ _ (getCategoryById_run w _ cats Hc)).
    rewrite (key_absent c_id _ k Hk).
    change (head (@nil category)) with (@None category). cbv beta iota.
    unfold throw at 1. cbv beta iota. unfold message_of. rewrite show_key.
    rewrite str_includes_no_head; [reflexivity|].
    rewrite !has_char_app, pretty_Z_letter. reflexivity. }
  rewrite R. split; [reflexivity|]. split; [|reflexivity].
  rewrite <- show_key. apply (not_found_kind (JNum (inject_Z k))).
Qed.

Lemma updateCategory_missing_witness :
  fst (CategoryService.updateCategory (JNum 999) food world_with_category) =
    Throw (Error "Category with id 999 not found") /\
  store (snd (CategoryService.updateCategory (JNum 999) food world_with_category)) =
    store world_with_category.
Proof.
  assert (H1 : categories (store world_with_category) =
               Some (the (categories (store world_with_category))))
    by (vm_compute; reflexivity).
  assert (H3 : forall r, r ∈ rows (the (categories (store world_with_category))) ->
                         c_id r <> 999%Z).
  { intros r Hin. vm_compute in Hin. apply list_elem_of_singleton in Hin. subst r.
    simpl. lia. }
  assert (H2 : safe_integer 999) by (vm_compute; discriminate).
  destruct (updateCategory_missing world_with_category _ 999 food H1 eq_refl eq_refl H2 H3)
    as (E & _ & S).
  split; [exact E|exact S].
Defined.

(** X17 — Renaming a category onto another one.  With a valid payload and an
    id that exactly one row carries, when a row with another key already has
    the trimmed name, [updateCategory] throws the already-exists error,
    quoting the name as it was given, and leaves the database unchanged. *)
Theorem updateCategory_duplicate (w : world) (cats : table category) (id : jsval)
    (d : CategoryService.data) (s : string) (c0 other : category) :
  categories (store w) = Some cats ->
  CategoryService.validateCategory d = Ok tt ->
  CategoryService.name d = JStr s ->
  filter (fun r => id_is (c_id r) id = true) (rows cats) = [c0] ->
  other ∈ rows cats -> id_is (c_id other) id = false -> c_name other = JStr (trim s) ->
  fst (CategoryService.updateCategory id d w) =
    Throw (Error ("Category with name " +:+ dq +:+ s +:+ dq +:+ " already exists")) /\
  store (snd (CategoryService.updateCategory id d w)) = store w.
Proof.
  intros Hc Hv Hs Hf Hin Hid Hname.
  rewrite (updateCategory_run w cats id d s c0 Hc Hv Hs Hf).
  assert (E : existsb (fun r => negb (id_is (c_id r) id) &&
                                sql_eq (c_name r) (JStr (trim s))) (rows cats) = true).
  { apply existsb_exists. exists other. split; [now apply list_elem_of_In|].
    rewrite Hid. simpl. now apply sql_eq_text. }
  rewrite E. split; reflexivity.
Qed.

Lemma updateCategory_duplicate_witness :
  fst (CategoryService.updateCategory (JNum 1) groceries world_with_two_categories) =
    Throw (Error ("Category with name " +:+ dq +:+ " Groceries " +:+ dq +:+
                  " already exists")) /\
  store (snd (CategoryService.updateCategory (JNum 1) groceries world_with_two_categories)) =
    store world_with_two_categories.
Proof.
  assert (H1 : categories (store world_with_two_categories) =
               Some (the (categories (store world_with_two_categories))))
    by (vm_compute; reflexivity).
  refine (updateCategory_duplicate world_with_two_categories _ (JNum 1) groceries
            " Groceries " food_row
            {| c_id := 2; c_name := JStr "Groceries"; c_icon := JNull;
               c_color := JStr "#00FF00"; c_is_default := JNum 1;
               c_created_at := JStr "2026-01-10T08:00:00.000Z" |}
            H1 eq_refl eq_refl _ _ eq_refl eq_refl).
  - vm_compute. reflexivity.
  - vm_compute. apply list_elem_of_further, list_elem_of_here.
Defined.

(** ** Seeding the default categories *)

Lemma database_ext (a b : database) :
  categories a = categories b -> transactions a = transactions b ->
  budgets a = budgets b -> settings a = settings b -> indexes a = indexes b -> a = b.
Proof. destruct a, b; simpl; intros; subst; reflexivity. Qed.

Lemma already_exists_skipped (v : jsval) :
  str_includes "already exists" (already_exists_message v) = true.
Proof.
  unfold already_exists_message.
  do 3 apply str_includes_app_l. reflexivity.
Qed.

Lemma seed_loop_run (todo : list CategoryService.data) :
  forall (created : list category) (w : world) (cats : table category),
    Forall (fun d => CategoryService.validateCategory (CategoryService.as_default d) = Ok tt)
      todo ->
    categories (store w) = Some cats ->
    exists w',
      CategoryService.seed_loop todo created w =
        (Ok (created ++ (seeded todo (clock w) cats).1)%list, w') /\
      clock w' = clock w /\
      categories (store w') = Some (seeded todo (clock w) cats).2 /\
      transactions (store w') = transactions (store w) /\
      budgets (store w') = budgets (store w) /\
      settings (store w') = settings (store w) /\
      indexes (store w') = indexes (store w).
Proof.
  induction todo as [|d rest IH]; intros created w cats Hv Hc.
  - exists w. simpl. rewrite app_nil_r. repeat split; assumption || reflexivity.
  - inversion Hv as [|? ? Hd Hrest]; subst.
    destruct (validated_name _ Hd) as [s Hs].
    assert (Hn : name_text d = s) by (unfold name_text; simpl in Hs; now rewrite Hs).
    change (CategoryService.seed_loop (d :: rest) created w)
      with (bind (try_catch
                    (bind (CategoryService.createCategory (CategoryService.as_default d))
                       (fun row => ret (created ++ [row])%list))
                    (fun e => if negb (str_includes "already exists" (message_of e))
                              then throw e else ret created))
              (fun created' => CategoryService.seed_loop rest created') w).
    unfold bind at 1. unfold try_catch. unfold bind at 1.
    rewrite (createCategory_run w cats _ s Hc Hd Hs).
    cbn [seeded]. rewrite Hn.
    destruct (name_taken (trim s) cats) eqn:E.
    + cbv beta iota. unfold message_of. rewrite already_exists_skipped.
      cbn [negb]. cbv beta iota. unfold ret at 1.
      destruct (IH created (ran w (store w)) cats Hrest Hc)
        as (w' & R & Hk & H1 & H2 & H3 & H4 & H5).
      exists w'. rewrite R. repeat split; assumption.
    + cbv beta iota. unfold ret at 1.
      set (row := new_category (CategoryService.as_default d) s (clock w) (seq cats + 1)).
      set (t' := {| rows := (rows cats ++ [row])%list; seq := (seq cats + 1)%Z |}).
      destruct (IH (created ++ [row])%list (ran w (set_categories (Some t') (store w))) t'
                  Hrest eq_refl)
        as (w' & R & Hk & H1 & H2 & H3 & H4 & H5).
      exists w'. rewrite R. cbn [fst snd]. rewrite <- app_assoc.
      repeat split; assumption.
Qed.

Lemma name_taken_app (n : string) (t : table category) (l : list category) (k : Z) :
  name_taken n {| rows := (rows t ++ l)%list; seq := k |} =
  name_taken n t || existsb (fun r => sql_eq (c_name r) (JStr n)) l.
Proof. unfold name_taken. simpl. apply existsb_app. Qed.

Lemma seeded_rows (todo : list CategoryService.data) (now : string) :
  forall t, rows (seeded todo now t).2 = (rows t ++ (seeded todo now t).1)%list.
Proof.
  induction todo as [|d rest IH]; intros t; simpl.
  - now rewrite app_nil_r.
  - destruct (name_taken (trim (name_text d)) t); [apply IH|].
    simpl. rewrite IH. simpl. now rewrite <- app_assoc.
Qed.

Lemma seeded_keeps (todo : list CategoryService.data) (now n : string) (t : table category) :
  name_taken n t = true -> name_taken n (seeded todo now t).2 = true.
Proof.
  intros H. unfold name_taken in *. rewrite seeded_rows, existsb_app, H. reflexivity.
Qed.

Lemma seeded_covers (todo : list CategoryService.data) (now : string) :
  forall t d, d ∈ todo -> name_taken (trim (name_text d)) (seeded todo now t).2 = true.
Proof.
  induction todo as [|d0 rest IH]; intros t d Hin; [inversion Hin|].
  simpl. apply elem_of_cons in Hin. destruct Hin as [->|Hin].
  - destruct (name_taken (trim (name_text d0)) t) eqn:E.
    + now apply seeded_keeps.
    + simpl. apply seeded_keeps. rewrite name_taken_app. simpl.
      rewrite String.eqb_refl. apply orb_true_r.
  - destruct (name_taken (trim (name_text d0)) t); simpl; now apply IH.
Qed.

Lemma seeded_nothing (todo : list CategoryService.data) (now : string) (t : table category) :
  (forall d, d ∈ todo -> name_taken (trim (name_text d)) t = true) ->
  seeded todo now t = ([], t).
Proof.
  induction todo as [|d rest IH]; intros H; [reflexivity|].
  simpl. rewrite (H d) by apply list_elem_of_here.
  apply IH. intros d' Hd'. apply H. now apply list_elem_of_further.
Qed.

Lemma seeded_created (todo : list CategoryService.data) (now : string) :
  forall t r, r ∈ (seeded todo now t).1 ->
    c_is_default r = JNum 1 /\ c_created_at r = JStr now /\
    exists d, d ∈ todo /\ c_name r = JStr (trim (name_text d)) /\
              name_taken (trim (name_text d)) t = false.
Proof.
  induction todo as [|d0 rest IH]; intros t r Hin; [inversion Hin|].
  simpl in Hin. destruct (name_taken (trim (name_text d0)) t) eqn:E.
  - destruct (IH t r Hin) as (H1 & H2 & d & Hd & Hn & Ht).
    repeat split; try assumption. exists d. split; [now apply list_elem_of_further|]. tauto.
  - simpl in Hin. apply elem_of_cons in Hin. destruct Hin as [->|Hin].
    + repeat split; try reflexivity. exists d0. split; [apply list_elem_of_here|].
      split; [reflexivity|exact E].
    + destruct (IH _ r Hin) as (H1 & H2 & d & Hd & Hn & Ht).
      repeat split; try assumption. exists d. split; [now apply list_elem_of_further|].
      split; [exact Hn|]. rewrite name_taken_app in Ht. now apply orb_false_elim in Ht.
Qed.

Lemma default_categories_valid :
  Forall (fun d => CategoryService.validateCategory (CategoryService.as_default d) = Ok tt /\
                   CategoryService.name d = JStr (trim (name_text d)))
    CategoryService.DEFAULT_CATEGORIES.
Proof. repeat (constructor; [split; reflexivity|]). constructor. Qed.

Lemma seed_loop_reruns (todo : list CategoryService.data) (w : world)
    (cats : table category) :
  Forall (fun d => CategoryService.validateCategory (CategoryService.as_default d) = Ok tt /\
                   CategoryService.name d = JStr (trim (name_text d))) todo ->
  categories (store w) = Some cats ->
  exists created cats',
    fst (CategoryService.seed_loop todo [] w) = Ok created /\
    categories (store (snd (CategoryService.seed_loop todo [] w))) = Some cats' /\
    rows cats' = (rows cats ++ created)%list /\
    (forall d, d ∈ todo -> exists r, r ∈ rows cats' /\ c_name r = CategoryService.name d) /\
    (forall r, r ∈ created ->
       c_is_default r = JNum 1 /\
       (exists d, d ∈ todo /\ c_name r = CategoryService.name d) /\
       forall r0, r0 ∈ rows cats -> c_name r0 <> c_name r) /\
    transactions (store (snd (CategoryService.seed_loop todo [] w))) = transactions (store w) /\
    budgets (store (snd (CategoryService.seed_loop todo [] w))) = budgets (store w) /\
    settings (store (snd (CategoryService.seed_loop todo [] w))) = settings (store w) /\
    fst (CategoryService.seed_loop todo [] (snd (CategoryService.seed_loop todo [] w))) =
      Ok [] /\
    store (snd (CategoryService.seed_loop todo []
                  (snd (CategoryService.seed_loop todo [] w)))) =
      store (snd (CategoryService.seed_loop todo [] w)).
Proof.
  intros Hall Hc.
  assert (Hvalid : Forall (fun d => CategoryService.validateCategory
                                      (CategoryService.as_default d) = Ok tt) todo).
  { eapply Forall_impl; [exact Hall|]. simpl. tauto. }
  assert (Hname : forall d, d ∈ todo ->
                            CategoryService.name d = JStr (trim (name_text d))).
  { intros d Hd. rewrite Forall_forall in Hall. now apply Hall. }
  destruct (seed_loop_run todo [] w cats Hvalid Hc)
    as (w1 & R & Hk & H1 & H2 & H3 & H4 & H5).
  rewrite R. cbn [fst snd app].
  remember (seeded todo (clock w) cats) as res eqn:Hres.
  assert (Hcov : forall d, d ∈ todo -> name_taken (trim (name_text d)) res.2 = true)
    by (intros d Hd; subst res; now apply seeded_covers).
  destruct (seed_loop_run todo [] w1 res.2 Hvalid H1)
    as (w2 & R2 & _ & G1 & G2 & G3 & G4 & G5).
  rewrite (seeded_nothing _ _ _ Hcov) in R2, G1. cbn [fst snd app] in R2, G1.
  exists res.1, res.2. rewrite R2. cbn [fst snd].
  split; [reflexivity|]. split; [exact H1|].
  split; [subst res; apply seeded_rows|].
  split.
  { intros d Hd. specialize (Hcov d Hd). unfold name_taken in Hcov.
    apply existsb_exists in Hcov. destruct Hcov as (r & Hin & E).
    exists r. split; [now apply list_elem_of_In|].
    rewrite (Hname d Hd). now apply sql_eq_text. }
  split.
  { intros r Hr. subst res.
    destruct (seeded_created _ _ _ _ Hr) as (F & _ & d & Hd & Hn & Ht).
    split; [exact F|]. split.
    - exists d. split; [exact Hd|]. now rewrite (Hname d Hd).
    - intros r0 Hr0 Heq. rewrite name_taken_false in Ht. specialize (Ht r0 Hr0).
      rewrite Heq, Hn in Ht. simpl in Ht. rewrite String.eqb_refl in Ht. discriminate. }
  repeat split; try assumption.
  apply database_ext; congruence.
Qed.

(** X18 — Seeding can be repeated.  On any database that has the categories
    table, [seedDefaultCategories] succeeds: it appends one row, flagged as
    default, for each catalogue name the table does not have yet, keeps
    every row that was there, and returns the rows it made; afterwards every
    catalogue name is in the table.  Transactions, budgets and settings are
    not touched.  Run again on the result, it creates nothing and changes
    nothing. *)
Theorem seedDefaultCategories_reruns (w : world) (cats : table category) :
  categories (store w) = Some cats ->
  let w1 := snd (CategoryService.seedDefaultCategories w) in
  exists created cats',
    fst (CategoryService.seedDefaultCategories w) = Ok created /\
    categories (store w1) = Some cats' /\
    rows cats' = (rows cats ++ created)%list /\
    (forall d, d ∈ CategoryService.DEFAULT_CATEGORIES ->
       exists r, r ∈ rows cats' /\ c_name r = CategoryService.name d) /\
    (forall r, r ∈ created ->
       c_is_default r = JNum 1 /\
       (exists d, d ∈ CategoryService.DEFAULT_CATEGORIES /\ c_name r = CategoryService.name d) /\
       forall r0, r0 ∈ rows cats -> c_name r0 <> c_name r) /\
    transactions (store w1) = transactions (store w) /\
    budgets (store w1) = budgets (store w) /\
    settings (store w1) = settings (store w) /\
    fst (CategoryService.seedDefaultCategories w1) = Ok [] /\
    store (snd (CategoryService.seedDefaultCategories w1)) = store w1.
Proof.
  intros Hc.
  exact (seed_loop_reruns CategoryService.DEFAULT_CATEGORIES w cats
           default_categories_valid Hc).
Qed.

Lemma seedDefaultCategories_reruns_witness :
  exists created cats',
    fst (CategoryService.seedDefaultCategories world_with_budget) = Ok created /\
    categories (store (snd (CategoryService.seedDefaultCategories world_with_budget))) =
      Some cats' /\
    rows cats' = (rows (the (categories (store world_with_budget))) ++ created)%list /\
    fst (CategoryService.seedDefaultCategories
           (snd (CategoryService.seedDefaultCategories world_with_budget))) = Ok [].
Proof.
  assert (H1 : categories (store world_with_budget) =
               Some (the (categories (store world_with_budget))))
    by (vm_compute; reflexivity).
  destruct (seedDefaultCategories_reruns world_with_budget _ H1)
    as (created & cats' & E & C & R & _ & _ & _ & _ & _ & A & _).
  exists created, cats'. repeat split; assumption.
Defined.

Lemma seed_loop_no_table (d : CategoryService.data) (rest : list CategoryService.data)
    (created : list category) (w : world) :
  CategoryService.validateCategory (CategoryService.as_default d) = Ok tt ->
  categories (store w) = None ->
  CategoryService.seed_loop (d :: rest) created w =
    (Throw (Error "no such table: categories"), ran w (store w)).
Proof.
  intros Hv Hc. destruct (validated_name _ Hv) as [s Hs].
  change (CategoryService.seed_loop (d :: rest) created w)
    with (bind (try_catch
                  (bind (CategoryService.createCategory (CategoryService.as_default d))
                     (fun row => ret (created ++ [row])%list))
                  (fun e => if negb (str_includes "already exists" (message_of e))
                            then throw e else ret created))
            (fun created' => CategoryService.seed_loop rest created') w).
  assert (R : CategoryService.createCategory (CategoryService.as_default d) w =
              (Throw (Error "no such table: categories"), ran w (store w))).
  { unfold CategoryService.createCategory, try_catch.
    rewrite Hv. unfold lift at 1. unfold bind at 1.
    unfold toISOString at 1. unfold bind at 1. cbv beta iota.
    rewrite Hs. unfold method_trim at 1. unfold ret at 1. unfold bind at 1. cbv beta iota.
    erewrite bind_throw
      by (apply executeSql_throw; unfold CategoryService.insert_category;
          rewrite Hc; reflexivity).
    reflexivity. }
  unfold bind at 1. unfold try_catch. unfold bind at 1. rewrite R. reflexivity.
Qed.

(** X19 — Seeding needs the schema.  On a database without the categories
    table, [seedDefaultCategories] fails on the first catalogue entry with
    the engine's error: neither the handler of [createCategory] nor the one
    of the loop swallows it, and nothing is created. *)
Theorem seedDefaultCategories_needs_table (w : world) :
  categories (store w) = None ->
  fst (CategoryService.seedDefaultCategories w) =
    Throw (Error "no such table: categories") /\
  store (snd (CategoryService.seedDefaultCategories w)) = store w /\
  executed (snd (CategoryService.seedDefaultCategories w)) = S (executed w).
Proof.
  intros Hc. unfold CategoryService.seedDefaultCategories, CategoryService.DEFAULT_CATEGORIES.
  rewrite seed_loop_no_table by (reflexivity || exact Hc).
  repeat split.
Qed.

Lemma seedDefaultCategories_needs_table_witness :
  fst (CategoryService.seedDefaultCategories (fresh_world "2026-01-10T08:00:00.000Z")) =
    Throw (Error "no such table: categories").
Proof.
  apply (seedDefaultCategories_needs_table (fresh_world "2026-01-10T08:00:00.000Z")).
  reflexivity.
Defined.

(** ** Creating and deleting transactions *)

Lemma getTransactionById_run (w : world) (id : jsval) (txs : table transaction)
    (cats : table category) :
  transactions (store w) = Some txs ->
  categories (store w) = Some cats ->
  TransactionService.getTransactionById id w =
  (Ok (head (map (TransactionService.view_of (rows cats))
               (filter (fun r => id_is (t_id r) id = true) (rows txs)))),
   ran w (store w)).
Proof.
  intros Ht Hc. unfold TransactionService.getTransactionById.
  erewrite bind_ok
    by (apply executeSql_ok; unfold TransactionService.select_transaction;
        rewrite Ht, Hc; reflexivity).
  now destruct (map _ _).
Qed.

Lemma createTransaction_run (w : world) (txs : table transaction)
    (d : TransactionService.data) (s : string) :
  transactions (store w) = Some txs ->
  TransactionService.validateTransaction d = Ok tt ->
  TransactionService.description d = JStr s ->
  TransactionService.createTransaction d w =
  (Ok (new_transaction d s (clock w) (seq txs + 1)),
   ran w (set_transactions
            (Some {| rows := (rows txs ++ [new_transaction d s (clock w) (seq txs + 1)])%list;
                     seq := (seq txs + 1)%Z |}) (store w))).
Proof.
  intros Ht Hv Hs. unfold TransactionService.createTransaction.
  rewrite Hv. unfold lift at 1. unfold bind at 1.
  unfold toISOString at 1. unfold bind at 1. cbv beta iota.
  unfold today at 1. unfold bind at 1. cbv beta iota.
  rewrite Hs. unfold method_trim at 1. unfold ret at 1. unfold bind at 1. cbv beta iota.
  erewrite bind_ok
    by (apply executeSql_ok; unfold TransactionService.insert_transaction;
        rewrite Ht; reflexivity).
  reflexivity.
Qed.

Lemma key_fresh {A : Type} (key : A -> Z) (t : table A) (r : A) :
  keys_bounded key t -> key r = (seq t + 1)%Z ->
  filter (fun x => id_is (key x) (JNum (inject_Z (key r))) = true) (rows t ++ [r])%list = [r] /\
  keys_bounded key {| rows := (rows t ++ [r])%list; seq := (seq t + 1)%Z |}.
Proof.
  intros [Hnd Hle] Hk.
  assert (Hfresh : forall x, x ∈ rows t -> key x <> key r).
  { intros x Hin. rewrite Forall_forall in Hle. specialize (Hle x Hin). lia. }
  split; [|split].
  - rewrite filter_app, (key_absent key _ _ Hfresh), filter_cons.
    destruct (decide _) as [_|Hn]; [reflexivity|].
    exfalso. apply Hn. now apply id_is_inject.
  - simpl. rewrite fmap_app. apply NoDup_app. split; [exact Hnd|]. split.
    + intros k Hin Hin'. simpl in Hin'. apply list_elem_of_singleton in Hin'. subst k.
      apply list_elem_of_fmap in Hin. destruct Hin as (x & Hx & Hin).
      now apply (Hfresh x Hin).
    + simpl. apply NoDup_singleton.
  - simpl. apply Forall_app. split.
    + eapply Forall_impl; [exact Hle|]. simpl. intros; lia.
    + repeat constructor. lia.
Qed.

(** X20 — Creating a transaction.  For a valid payload whose description is
    made of ASCII characters, whose category is a
    number or missing and whose raw data is a text or missing, on a table
    that respects its primary key, [createTransaction] succeeds: it returns
    the row it stored (trimmed description, today's date when none is given,
    source [manual] by default, both timestamps the current time) under a
    key above every key in use; the row is appended and nothing else
    changes; and [getTransactionById] on the returned key gives that row
    back, joined with the columns of its category. *)
Theorem createTransaction_stores (w : world) (txs : table transaction)
    (cats : table category) (d : TransactionService.data) (s : string) :
  transactions (store w) = Some txs ->
  categories (store w) = Some cats ->
  TransactionService.validateTransaction d = Ok tt ->
  TransactionService.description d = JStr s ->
  plain s = true ->
  keeps_integer (js_or (TransactionService.category_id d) JNull) ->
  keeps_text (js_or (TransactionService.raw_data d) JNull) ->
  keys_bounded t_id txs ->
  let row := new_transaction d s (clock w) (seq txs + 1) in
  let w' := snd (TransactionService.createTransaction d w) in
  fst (TransactionService.createTransaction d w) = Ok row /\
  transactions (store w') = Some {| rows := (rows txs ++ [row])%list; seq := (seq txs + 1)%Z |} /\
  categories (store w') = categories (store w) /\
  budgets (store w') = budgets (store w) /\
  settings (store w') = settings (store w) /\
  fst (TransactionService.getTransactionById (JNum (inject_Z (t_id row))) w') =
    Ok (Some (TransactionService.view_of (rows cats) row)) /\
  keys_bounded t_id {| rows := (rows txs ++ [row])%list; seq := (seq txs + 1)%Z |}.
Proof.
  intros Ht Hc Hv Hs _ _ _ Hkeys row w'. subst w'.
  rewrite (createTransaction_run w txs d s Ht Hv Hs). cbn [fst snd].
  destruct (key_fresh t_id txs row Hkeys eq_refl) as [Hf Hk].
  repeat split; try reflexivity; try apply Hk.
  erewrite getTransactionById_run by (reflexivity || exact Hc).
  cbn [rows]. subst row. rewrite Hf. reflexivity.
Qed.

Lemma createTransaction_stores_witness :
  fst (TransactionService.createTransaction
         (payload 300 "expense" "2026-01-05" (JNum 1)) world_with_category) =
    Ok (tv_row first_expense) /\
  fst (TransactionService.getTransactionById (JNum 1)
         (snd (TransactionService.createTransaction
                 (payload 300 "expense" "2026-01-05" (JNum 1)) world_with_category))) =
    Ok (Some first_expense).
Proof.
  assert (H1 : transactions (store world_with_category) = Some empty_table)
    by (vm_compute; reflexivity).
  assert (H2 : categories (store world_with_category) =
               Some (the (categories (store world_with_category))))
    by (vm_compute; reflexivity).
  assert (H5 : keys_bounded t_id (@empty_table transaction))
    by (split; [apply NoDup_nil_2|apply Forall_nil_2]).
  destruct (createTransaction_stores world_with_category empty_table _
              (payload 300 "expense" "2026-01-05" (JNum 1)) "Test"
              H1 H2 eq_refl eq_refl eq_refl I I H5)
    as (E & _ & _ & _ & _ & G & _).
  split; [exact E|exact G].
Defined.

Lemma filter_other_keys {A : Type} (key : A -> Z) (k : Z) (l : list A) :
  filter (fun r => id_is (key r) (JNum (inject_Z k)) = false) l =
  filter (fun r => key r <> k) l.
Proof.
  apply list_filter_iff. intros r. split.
  - intros E Hk. apply id_is_inject in Hk. congruence.
  - intros Hk. destruct (id_is (key r) (JNum (inject_Z k))) eqn:E; [|reflexivity].
    apply id_is_inject in E. contradiction.
Qed.

Lemma key_present {A : Type} (key : A -> Z) (l : list A) (k : Z) (r0 : A) :
  r0 ∈ l -> key r0 = k ->
  exists r rest, filter (fun r => id_is (key r) (JNum (inject_Z k)) = true) l = r :: rest.
Proof.
  intros Hin Hk.
  destruct (filter (fun r => id_is (key r) (JNum (inject_Z k)) = true) l) as [|r rest] eqn:E;
    [|eauto].
  assert (H : r0 ∈ filter (fun r => id_is (key r) (JNum (inject_Z k)) = true) l).
  { apply list_elem_of_filter. split; [now apply id_is_inject|exact Hin]. }
  rewrite E in H. inversion H.
Qed.

Lemma without_absent {A : Type} (key : A -> Z) (k : Z) (t : table A) :
  forall r, r ∈ rows (without key k t) -> key r <> k.
Proof. intros r Hin. simpl in Hin. apply list_elem_of_filter in Hin. tauto. Qed.

Lemma deleteTransaction_missing_run (w : world) (txs : table transaction)
    (cats : table category) (k : Z) :
  transactions (store w) = Some txs ->
  categories (store w) = Some cats ->
  (forall r, r ∈ rows txs -> t_id r <> k) ->
  TransactionService.deleteTransaction (JNum (inject_Z k)) w =
    (Throw (Error ("Transaction with id " +:+ pretty k +:+ " not found")), ran w (store w)).
Proof.
  intros Ht Hc Hk. unfold TransactionService.deleteTransaction.
  rewrite (bind_ok _ _ _ _ _ (getTransactionById_run w _ txs cats Ht Hc)).
  rewrite (key_absent t_id _ k Hk). cbn [map head]. rewrite show_key. reflexivity.
Qed.

(** X21 — Deleting a transaction.  When a row carries the safe integer id,
    [deleteTransaction] succeeds and removes exactly the rows with that key:
    the other rows, the key counter and the other tables stay; afterwards
    [getTransactionById] finds nothing under the id and a second
    [deleteTransaction] throws the not-found error. *)
Theorem deleteTransaction_removes (w : world) (txs : table transaction)
    (cats : table category) (k : Z) (r0 : transaction) :
  transactions (store w) = Some txs ->
  categories (store w) = Some cats ->
  r0 ∈ rows txs -> t_id r0 = k ->
  safe_integer k ->
  let w' := snd (TransactionService.deleteTransaction (JNum (inject_Z k)) w) in
  fst (TransactionService.deleteTransaction (JNum (inject_Z k)) w) = Ok tt /\
  transactions (store w') = Some (without t_id k txs) /\
  (forall r, r ∈ rows (without t_id k txs) <-> r ∈ rows txs /\ t_id r <> k) /\
  categories (store w') = categories (store w) /\
  budgets (store w') = budgets (store w) /\
  settings (store w') = settings (store w) /\
  fst (TransactionService.getTransactionById (JNum (inject_Z k)) w') = Ok None /\
  fst (TransactionService.deleteTransaction (JNum (inject_Z k)) w') =
    Throw (Error ("Transaction with id " +:+ pretty k +:+ " not found")).
Proof.
  intros Ht Hc Hin Hk _ w'.
  assert (R : TransactionService.deleteTransaction (JNum (inject_Z k)) w =
              (Ok tt, ran (ran w (store w))
                          (set_transactions (Some (without t_id k txs)) (store w)))).
  { unfold TransactionService.deleteTransaction.
    rewrite (bind_ok _ _ _ _ _ (getTransactionById_run w _ txs cats Ht Hc)).
    destruct (key_present t_id _ k r0 Hin Hk) as (r & rest & E). rewrite E.
    cbn [map head].
    apply executeSql_ok. unfold TransactionService.delete_transaction.
    cbn [store ran]. rewrite Ht. unfold without. now rewrite filter_other_keys. }
  subst w'. rewrite R. cbn [fst snd].
  split; [reflexivity|]. split; [reflexivity|].
  split; [intros r; simpl; rewrite list_elem_of_filter; tauto|].
  split; [reflexivity|]. split; [reflexivity|]. split; [reflexivity|].
  split.
  - erewrite getTransactionById_run by (reflexivity || exact Hc).
    rewrite (key_absent t_id _ k (without_absent t_id k txs)). reflexivity.
  - erewrite deleteTransaction_missing_run;
      [reflexivity|reflexivity|exact Hc|apply without_absent].
Qed.

Lemma deleteTransaction_removes_witness :
  fst (TransactionService.deleteTransaction (JNum 1) world_with_transactions) = Ok tt /\
  fst (TransactionService.getTransactionById (JNum 1)
         (snd (TransactionService.deleteTransaction (JNum 1) world_with_transactions))) =
    Ok None.
Proof.
  assert (H1 : transactions (store world_with_transactions) =
               Some (the (transactions (store world_with_transactions))))
    by (vm_compute; reflexivity).
  assert (H2 : categories (store world_with_transactions) =
               Some (the (categories (store world_with_transactions))))
    by (vm_compute; reflexivity).
  assert (H3 : tv_row first_expense ∈
               rows (the (transactions (store world_with_transactions))))
    by (vm_compute; apply list_elem_of_here).
  assert (H4 : safe_integer 1) by (vm_compute; discriminate).
  destruct (deleteTransaction_removes world_with_transactions _ _ 1 (tv_row first_expense)
              H1 H2 H3 eq_refl H4)
    as (E & _ & _ & _ & _ & _ & G & _).
  split; [exact E|exact G].
Defined.

(** X22 — Transactions that are not there.  For a safe integer id that no row
    carries, [deleteTransaction] throws the not-found error naming the id,
    and so does [updateTransaction] with a valid payload whose description
    is made of ASCII characters; neither changes the database. *)
Theorem transaction_missing (w : world) (txs : table transaction)
    (cats : table category) (k : Z) (d : TransactionService.data) :
  transactions (store w) = Some txs ->
  categories (store w) = Some cats ->
  (forall r, r ∈ rows txs -> t_id r <> k) ->
  safe_integer k ->
  TransactionService.validateTransaction d = Ok tt ->
  plain_text (TransactionService.description d) ->
  let e := Error ("Transaction with id " +:+ pretty k +:+ " not found") in
  fst (TransactionService.deleteTransaction (JNum (inject_Z k)) w) = Throw e /\
  store (snd (TransactionService.deleteTransaction (JNum (inject_Z k)) w)) = store w /\
  fst (TransactionService.updateTransaction (JNum (inject_Z k)) d w) = Throw e /\
  store (snd (TransactionService.updateTransaction (JNum (inject_Z k)) d w)) = store w.
Proof.
  intros Ht Hc Hk _ Hv _ e. subst e.
  rewrite (deleteTransaction_missing_run w txs cats k Ht Hc Hk).
  split; [reflexivity|]. split; [reflexivity|].
  assert (R : TransactionService.updateTransaction (JNum (inject_Z k)) d w =
              (Throw (Error ("Transaction with id " +:+ pretty k +:+ " not found")),
               ran w (store w))).
  { unfold TransactionService.updateTransaction.
    rewrite Hv. unfold lift at 1. unfold bind at 1.
    rewrite (bind_ok _ _ _ _ _ (getTransactionById_run w _ txs cats Ht Hc)).
    rewrite (key_absent t_id _ k Hk). cbn [map head]. rewrite show_key. reflexivity. }
  rewrite R. split; reflexivity.
Qed.

Lemma transaction_missing_witness :
  fst (TransactionService.deleteTransaction (JNum 7) world_with_transactions) =
    Throw (Error "Transaction with id 7 not found") /\
  fst (TransactionService.updateTransaction (JNum 7) bare_update world_with_transactions) =
    Throw (Error "Transaction with id 7 not found").
Proof.
  assert (H1 : transactions (store world_with_transactions) =
               Some (the (transactions (store world_with_transactions))))
    by (vm_compute; reflexivity).
  assert (H2 : categories (store world_with_transactions) =
               Some (the (categories (store world_with_transactions))))
    by (vm_compute; reflexivity).
  assert (H3 : forall r, r ∈ rows (the (transactions (store world_with_transactions))) ->
                         t_id r <> 7%Z).
  { intros r Hin. vm_compute in Hin.
    repeat (apply elem_of_cons in Hin; destruct Hin as [->|Hin]; [simpl; lia|]).
    inversion Hin. }
  assert (H4 : safe_integer 7) by (vm_compute; discriminate).
  destruct (transaction_missing world_with_transactions _ _ 7 bare_update
              H1 H2 H3 H4 eq_refl eq_refl)
    as (E & _ & G & _).
  split; [exact E|exact G].
Defined.

(** ** Creating and deleting budgets *)

Lemma createBudget_run (w : world) (d : BudgetService.data) (cats : table category)
    (buds : table budget) (c : category) (rest : list category) :
  BudgetService.validateBudget d = Ok tt ->
  categories (store w) = Some cats ->
  budgets (store w) = Some buds ->
  filter (fun r => id_is (c_id r) (BudgetService.category_id d) = true) (rows cats) =
    c :: rest ->
  BudgetService.createBudget d w =
  (Ok (new_budget d (clock w) (seq buds + 1)),
   ran (ran w (store w))
     (set_budgets
        (Some {| rows := rows buds ++ [new_budget d (clock w) (seq buds + 1)];
                 seq := (seq buds + 1)%Z |}) (store w))).
Proof.
  intros Hv Hc Hb Hf. unfold BudgetService.createBudget.
  rewrite Hv. unfold lift at 1. unfold bind at 1.
  erewrite bind_ok
    by (apply executeSql_ok; unfold BudgetService.select_category_id;
        rewrite Hc, Hf; reflexivity).
  change (length (c :: rest) =? 0)%nat with false. cbv beta iota.
  unfold toISOString at 1. unfold bind at 1. cbv beta iota.
  erewrite bind_ok
    by (apply executeSql_ok; unfold BudgetService.insert_budget; simpl;
        rewrite Hb; reflexivity).
  reflexivity.
Qed.

(** X23 — Creating a budget.  For a valid payload whose category is in the
    categories table, on a budgets table that respects its primary key,
    [createBudget] succeeds: it returns the row it stored ([null] for a
    missing end date, both timestamps the current time) under a key above
    every key in use; the row is appended and nothing else changes; and
    [getBudgetById] on the returned key gives that row back beside the name,
    icon and colour of its category. *)
Theorem createBudget_stores (w : world) (d : BudgetService.data) (cats : table category)
    (buds : table budget) (c : category) (rest : list category) :
  BudgetService.validateBudget d = Ok tt ->
  categories (store w) = Some cats ->
  budgets (store w) = Some buds ->
  filter (fun r => id_is (c_id r) (BudgetService.category_id d) = true) (rows cats) =
    c :: rest ->
  keys_bounded b_id buds ->
  let row := new_budget d (clock w) (seq buds + 1) in
  let w' := snd (BudgetService.createBudget d w) in
  fst (BudgetService.createBudget d w) = Ok row /\
  budgets (store w') = Some {| rows := rows buds ++ [row]; seq := (seq buds + 1)%Z |} /\
  categories (store w') = categories (store w) /\
  transactions (store w') = transactions (store w) /\
  settings (store w') = settings (store w) /\
  fst (BudgetService.getBudgetById (JNum (inject_Z (b_id row))) w') =
    Ok (Some (budget_beside c row)) /\
  keys_bounded b_id {| rows := rows buds ++ [row]; seq := (seq buds + 1)%Z |}.
Proof.
  intros Hv Hc Hb Hf Hkeys row w'. subst w'.
  rewrite (createBudget_run w d cats buds c rest Hv Hc Hb Hf). cbn [fst snd].
  destruct (key_fresh b_id buds row Hkeys eq_refl) as [Hrow Hk].
  repeat split; try reflexivity; try apply Hk.
  erewrite getBudgetById_run by (reflexivity || exact Hc).
  cbn [rows]. subst row. rewrite Hrow.
  cbn [flat_map]. rewrite app_nil_r. unfold BudgetService.views_of.
  cbn [b_category_id new_budget]. rewrite Hf. reflexivity.
Qed.

Lemma createBudget_stores_witness :
  fst (BudgetService.createBudget sample_budget world_with_transactions) =
    Ok (bv_row sample_budget_view) /\
  fst (BudgetService.getBudgetById (JNum 1)
         (snd (BudgetService.createBudget sample_budget world_with_transactions))) =
    Ok (Some sample_budget_view).
Proof.
  assert (H2 : categories (store world_with_transactions) =
               Some (the (categories (store world_with_transactions))))
    by (vm_compute; reflexivity).
  assert (H3 : budgets (store world_with_transactions) = Some empty_table)
    by (vm_compute; reflexivity).
  assert (H4 : filter (fun r => id_is (c_id r) (BudgetService.category_id sample_budget) = true)
                 (rows (the (categories (store world_with_transactions)))) = food_row :: [])
    by (vm_compute; reflexivity).
  assert (H5 : keys_bounded b_id (@empty_table budget))
    by (split; [apply NoDup_nil_2|apply Forall_nil_2]).
  destruct (createBudget_stores world_with_transactions sample_budget _ empty_table
              food_row [] eq_refl H2 H3 H4 H5)
    as (E & _ & _ & _ & _ & G & _).
  split; [exact E|exact G].
Defined.

(** X24 — Budgets need their category.  For a valid payload whose category
    id is a safe integer that no category row carries, [createBudget] throws the
    does-not-exist error naming the id and inserts nothing; and so does
    [updateBudget] on a budget that is there, which it leaves as it was. *)
Theorem budget_unknown_category (w : world) (d : BudgetService.data)
    (cats : table category) (k : Z) (id : jsval) (bv : budget_view) :
  BudgetService.validateBudget d = Ok tt ->
  categories (store w) = Some cats ->
  BudgetService.category_id d = JNum (inject_Z k) ->
  safe_integer k ->
  (forall c, c ∈ rows cats -> c_id c <> k) ->
  fst (BudgetService.getBudgetById id w) = Ok (Some bv) ->
  let e := Error ("Category with id " +:+ pretty k +:+ " does not exist") in
  fst (BudgetService.createBudget d w) = Throw e /\
  store (snd (BudgetService.createBudget d w)) = store w /\
  fst (BudgetService.updateBudget id d w) = Throw e /\
  store (snd (BudgetService.updateBudget id d w)) = store w.
Proof.
  intros Hv Hc Hid _ Hk Hfound e. subst e.
  assert (Hsel : forall w0, store w0 = store w ->
            executeSql (BudgetService.select_category_id (BudgetService.category_id d)) w0 =
            (Ok 0%nat, ran w0 (store w0))).
  { intros w0 E. apply executeSql_ok. unfold BudgetService.select_category_id.
    rewrite E, Hc, Hid, (key_absent c_id _ k Hk). reflexivity. }
  assert (R : BudgetService.createBudget d w =
              (Throw (Error ("Category with id " +:+ pretty k +:+ " does not exist")),
               ran w (store w))).
  { unfold BudgetService.createBudget.
    rewrite Hv. unfold lift at 1. unfold bind at 1.
    rewrite (bind_ok _ _ _ _ _ (Hsel w eq_refl)).
    change (0 =? 0)%nat with true. cbv beta iota.
    rewrite Hid, show_key. reflexivity. }
  rewrite R. split; [reflexivity|]. split; [reflexivity|].
  assert (R' : BudgetService.updateBudget id d w =
               (Throw (Error ("Category with id " +:+ pretty k +:+ " does not exist")),
                ran (ran w (store w)) (store w))).
  { unfold BudgetService.updateBudget.
    rewrite Hv. unfold lift at 1. unfold bind at 1.
    rewrite (bind_ok _ _ _ _ _ (getBudgetById_found _ _ _ Hfound)).
    cbv beta iota.
    rewrite (bind_ok _ _ _ _ _ (Hsel (ran w (store w)) eq_refl)).
    change (0 =? 0)%nat with true. cbv beta iota.
    rewrite Hid, show_key. reflexivity. }
  rewrite R'. split; reflexivity.
Qed.

Lemma budget_unknown_category_witness :
  fst (BudgetService.createBudget stray_budget world_with_budget) =
    Throw (Error "Category with id 9 does not exist") /\
  fst (BudgetService.updateBudget (JNum 1) stray_budget world_with_budget) =
    Throw (Error "Category with id 9 does not exist").
Proof.
  assert (H2 : categories (store world_with_budget) =
               Some (the (categories (store world_with_budget))))
    by (vm_compute; reflexivity).
  assert (H4 : forall c, c ∈ rows (the (categories (store world_with_budget))) ->
                         c_id c <> 9%Z).
  { intros c Hin. vm_compute in Hin. apply list_elem_of_singleton in Hin. subst c.
    simpl. lia. }
  assert (H5 : fst (BudgetService.getBudgetById (JNum 1) world_with_budget) =
               Ok (Some sample_budget_view))
    by (vm_compute; reflexivity).
  assert (H3 : safe_integer 9) by (vm_compute; discriminate).
  destruct (budget_unknown_category world_with_budget stray_budget _ 9 (JNum 1)
              sample_budget_view eq_refl H2 eq_refl H3 H4 H5)
    as (E & _ & G & _).
  split; [exact E|exact G].
Defined.

Lemma getBudgetById_missing (w : world) (buds : table budget) (cats : table category)
    (k : Z) :
  budgets (store w) = Some buds ->
  categories (store w) = Some cats ->
  (forall r, r ∈ rows buds -> b_id r <> k) ->
  BudgetService.getBudgetById (JNum (inject_Z k)) w = (Ok None, ran w (store w)).
Proof.
  intros Hb Hc Hk. rewrite (getBudgetById_run w _ buds cats Hb Hc).
  now rewrite (key_absent b_id _ k Hk).
Qed.

Lemma deleteBudget_missing_run (w : world) (buds : table budget) (cats : table category)
    (k : Z) :
  budgets (store w) = Some buds ->
  categories (store w) = Some cats ->
  (forall r, r ∈ rows buds -> b_id r <> k) ->
  BudgetService.deleteBudget (JNum (inject_Z k)) w =
    (Throw (Error ("Budget with id " +:+ pretty k +:+ " not found")), ran w (store w)).
Proof.
  intros Hb Hc Hk. unfold BudgetService.deleteBudget.
  rewrite (bind_ok _ _ _ _ _ (getBudgetById_missing w buds cats k Hb Hc Hk)).
  cbv beta iota. rewrite show_key. reflexivity.
Qed.

(** X25 — Deleting a budget.  When a row carries the safe integer id and its
    category is in the categories table, [deleteBudget] succeeds and removes
    exactly the rows with that key: the other rows, the key counter and the
    other tables stay; afterwards [getBudgetById] finds nothing under the id
    and a second [deleteBudget] throws the not-found error. *)
Theorem deleteBudget_removes (w : world) (buds : table budget) (cats : table category)
    (k : Z) (r0 : budget) (c : category) :
  budgets (store w) = Some buds ->
  categories (store w) = Some cats ->
  r0 ∈ rows buds -> b_id r0 = k ->
  c ∈ rows cats -> id_is (c_id c) (b_category_id r0) = true ->
  safe_integer k ->
  let w' := snd (BudgetService.deleteBudget (JNum (inject_Z k)) w) in
  fst (BudgetService.deleteBudget (JNum (inject_Z k)) w) = Ok tt /\
  budgets (store w') = Some (without b_id k buds) /\
  (forall r, r ∈ rows (without b_id k buds) <-> r ∈ rows buds /\ b_id r <> k) /\
  categories (store w') = categories (store w) /\
  transactions (store w') = transactions (store w) /\
  settings (store w') = settings (store w) /\
  fst (BudgetService.getBudgetById (JNum (inject_Z k)) w') = Ok None /\
  fst (BudgetService.deleteBudget (JNum (inject_Z k)) w') =
    Throw (Error ("Budget with id " +:+ pretty k +:+ " not found")).
Proof.
  intros Hb Hc Hin Hk Hcin Hcid _ w'.
  assert (Hview : exists bv rest,
            flat_map (BudgetService.views_of (rows cats))
              (filter (fun r => id_is (b_id r) (JNum (inject_Z k)) = true) (rows buds)) =
            bv :: rest).
  { destruct (flat_map _ _) as [|bv rest] eqn:E; [|eauto].
    assert (H : In (budget_beside c r0)
                  (flat_map (BudgetService.views_of (rows cats))
                     (filter (fun r => id_is (b_id r) (JNum (inject_Z k)) = true)
                        (rows buds)))).
    { apply in_flat_map. exists r0. split.
      - apply list_elem_of_In, list_elem_of_filter. split; [now apply id_is_inject|exact Hin].
      - unfold BudgetService.views_of. apply in_map_iff. exists c. split; [reflexivity|].
        apply list_elem_of_In, list_elem_of_filter. split; assumption. }
    rewrite E in H. destruct H. }
  destruct Hview as (bv & rest & Hview).
  assert (R : BudgetService.deleteBudget (JNum (inject_Z k)) w =
              (Ok tt, ran (ran w (store w))
                          (set_budgets (Some (without b_id k buds)) (store w)))).
  { unfold BudgetService.deleteBudget.
    rewrite (bind_ok _ _ _ _ _ (getBudgetById_run w _ buds cats Hb Hc)).
    rewrite Hview. cbn [head].
    apply executeSql_ok. unfold BudgetService.delete_budget.
    cbn [store ran]. rewrite Hb. unfold without. now rewrite filter_other_keys. }
  subst w'. rewrite R. cbn [fst snd].
  split; [reflexivity|]. split; [reflexivity|].
  split; [intros r; simpl; rewrite list_elem_of_filter; tauto|].
  split; [reflexivity|]. split; [reflexivity|]. split; [reflexivity|].
  split.
  - erewrite getBudgetById_missing;
      [reflexivity|reflexivity|exact Hc|apply without_absent].
  - erewrite deleteBudget_missing_run;
      [reflexivity|reflexivity|exact Hc|apply without_absent].
Qed.

Lemma deleteBudget_removes_witness :
  fst (BudgetService.deleteBudget (JNum 1) world_with_budget) = Ok tt /\
  fst (BudgetService.getBudgetById (JNum 1)
         (snd (BudgetService.deleteBudget (JNum 1) world_with_budget))) = Ok None.
Proof.
  assert (H1 : budgets (store world_with_budget) =
               Some (the (budgets (store world_with_budget))))
    by (vm_compute; reflexivity).
  assert (H2 : categories (store world_with_budget) =
               Some (the (categories (store world_with_budget))))
    by (vm_compute; reflexivity).
  assert (H3 : bv_row sample_budget_view ∈ rows (the (budgets (store world_with_budget))))
    by (vm_compute; apply list_elem_of_here).
  assert (H4 : food_row ∈ rows (the (categories (store world_with_budget))))
    by (vm_compute; apply list_elem_of_here).
  assert (H5 : safe_integer 1) by (vm_compute; discriminate).
  destruct (deleteBudget_removes world_with_budget _ _ 1 (bv_row sample_budget_view)
              food_row H1 H2 H3 eq_refl H4 eq_refl H5)
    as (E & _ & _ & _ & _ & _ & G & _).
  split; [exact E|exact G].
Defined.

(** X26 — Budgets that are not there.  For a safe integer id that no budget row
    carries, [deleteBudget], [updateBudget] with a valid payload and
    [getBudgetProgress] all throw the not-found error naming the id, and
    none of them changes the database. *)
Theorem budget_missing (w : world) (buds : table budget) (cats : table category)
    (k : Z) (d : BudgetService.data) (startDate endDate : jsval) :
  budgets (store w) = Some buds ->
  categories (store w) = Some cats ->
  (forall r, r ∈ rows buds -> b_id r <> k) ->
  safe_integer k ->
  BudgetService.validateBudget d = Ok tt ->
  let e := Error ("Budget with id " +:+ pretty k +:+ " not found") in
  let id := JNum (inject_Z k) in
  fst (BudgetService.deleteBudget id w) = Throw e /\
  store (snd (BudgetService.deleteBudget id w)) = store w /\
  fst (BudgetService.updateBudget id d w) = Throw e /\
  store (snd (BudgetService.updateBudget id d w)) = store w /\
  fst (BudgetService.getBudgetProgress id startDate endDate w) = Throw e /\
  store (snd (BudgetService.getBudgetProgress id startDate endDate w)) = store w.
Proof.
  intros Hb Hc Hk _ Hv e id. subst e id.
  rewrite (deleteBudget_missing_run w buds cats k Hb Hc Hk).
  split; [reflexivity|]. split; [reflexivity|].
  assert (R : BudgetService.updateBudget (JNum (inject_Z k)) d w =
              (Throw (Error ("Budget with id " +:+ pretty k +:+ " not found")),
               ran w (store w))).
  { unfold BudgetService.updateBudget.
    rewrite Hv. unfold lift at 1. unfold bind at 1.
    rewrite (bind_ok _ _ _ _ _ (getBudgetById_missing w buds cats k Hb Hc Hk)).
    cbv beta iota. rewrite show_key. reflexivity. }
  assert (R' : BudgetService.getBudgetProgress (JNum (inject_Z k)) startDate endDate w =
               (Throw (Error ("Budget with id " +:+ pretty k +:+ " not found")),
                ran w (store w))).
  { unfold BudgetService.getBudgetProgress.
    rewrite (bind_ok _ _ _ _ _ (getBudgetById_missing w buds cats k Hb Hc Hk)).
    cbv beta iota. rewrite show_key. reflexivity. }
  rewrite R, R'. repeat split.
Qed.

Lemma budget_missing_witness :
  fst (BudgetService.deleteBudget (JNum 5) world_with_budget) =
    Throw (Error "Budget with id 5 not found") /\
  fst (BudgetService.updateBudget (JNum 5) sample_budget world_with_budget) =
    Throw (Error "Budget with id 5 not found") /\
  fst (BudgetService.getBudgetProgress (JNum 5) JNull JNull world_with_budget) =
    Throw (Error "Budget with id 5 not found").
Proof.
  assert (H1 : budgets (store world_with_budget) =
               Some (the (budgets (store world_with_budget))))
    by (vm_compute; reflexivity).
  assert (H2 : categories (store world_with_budget) =
               Some (the (categories (store world_with_budget))))
    by (vm_compute; reflexivity).
  assert (H3 : forall r, r ∈ rows (the (budgets (store world_with_budget))) ->
                         b_id r <> 5%Z).
  { intros r Hin. vm_compute in Hin. apply list_elem_of_singleton in Hin. subst r.
    simpl. lia. }
  assert (H4 : safe_integer 5) by (vm_compute; discriminate).
  destruct (budget_missing world_with_budget _ _ 5 sample_budget JNull JNull
              H1 H2 H3 H4 eq_refl)
    as (E & _ & G & _ & P & _).
  split; [exact E|]. split; [exact G|exact P].
Defined.

(** ** Listings *)

Lemma order_le_total (a b : jsval) : order_le a b = true \/ order_le b a = true.
Proof.
  destruct a as [| |x|x| |x], b as [| |y|y| |y]; simpl; auto.
  - destruct (Qlt_le_dec y x) as [H|H].
    + right. apply Qle_bool_iff. now apply Qlt_le_weak.
    + left. now apply Qle_bool_iff.
  - apply String.leb_total.
Qed.

Lemma desc_desc_total (a1 a2 b1 b2 : jsval) :
  desc_desc a1 a2 b1 b2 = true \/ desc_desc b1 b2 a1 a2 = true.
Proof.
  unfold desc_desc.
  destruct (order_le_total a1 b1) as [H|H], (order_le_total a2 b2) as [H'|H'];
    rewrite ?H, ?H'; destruct (order_le b1 a1), (order_le a1 b1), (order_le b2 a2),
      (order_le a2 b2); simpl; auto; discriminate.
Qed.

Lemma desc_asc_total (a1 a2 b1 b2 : jsval) :
  desc_asc a1 a2 b1 b2 = true \/ desc_asc b1 b2 a1 a2 = true.
Proof.
  unfold desc_asc.
  destruct (order_le_total a1 b1) as [H|H], (order_le_total a2 b2) as [H'|H'];
    rewrite ?H, ?H'; destruct (order_le b1 a1), (order_le a1 b1), (order_le b2 a2),
      (order_le a2 b2); simpl; auto; discriminate.
Qed.

Global Instance newest_first_total : Total newest_first.
Proof. intros a b. apply desc_desc_total. Qed.

Global Instance defaults_first_total : Total defaults_first.
Proof. intros a b. apply desc_asc_total. Qed.

Global Instance latest_first_total : Total latest_first.
Proof.
  intros a b. unfold latest_first.
  destruct (order_le_total (b_created_at (bv_row a)) (b_created_at (bv_row b))); auto.
Qed.

Lemma clauses_selected (f : TransactionService.filters) (r : transaction) :
  forallb (fun clause => clause r)
    (TransactionService.and_clause (given_text (TransactionService.f_type f))
       (fun v r => sql_eq (t_type r) (JStr v))
       (TransactionService.and_clause (given_number (TransactionService.f_category_id f))
          (fun v r => sql_eq (t_category_id r) (JNum (inject_Z v)))
          (TransactionService.and_clause (given_text (TransactionService.f_endDate f))
             (fun v r => sql_le (t_date r) (JStr v))
             (TransactionService.and_clause (given_text (TransactionService.f_startDate f))
                (fun v r => sql_le (JStr v) (t_date r)) [])))) =
  selected f r.
Proof.
  unfold selected, TransactionService.and_clause.
  destruct (given_text (TransactionService.f_startDate f)),
    (given_text (TransactionService.f_endDate f)),
    (given_number (TransactionService.f_category_id f)),
    (given_text (TransactionService.f_type f));
    cbn [from_option app forallb]; rewrite ?forallb_app; cbn [forallb];
    rewrite ?andb_true_r, ?andb_true_l, ?andb_assoc; reflexivity.
Qed.

Lemma getAllTransactions_run (w : world) (txs : table transaction) (cats : table category)
    (f : TransactionService.filters) :
  transactions (store w) = Some txs ->
  categories (store w) = Some cats ->
  TransactionService.getAllTransactions f w =
  (match given_number (TransactionService.f_limit f),
         given_number (TransactionService.f_offset f) with
   | None, Some _ => Throw offset_syntax_error
   | lim, off =>
       Ok (map (TransactionService.view_of (rows cats))
             (page lim off
                (merge_sort newest_first
                   (filter (fun r => selected f r = true) (rows txs)))))
   end, ran w (store w)).
Proof.
  intros Ht Hc. unfold TransactionService.getAllTransactions.
  rewrite executeSql_run. unfold TransactionService.select_transactions.
  rewrite Ht, Hc.
  rewrite (list_filter_iff _ (fun r => selected f r = true))
    by (intros r; now rewrite clauses_selected).
  now destruct (given_number (TransactionService.f_limit f)),
    (given_number (TransactionService.f_offset f)).
Qed.

(** X27 — Listing transactions.  Without a limit and an offset,
    [getAllTransactions] returns, joined with their categories, exactly the
    stored rows that pass every filter that is given (a start or end date or
    a type that is the empty text, and a category that is 0, do not filter),
    each as often as it is stored, ordered by date and then creation time,
    latest first; the database is not changed. *)
Theorem getAllTransactions_selects (w : world) (txs : table transaction)
    (cats : table category) (f : TransactionService.filters) :
  transactions (store w) = Some txs ->
  categories (store w) = Some cats ->
  given_number (TransactionService.f_limit f) = None ->
  given_number (TransactionService.f_offset f) = None ->
  exists listed,
    fst (TransactionService.getAllTransactions f w) =
      Ok (map (TransactionService.view_of (rows cats)) listed) /\
    listed ≡ₚ filter (fun r => selected f r = true) (rows txs) /\
    Sorted newest_first listed /\
    (forall r, r ∈ listed ->
       (forall s, TransactionService.f_startDate f = Some s -> s <> EmptyString ->
                  sql_le (JStr s) (t_date r) = true) /\
       (forall s, TransactionService.f_endDate f = Some s -> s <> EmptyString ->
                  sql_le (t_date r) (JStr s) = true) /\
       (forall k, TransactionService.f_category_id f = Some k -> k <> 0%Z ->
                  sql_eq (t_category_id r) (JNum (inject_Z k)) = true) /\
       (forall s, TransactionService.f_type f = Some s -> s <> EmptyString ->
                  sql_eq (t_type r) (JStr s) = true)) /\
    store (snd (TransactionService.getAllTransactions f w)) = store w.
Proof.
  intros Ht Hc Hl Ho.
  rewrite (getAllTransactions_run w txs cats f Ht Hc), Hl, Ho. cbn [fst snd page].
  exists (merge_sort newest_first (filter (fun r => selected f r = true) (rows txs))).
  split; [reflexivity|]. split; [apply merge_sort_Permutation|].
  split; [apply Sorted_merge_sort; apply _|]. split; [|reflexivity].
  intros r Hr. rewrite merge_sort_Permutation in Hr.
  apply list_elem_of_filter in Hr. destruct Hr as [Hsel _].
  unfold selected in Hsel. apply andb_true_iff in Hsel. destruct Hsel as [Hsel H4].
  apply andb_true_iff in Hsel. destruct Hsel as [Hsel H3].
  apply andb_true_iff in Hsel. destruct Hsel as [H1 H2].
  repeat split.
  - intros s E Hs. rewrite E in H1. simpl in H1.
    apply String.eqb_neq in Hs. now rewrite Hs in H1.
  - intros s E Hs. rewrite E in H2. simpl in H2.
    apply String.eqb_neq in Hs. now rewrite Hs in H2.
  - intros k E Hk. rewrite E in H3. simpl in H3.
    apply Z.eqb_neq in Hk. now rewrite Hk in H3.
  - intros s E Hs. rewrite E in H4. simpl in H4.
    apply String.eqb_neq in Hs. now rewrite Hs in H4.
Qed.

Lemma getAllTransactions_selects_witness :
  exists listed,
    fst (TransactionService.getAllTransactions january_expenses world_at_80_percent) =
      Ok (map (TransactionService.view_of
                 (rows (the (categories (store world_at_80_percent))))) listed) /\
    Sorted newest_first listed.
Proof.
  assert (H1 : transactions (store world_at_80_percent) =
               Some (the (transactions (store world_at_80_percent))))
    by (vm_compute; reflexivity).
  assert (H2 : categories (store world_at_80_percent) =
               Some (the (categories (store world_at_80_percent))))
    by (vm_compute; reflexivity).
  destruct (getAllTransactions_selects world_at_80_percent _ _ january_expenses
              H1 H2 eq_refl eq_refl)
    as (listed & E & _ & S & _).
  exists listed. split; [exact E|exact S].
Defined.



Lemma given_text_some (s : string) : s <> EmptyString -> given_text (Some s) = Some s.
Proof. intros H. unfold given_text. apply String.eqb_neq in H. now rewrite H. Qed.

Lemma given_number_some (k : Z) : k <> 0%Z -> given_number (Some k) = Some k.
Proof. intros H. unfold given_number. apply Z.eqb_neq in H. now rewrite H. Qed.

(** X29 — Listing by date range and by category.  For a start and an end
    date that are not empty, [getTransactionsByDateRange] lists exactly the
    rows dated inside the window, and [getTransactionSummary] on the same
    window counts as many rows as are listed.  For a category id that is not
    0, [getTransactionsByCategory] lists exactly the rows of that category;
    for the id 0 it lists what [getAllTransactions] lists without any
    filter. *)
Theorem range_and_category_listings (w : world) (txs : table transaction)
    (cats : table category) (s e : string) (k : Z) :
  transactions (store w) = Some txs ->
  categories (store w) = Some cats ->
  s <> EmptyString -> e <> EmptyString -> k <> 0%Z ->
  exists in_range of_category sm,
    fst (TransactionService.getTransactionsByDateRange s e w) =
      Ok (map (TransactionService.view_of (rows cats)) in_range) /\
    in_range ≡ₚ filter (fun r => in_window (JStr s) (JStr e) r = true) (rows txs) /\
    Sorted newest_first in_range /\
    fst (TransactionService.getTransactionSummary (JStr s) (JStr e) w) = Ok sm /\
    total_count sm = length in_range /\
    fst (TransactionService.getTransactionsByCategory k w) =
      Ok (map (TransactionService.view_of (rows cats)) of_category) /\
    of_category ≡ₚ
      filter (fun r => sql_eq (t_category_id r) (JNum (inject_Z k)) = true) (rows txs) /\
    Sorted newest_first of_category /\
    fst (TransactionService.getTransactionsByCategory 0 w) =
      fst (TransactionService.getAllTransactions TransactionService.no_filters w).
Proof.
  intros Ht Hc Hs He Hk.
  unfold TransactionService.getTransactionsByDateRange,
    TransactionService.getTransactionsByCategory.
  rewrite !(getAllTransactions_run w txs cats _ Ht Hc). cbn [fst snd].
  change (given_number (TransactionService.f_limit _)) with (@None Z).
  change (given_number (TransactionService.f_offset _)) with (@None Z).
  cbn [page].
  set (range := {| TransactionService.f_startDate := Some s;
                   TransactionService.f_endDate := Some e;
                   TransactionService.f_category_id := None;
                   TransactionService.f_type := None;
                   TransactionService.f_limit := None;
                   TransactionService.f_offset := None |}).
  set (category := {| TransactionService.f_startDate := None;
                      TransactionService.f_endDate := None;
                      TransactionService.f_category_id := Some k;
                      TransactionService.f_type := None;
                      TransactionService.f_limit := None;
                      TransactionService.f_offset := None |}).
  assert (Hrange : filter (fun r => selected range r = true) (rows txs) =
                   filter (fun r => in_window (JStr s) (JStr e) r = true) (rows txs)).
  { apply list_filter_iff. intros r. unfold selected, range, in_window.
    cbn [TransactionService.f_startDate TransactionService.f_endDate
         TransactionService.f_category_id TransactionService.f_type].
    rewrite (given_text_some s Hs), (given_text_some e He).
    cbn [from_option given_number given_text]. now rewrite !andb_true_r. }
  assert (Hcat : filter (fun r => selected category r = true) (rows txs) =
                 filter (fun r => sql_eq (t_category_id r) (JNum (inject_Z k)) = true)
                   (rows txs)).
  { apply list_filter_iff. intros r. unfold selected, category.
    cbn [TransactionService.f_startDate TransactionService.f_endDate
         TransactionService.f_category_id TransactionService.f_type].
    rewrite (given_number_some k Hk).
    cbn [from_option given_text]. now rewrite andb_true_r. }
  rewrite Hrange, Hcat.
  exists (merge_sort newest_first
            (filter (fun r => in_window (JStr s) (JStr e) r = true) (rows txs))),
    (merge_sort newest_first
       (filter (fun r => sql_eq (t_category_id r) (JNum (inject_Z k)) = true) (rows txs))).
  eexists.
  split; [reflexivity|]. split; [apply merge_sort_Permutation|].
  split; [apply Sorted_merge_sort; apply _|].
  split.
  { unfold TransactionService.getTransactionSummary.
    erewrite bind_ok
      by (apply executeSql_ok; unfold TransactionService.select_summary;
          rewrite Ht; reflexivity).
    reflexivity. }
  split.
  { cbn [total_count]. symmetry. apply Permutation_length, merge_sort_Permutation. }
  split; [reflexivity|]. split; [apply merge_sort_Permutation|].
  split; [apply Sorted_merge_sort; apply _|].
  reflexivity.
Qed.

Lemma range_and_category_listings_witness :
  exists in_range sm,
    fst (TransactionService.getTransactionsByDateRange "2026-01-01" "2026-01-15"
           world_at_80_percent) =
      Ok (map (TransactionService.view_of
                 (rows (the (categories (store world_at_80_percent))))) in_range) /\
    fst (TransactionService.getTransactionSummary (JStr "2026-01-01") (JStr "2026-01-15")
           world_at_80_percent) = Ok sm /\
    total_count sm = length in_range.
Proof.
  assert (H1 : transactions (store world_at_80_percent) =
               Some (the (transactions (store world_at_80_percent))))
    by (vm_compute; reflexivity).
  assert (H2 : categories (store world_at_80_percent) =
               Some (the (categories (store world_at_80_percent))))
    by (vm_compute; reflexivity).
  destruct (range_and_category_listings world_at_80_percent _ _
              "2026-01-01" "2026-01-15" 1 H1 H2)
    as (in_range & _ & sm & E & _ & _ & S & L & _); [discriminate|discriminate|lia|].
  exists in_range, sm. repeat split; assumption.
Defined.

Lemma views_of_row (cats : list category) (b : budget) (bv : budget_view) :
  In bv (BudgetService.views_of cats b) -> bv_row bv = b.
Proof.
  unfold BudgetService.views_of. intros H. apply in_map_iff in H.
  destruct H as (c & <- & _). reflexivity.
Qed.

(** X30 — Listing categories and budgets.  [getAllCategories] returns every
    category row once, default ones first and by name among equals.
    [getAllBudgets] returns every budget beside its category, latest
    created first.  [getActiveBudgets], for a date that is a text (today
    when none is given), returns exactly those of them that started on or
    before the date and have no end date or one on or after it.  None of
    them changes the database. *)
Theorem category_and_budget_listings (w : world) (cats : table category)
    (buds : table budget) (date : jsval) :
  categories (store w) = Some cats ->
  budgets (store w) = Some buds ->
  keeps_text (js_or date JNull) ->
  let checkDate := js_or date (JStr (before_T (clock w))) in
  exists listed_categories listed_budgets active,
    fst (CategoryService.getAllCategories w) = Ok listed_categories /\
    listed_categories ≡ₚ rows cats /\
    Sorted defaults_first listed_categories /\
    fst (BudgetService.getAllBudgets w) = Ok listed_budgets /\
    listed_budgets ≡ₚ flat_map (BudgetService.views_of (rows cats)) (rows buds) /\
    Sorted latest_first listed_budgets /\
    fst (BudgetService.getActiveBudgets date w) = Ok active /\
    Sorted latest_first active /\
    (forall bv, bv ∈ active <->
       bv ∈ listed_budgets /\
       sql_le (b_start_date (bv_row bv)) checkDate = true /\
       (is_sql_null (b_end_date (bv_row bv)) = true \/
        sql_le checkDate (b_end_date (bv_row bv)) = true)) /\
    store (snd (CategoryService.getAllCategories w)) = store w /\
    store (snd (BudgetService.getAllBudgets w)) = store w /\
    store (snd (BudgetService.getActiveBudgets date w)) = store w.
Proof.
  intros Hc Hb _ checkDate.
  assert (R1 : CategoryService.getAllCategories w =
               (Ok (merge_sort defaults_first (rows cats)), ran w (store w))).
  { apply executeSql_ok. unfold CategoryService.select_categories. now rewrite Hc. }
  assert (R2 : BudgetService.getAllBudgets w =
               (Ok (merge_sort latest_first
                      (flat_map (BudgetService.views_of (rows cats)) (rows buds))),
                ran w (store w))).
  { apply executeSql_ok. unfold BudgetService.select_budgets. now rewrite Hb, Hc. }
  assert (R3 : BudgetService.getActiveBudgets date w =
               (Ok (merge_sort latest_first
                      (flat_map (BudgetService.views_of (rows cats))
                         (filter (fun r => BudgetService.active_on checkDate r = true)
                            (rows buds)))),
                ran w (store w))).
  { unfold BudgetService.getActiveBudgets. unfold today at 1. unfold bind at 1.
    cbv beta iota. apply executeSql_ok. unfold BudgetService.select_active_budgets.
    now rewrite Hb, Hc. }
  rewrite R1, R2, R3. cbn [fst snd].
  do 3 eexists.
  split; [reflexivity|]. split; [apply merge_sort_Permutation|].
  split; [apply Sorted_merge_sort; apply _|].
  split; [reflexivity|]. split; [apply merge_sort_Permutation|].
  split; [apply Sorted_merge_sort; apply _|].
  split; [reflexivity|].
  split; [apply Sorted_merge_sort; apply _|].
  split; [|repeat split].
  intros bv. rewrite !merge_sort_Permutation, !list_elem_of_In, !in_flat_map.
  split.
  - intros (b & Hin & Hbv). apply list_elem_of_In, list_elem_of_filter in Hin.
    destruct Hin as [Hact Hin].
    rewrite (views_of_row _ _ _ Hbv).
    unfold BudgetService.active_on in Hact. apply andb_true_iff in Hact.
    destruct Hact as [H1 H2]. apply orb_true_iff in H2.
    split; [|split; assumption].
    exists b. split; [now apply list_elem_of_In|exact Hbv].
  - intros ((b & Hin & Hbv) & H1 & H2).
    exists b. split; [|exact Hbv].
    apply list_elem_of_In, list_elem_of_filter. split; [|now apply list_elem_of_In].
    rewrite (views_of_row _ _ _ Hbv) in H1, H2.
    unfold BudgetService.active_on. rewrite H1. apply orb_true_iff in H2. now rewrite H2.
Qed.

Lemma category_and_budget_listings_witness :
  exists listed_budgets active,
    fst (BudgetService.getAllBudgets world_with_budget) = Ok listed_budgets /\
    fst (BudgetService.getActiveBudgets (JStr "2026-01-15") world_with_budget) = Ok active /\
    forall bv, bv ∈ active -> bv ∈ listed_budgets.
Proof.
  assert (H1 : categories (store world_with_budget) =
               Some (the (categories (store world_with_budget))))
    by (vm_compute; reflexivity).
  assert (H2 : budgets (store world_with_budget) =
               Some (the (budgets (store world_with_budget))))
    by (vm_compute; reflexivity).
  destruct (category_and_budget_listings world_with_budget _ _ (JStr "2026-01-15") H1 H2 I)
    as (_ & listed_budgets & active & _ & _ & _ & E & _ & _ & A & _ & M & _).
  exists listed_budgets, active. split; [exact E|]. split; [exact A|].
  intros bv Hbv. exact (proj1 (proj1 (M bv) Hbv)).
Defined.
